(** * Job tracker backend: routes, validation and models

    A shallow embedding of the Express/Mongoose backend:
    - [src/middleware/validation.js]  (express-validator chains),
    - the Mongoose schemas of [Job] and [Feedback],
    - [src/routes/jobs.js], and the feedback and admin routers.

    Collections are lists of documents in insertion order.  Handlers run in
    a small state-and-exception monad over a [World] (database, clock,
    socket): a thrown exception leaves every earlier write in place, exactly
    as a JavaScript [try]/[catch] around awaited Mongoose calls does. *)

From Stdlib Require Import ZArith QArith Qround String Ascii List Lia Lqa.
From stdpp Require Import gmap strings list.
From stdpp Require Import sorting.

Local Open Scope string_scope.
Local Open Scope Z_scope.

(** ** Values shared by all modules *)

(** A well-formed Mongo [ObjectId]; route parameters are taken after the
    cast, so a malformed [:id] (a [CastError]) is outside this model. *)
Definition ObjectId := nat.
Bind Scope nat_scope with ObjectId.

(** A JavaScript [Date], as milliseconds since the epoch. *)
Definition Date := Z.
Bind Scope Z_scope with Date.

(** ** JavaScript helpers *)

Module JS.

(** The white space stripped by [String.prototype.trim] within ASCII. *)
Definition is_ws (c : ascii) : bool :=
  match nat_of_ascii c with
  | 9%nat | 10%nat | 11%nat | 12%nat | 13%nat | 32%nat => true
  | _ => false
  end.

Fixpoint trimStart (s : string) : string :=
  match s with
  | EmptyString => EmptyString
  | String c s' => if is_ws c then trimStart s' else s
  end.

Fixpoint trimEnd (s : string) : string :=
  match s with
  | EmptyString => EmptyString
  | String c s' =>
      match trimEnd s' with
      | EmptyString => if is_ws c then EmptyString else String c EmptyString
      | t => String c t
      end
  end.

Definition trim (s : string) : string := trimEnd (trimStart s).

(** Truthiness of an optional string: [undefined] and [''] are falsy. *)
Definition truthy (v : option string) : bool :=
  match v with
  | None => false
  | Some s => negb (String.eqb s "")
  end.

(** [x || d] on numbers: [0] is falsy. *)
Definition or_num (x d : Q) : Q := if Qeq_bool x 0 then d else x.

(** [Math.ceil(a / b)] on integers: the quotient is taken exactly; a zero
    divisor gives [Infinity] or [NaN], which JSON prints as [null]. *)
Definition Math_ceil_div (a b : Z) : option Z :=
  if b =? 0 then None else Some (Qceiling (inject_Z a / inject_Z b)).

(** [Math.round(x)]: the nearest integer, halves rounded up. *)
Definition Math_round (q : Q) : Z := Qfloor (q + (1 # 2)).

Definition lower (c : ascii) : ascii :=
  let n := nat_of_ascii c in
  if ((65 <=? n) && (n <=? 90))%nat then ascii_of_nat (n + 32) else c.

(** [String.prototype.toLowerCase] within ASCII. *)
Fixpoint toLowerCase (s : string) : string :=
  match s with
  | EmptyString => EmptyString
  | String c s' => String (lower c) (toLowerCase s')
  end.

(** [Array.prototype.includes] on strings. *)
Definition includes (l : list string) (s : string) : bool :=
  existsb (String.eqb s) l.

End JS.

(** ** What the platform libraries provide

    [validator.js], the JavaScript engine and the Mongo server are not part
    of the repository; the routes only rely on the functions below. *)
Class Platform := {
  (** [validator.isISO8601] *)
  isISO8601 : string -> bool;
  (** no ISO 8601 date is empty: the pattern starts with a year *)
  isISO8601_empty : isISO8601 "" = false;
  (** Mongoose's cast of a string to [Date]; [None] is a [CastError] *)
  castDate : string -> option Date;
  (** [validator.isEmail] and the [normalizeEmail] sanitizer *)
  isEmail : string -> bool;
  normalizeEmail : string -> string;
  (** the [match] pattern of the Feedback schema's [email] path *)
  emailPattern : string -> bool;
  (** a case-insensitive [$regex] match of a pattern against a field *)
  regexTest : string -> string -> bool;
  (** whether the server takes a string as a [$regex] pattern; a query with
      a pattern it does not take fails *)
  regexValid : string -> bool;
  (** whether the server takes a string as the key of a sort; a query
      sorted on a key it does not take fails, and the empty key is one *)
  sortKey : string -> bool;
  sortKey_empty : sortKey "" = false;
  (** the number a numeral of the query string is converted to, and the
      number an arithmetic result is rounded to: the nearest double, which
      is the integer itself up to [2 ^ 53] *)
  toNumber : Z -> Z;
  toNumber_safe : forall z, Z.abs z <= 2 ^ 53 -> toNumber z = z;
  (** [parseInt] of a numeral, exact in the same range *)
  parseInt : Z -> Z;
  parseInt_safe : forall z, Z.abs z <= 2 ^ 53 -> parseInt z = z;
  (** [d.setDate(d.getDate() - n)]: the same local time of day, [n]
      calendar days earlier *)
  minusDays : Z -> Date -> Date
}.

(** ** Arithmetic on the numerals of a query string

    [page] and [limit] arrive as strings; each arithmetic operator converts
    them to numbers and rounds its result. *)

Section Numbers.
Context `{Platform}.

(** [limit * 1] *)
Definition times_one (limit : Z) : Z := toNumber (toNumber limit * 1).

(** [(page - 1) * limit] *)
Definition skipped (page limit : Z) : Z :=
  toNumber (toNumber (toNumber page - 1) * toNumber limit).
End Numbers.

(** ** The schemas *)

(** Modelled from the spec: [models/User.js] is not among the sources; the
    record has the fields the spec lists for a User (identity, display name,
    e-mail, role, active flag, timestamps). *)
Module User.
Record t := mk {
  _id : ObjectId;
  name : string;
  email : string;
  role : string;
  isActive : bool;
  createdAt : Date;
  updatedAt : Date
}.

Definition set_isActive (b : bool) (u : t) : t :=
  mk (_id u) (name u) (email u) (role u) b (createdAt u) (updatedAt u).

Definition set_updatedAt (d : Date) (u : t) : t :=
  mk (_id u) (name u) (email u) (role u) (isActive u) (createdAt u) d.
End User.

Module Job.
(** [jobSchema] *)
Record t := mk {
  _id : ObjectId;
  user : ObjectId;
  company : string;
  position : string;
  status : string;
  appliedDate : Date;
  notes : option string;
  salary : option Z;
  location : option string;
  jobUrl : option string;
  createdAt : Date;
  updatedAt : Date
}.

(** [enum: ['applied', 'interview', 'offer', 'rejected', 'accepted']] *)
Definition statuses : list string :=
  ["applied"; "interview"; "offer"; "rejected"; "accepted"].

(** The fields a client may send: [req.body], as [express.json()] has
    parsed it.  String fields are strings, [salary] is a number with an
    integer value; [None] is an absent key. *)
Record body := mkBody {
  b_company : option string;
  b_position : option string;
  b_status : option string;
  b_appliedDate : option string;
  b_notes : option string;
  b_salary : option Z;
  b_location : option string;
  b_jobUrl : option string
}.
End Job.

Module Feedback.
(** [feedbackSchema] *)
Record t := mk {
  _id : ObjectId;
  name : option string;
  email : option string;
  feedback : string;
  rating : Z;
  category : string;
  isPublic : bool;
  status : string;
  createdAt : Date;
  updatedAt : Date
}.

Definition statuses : list string := ["pending"; "reviewed"; "resolved"].
Definition categories : list string :=
  ["general"; "feature"; "bug"; "improvement"].

Record body := mkBody {
  b_name : option string;
  b_email : option string;
  b_feedback : option string;
  b_rating : option Z;
  b_category : option string;
  b_isPublic : option bool;
  b_status : option string
}.
End Feedback.

(** ** Notifications and responses *)

(** The payloads of the four socket events; the constructor is the event
    name. *)
Inductive Event :=
| job_created (message : string) (job : Job.t) (user : string)
| job_status_updated (message : string) (job : Job.t) (user : string)
    (oldStatus newStatus : string)
| job_deleted (message : string) (job : Job.t) (user : string)
| new_feedback (message : string) (feedback : Feedback.t) (timestamp : Date).

(** The name an event is published under. *)
Definition event_name (e : Event) : string :=
  match e with
  | job_created _ _ _ => "job-created"
  | job_status_updated _ _ _ _ _ => "job-status-updated"
  | job_deleted _ _ _ => "job-deleted"
  | new_feedback _ _ _ => "new-feedback"
  end.

(** One call of [emit]: [room = None] is a broadcast ([req.io.emit]),
    [Some r] is [req.io.to(r).emit]. *)
Record Emission := mkEmission { room : option string; event : Event }.

(** A row of a [$group] stage: [{ _id, count }]. *)
Definition Row (K : Type) := (K * nat)%type.

Inductive Payload :=
| NoData
| Errors (errors : list (string * string))
| JobData (data : Job.t)
| JobPage (count total : nat) (page : Z) (pages : option Z)
    (data : list Job.t)
| JobStats (totalJobs : nat) (statusStats : gmap string nat)
    (recentJobs : list Job.t)
| FeedbackData (data : Feedback.t)
| FeedbackPage (count total : nat) (page : Z) (pages : option Z)
    (data : list Feedback.t)
| FeedbackStats (totalFeedbacks : nat) (averageRating : Q)
    (ratingDistribution : gmap Z nat)
| AdminStats (totalUsers totalJobs totalFeedbacks : nat) (averageRating : Q)
    (jobStatusStats : list (Row string)) (feedbackRatingStats : list (Row Z))
    (recentUsers : list User.t) (recentJobs : list Job.t)
    (recentFeedbacks : list Feedback.t) (newUsers newJobs newFeedbacks : nat)
| UserData (data : User.t)
| UserPage (count total : nat) (page : Z) (pages : option Z)
    (data : list (User.t * nat)).

(** The JSON envelope together with the HTTP status. *)
Record Response := mkResponse {
  code : nat;
  success : bool;
  message : option string;
  payload : Payload
}.

Definition ok (c : nat) (msg : option string) (p : Payload) : Response :=
  mkResponse c true msg p.

Definition fail (c : nat) (msg : string) : Response :=
  mkResponse c false (Some msg) NoData.

(** ** The world a handler runs in *)

Record World := mkWorld {
  users : list User.t;
  jobs : list Job.t;
  feedbacks : list Feedback.t;
  nextId : ObjectId;          (* the next fresh [_id] *)
  now : Date;                 (* [Date.now()] *)
  ioUp : bool;                (* [false]: the publish primitive throws *)
  emitted : list Emission     (* what has been published, oldest first *)
}.

Definition set_users (us : list User.t) (w : World) : World :=
  mkWorld us (jobs w) (feedbacks w) (nextId w) (now w) (ioUp w) (emitted w).
Definition set_jobs (js : list Job.t) (w : World) : World :=
  mkWorld (users w) js (feedbacks w) (nextId w) (now w) (ioUp w) (emitted w).
Definition set_feedbacks (fs : list Feedback.t) (w : World) : World :=
  mkWorld (users w) (jobs w) fs (nextId w) (now w) (ioUp w) (emitted w).
Definition set_nextId (n : ObjectId) (w : World) : World :=
  mkWorld (users w) (jobs w) (feedbacks w) n (now w) (ioUp w) (emitted w).
Definition set_emitted (es : list Emission) (w : World) : World :=
  mkWorld (users w) (jobs w) (feedbacks w) (nextId w) (now w) (ioUp w) es.

Inductive Exn :=
| ValidationError   (* a schema validator rejected a document or update *)
| CastError         (* a value could not be cast to its schema type *)
| TypeError         (* a property of [null] was read *)
| MongoError        (* the server rejected the query *)
| SocketError.      (* the publish primitive threw *)

(** State and exceptions: the state reached when an exception is thrown is
    kept, nothing is rolled back. *)
Definition M (A : Type) : Type := World -> World * (Exn + A).

Definition ret {A} (a : A) : M A := fun w => (w, inr a).
Definition throw {A} (e : Exn) : M A := fun w => (w, inl e).
Definition bind {A B} (m : M A) (k : A -> M B) : M B :=
  fun w => match m w with
           | (w', inl e) => (w', inl e)
           | (w', inr a) => k a w'
           end.
Definition get : M World := fun w => (w, inr w).
Definition modify (f : World -> World) : M unit := fun w => (f w, inr tt).
Definition lift {A} (r : Exn + A) : M A := fun w => (w, r).

Declare Scope handler_scope.
Delimit Scope handler_scope with handler.
Notation "x <- m ;; k" := (bind m (fun x => k))
  (at level 100, m at next level, right associativity) : handler_scope.
Notation "m ;;; k" := (bind m (fun _ => k))
  (at level 100, right associativity) : handler_scope.

(** [try { body } catch (error) { res.status(500).json(...) }] *)
Definition try_catch (body : M Response) (onError : Response)
  : World -> World * Response :=
  fun w => match body w with
           | (w', inr r) => (w', r)
           | (w', inl _) => (w', onError)
           end.

(** The publish primitive. *)
Definition emit (r : option string) (e : Event) : M unit :=
  fun w => if ioUp w
           then (set_emitted (emitted w ++ [mkEmission r e]) w, inr tt)
           else (w, inl SocketError).

(** ** Queries over a collection *)

Section Collection.
Context {A : Type}.

Fixpoint insert_by (le : A -> A -> bool) (x : A) (l : list A) : list A :=
  match l with
  | [] => [x]
  | y :: l' => if le x y then x :: l else y :: insert_by le x l'
  end.

(** [.sort(...)]: an insertion sort, stable on ties (Mongo leaves the order
    of ties open). *)
Definition sort_by (le : A -> A -> bool) (l : list A) : list A :=
  foldr (insert_by le) [] l.

(** [.limit(limit).skip(skip)] on a cursor: the skip is applied first; a
    negative skip is rejected by the server, [limit(0)] is no limit and a
    negative limit counts as its absolute value. *)
Definition limit_skip (limit skip : Z) (l : list A) : Exn + list A :=
  if skip <? 0 then inl MongoError
  else
    let rest := drop (Z.to_nat skip) l in
    inr (if limit =? 0 then rest else take (Z.to_nat (Z.abs limit)) rest).

(** Replace the first document satisfying [p] by its image under [f]. *)
Fixpoint update_first (p : A -> bool) (f : A -> A) (l : list A) : list A :=
  match l with
  | [] => []
  | x :: l' => if p x then f x :: l' else x :: update_first p f l'
  end.

(** Remove the first document satisfying [p]. *)
Fixpoint delete_first (p : A -> bool) (l : list A) : list A :=
  match l with
  | [] => []
  | x :: l' => if p x then l' else x :: delete_first p l'
  end.
End Collection.

Section Group.
Context {K : Type} `{EqDecision K}.

Fixpoint bump (k : K) (rows : list (Row K)) : list (Row K) :=
  match rows with
  | [] => [(k, 1%nat)]
  | (k', n) :: rows' =>
      if decide (k = k') then (k', S n) :: rows' else (k', n) :: bump k rows'
  end.

(** [{ $group: { _id: '$field', count: { $sum: 1 } } }] over the values of
    the field, one row per distinct value, in order of first occurrence. *)
Definition group_count (keys : list K) : list (Row K) :=
  foldl (fun rows k => bump k rows) [] keys.
End Group.

(** [{ $group: { _id: null, avgRating: { $avg: '$rating' } } }]: no row for
    an empty collection, else one row holding the mean. *)
Definition group_avg (ratings : list Z) : list Q :=
  match ratings with
  | [] => []
  | _ => [Qdiv (inject_Z (foldr Z.add 0 ratings))
                (inject_Z (Z.of_nat (length ratings)))]
  end.

(** BSON values as the server orders them in a sort: across types by type
    (null, numbers, strings, object ids, dates), within a type by value. *)
Inductive Bson :=
| BNull
| BNum (z : Z)
| BStr (s : string)
| BOid (o : ObjectId)
| BDate (d : Date).

Definition bson_rank (b : Bson) : Z :=
  match b with
  | BNull => 0 | BNum _ => 1 | BStr _ => 2 | BOid _ => 3 | BDate _ => 4
  end.

Definition bson_leb (a b : Bson) : bool :=
  match a, b with
  | BNum x, BNum y => x <=? y
  | BStr x, BStr y => String.leb x y
  | BOid x, BOid y => (x <=? y)%nat
  | BDate x, BDate y => x <=? y
  | _, _ => bson_rank a <=? bson_rank b
  end.

Definition bson_opt {A} (f : A -> Bson) (o : option A) : Bson :=
  match o with Some a => f a | None => BNull end.

(** [{ [field]: direction }]: [-1] descending, anything else ascending. *)
Definition sort_leb {A} (key : A -> Bson) (direction : Z) (x y : A) : bool :=
  if direction =? -1 then bson_leb (key y) (key x)
  else bson_leb (key x) (key y).

(** ** The Mongoose models *)

Definition by_id {A} (_id : A -> ObjectId) (id : ObjectId) (x : A) : bool :=
  (_id x =? id)%nat.

Definition maxlength (n : nat) (s : string) : bool :=
  (String.length s <=? n)%nat.

(** A validator on an optional path runs only when the path has a value. *)
Definition opt_ok {A} (p : A -> bool) (o : option A) : bool :=
  match o with Some a => p a | None => true end.

Definition check (b : bool) : M unit :=
  if b then ret tt else throw ValidationError.

Section Models.
Context `{Platform}.
Local Open Scope handler_scope.

(** *** Job *)

(** [required] on a string path fails on the empty string as well. *)
Definition Job_company_ok (s : string) : bool :=
  negb (String.eqb s "") && maxlength 100 s.
Definition Job_status_ok (s : string) : bool := JS.includes Job.statuses s.
Definition Job_salary_ok (z : Z) : bool := 0 <=? z.

(** The date stored for [appliedDate]: the cast of what was sent. *)
Definition Job_cast_appliedDate (v : option string) : M (option Date) :=
  match v with
  | None => ret None
  | Some s => match castDate s with
              | Some d => ret (Some d)
              | None => throw CastError
              end
  end.

(** The document [new Job(jobData)] builds: setters ([trim]) and defaults
    ([status: 'applied'], [appliedDate: Date.now]) applied, time stamps
    set. *)
Definition Job_document (id uid : ObjectId) (t : Date)
    (applied : option Date) (b : Job.body) : Job.t :=
  Job.mk id uid
    (JS.trim (default "" (Job.b_company b)))
    (JS.trim (default "" (Job.b_position b)))
    (default "applied" (Job.b_status b))
    (default t applied)
    (Job.b_notes b)
    (Job.b_salary b)
    (JS.trim <$> Job.b_location b)
    (JS.trim <$> Job.b_jobUrl b)
    t t.

(** The schema validators, run on [save]. *)
Definition Job_validate (j : Job.t) : bool :=
  Job_company_ok (Job.company j)
  && Job_company_ok (Job.position j)
  && Job_status_ok (Job.status j)
  && opt_ok (maxlength 500) (Job.notes j)
  && opt_ok Job_salary_ok (Job.salary j)
  && opt_ok (maxlength 100) (Job.location j).

(** [Job.create({ ...req.body, user })] *)
Definition Job_create (uid : ObjectId) (b : Job.body) : M Job.t :=
  w <- get ;;
  applied <- Job_cast_appliedDate (Job.b_appliedDate b) ;;
  let job := Job_document (nextId w) uid (now w) applied b in
  check (Job_validate job) ;;;
  modify (fun w => set_nextId (S (nextId w)) (set_jobs (jobs w ++ [job]) w)) ;;;
  ret job.

(** The filter [{ _id: id, user: uid }]. *)
Definition owned (id uid : ObjectId) (j : Job.t) : bool :=
  by_id Job._id id j && (Job.user j =? uid)%nat.

(** [Job.findOne({ _id, user })] *)
Definition Job_findOne (id uid : ObjectId) : M (option Job.t) :=
  w <- get ;;
  ret (List.find (owned id uid) (jobs w)).

(** The update validators ([runValidators: true]) run on the paths the
    update sets, after the setters. *)
Definition Job_update_ok (b : Job.body) : bool :=
  opt_ok (fun s => Job_company_ok (JS.trim s)) (Job.b_company b)
  && opt_ok (fun s => Job_company_ok (JS.trim s)) (Job.b_position b)
  && opt_ok Job_status_ok (Job.b_status b)
  && opt_ok (maxlength 500) (Job.b_notes b)
  && opt_ok Job_salary_ok (Job.b_salary b)
  && opt_ok (fun s => maxlength 100 (JS.trim s)) (Job.b_location b).

(** [$set] of the paths present in the update; [updatedAt] is refreshed. *)
Definition Job_apply (t : Date) (applied : option Date) (b : Job.body)
    (j : Job.t) : Job.t :=
  Job.mk (Job._id j) (Job.user j)
    (default (Job.company j) (JS.trim <$> Job.b_company b))
    (default (Job.position j) (JS.trim <$> Job.b_position b))
    (default (Job.status j) (Job.b_status b))
    (default (Job.appliedDate j) applied)
    (match Job.b_notes b with Some s => Some s | None => Job.notes j end)
    (match Job.b_salary b with Some z => Some z | None => Job.salary j end)
    (match Job.b_location b with
     | Some s => Some (JS.trim s) | None => Job.location j end)
    (match Job.b_jobUrl b with
     | Some s => Some (JS.trim s) | None => Job.jobUrl j end)
    (Job.createdAt j) t.

(** [Job.findByIdAndUpdate(id, update, { new: true, runValidators: true })]:
    the updated document, or [null] when no document has this id. *)
Definition Job_findByIdAndUpdate (id : ObjectId) (b : Job.body)
  : M (option Job.t) :=
  applied <- Job_cast_appliedDate (Job.b_appliedDate b) ;;
  check (Job_update_ok b) ;;;
  w <- get ;;
  match List.find (by_id Job._id id) (jobs w) with
  | None => ret None
  | Some j =>
      let j' := Job_apply (now w) applied b j in
      modify (fun w => set_jobs
                (update_first (by_id Job._id id) (fun _ => j') (jobs w)) w) ;;;
      ret (Some j')
  end.

(** [Job.findByIdAndDelete(id)] *)
Definition Job_findByIdAndDelete (id : ObjectId) : M unit :=
  modify (fun w => set_jobs (delete_first (by_id Job._id id) (jobs w)) w).

(** A query sorted on a key the server does not take fails. *)
Definition check_sort (key : string) : M unit :=
  if sortKey key then ret tt else throw MongoError.

(** A query with a [$regex] pattern the server does not take fails; a
    [search] that is not truthy puts no pattern into the query. *)
Definition pattern_ok (search : option string) : bool :=
  if JS.truthy search then regexValid (default "" search) else true.

Definition check_pattern (search : option string) : M unit :=
  if pattern_ok search then ret tt else throw MongoError.

(** The value a document is sorted on under [{ [field]: ... }]; a path the
    document does not have sorts as [null]. *)
Definition Job_field (field : string) (j : Job.t) : Bson :=
  if String.eqb field "_id" then BOid (Job._id j)
  else if String.eqb field "user" then BOid (Job.user j)
  else if String.eqb field "company" then BStr (Job.company j)
  else if String.eqb field "position" then BStr (Job.position j)
  else if String.eqb field "status" then BStr (Job.status j)
  else if String.eqb field "appliedDate" then BDate (Job.appliedDate j)
  else if String.eqb field "notes" then bson_opt BStr (Job.notes j)
  else if String.eqb field "salary" then bson_opt BNum (Job.salary j)
  else if String.eqb field "location" then bson_opt BStr (Job.location j)
  else if String.eqb field "jobUrl" then bson_opt BStr (Job.jobUrl j)
  else if String.eqb field "createdAt" then BDate (Job.createdAt j)
  else if String.eqb field "updatedAt" then BDate (Job.updatedAt j)
  else BNull.

(** The filter object a list route builds for [Job.find]. *)
Record JobQuery := mkJobQuery {
  q_user : option ObjectId;
  q_status : option string;
  q_search : option string      (* [$or] of [$regex] on company, position *)
}.

Definition Job_matches (q : JobQuery) (j : Job.t) : bool :=
  opt_ok (fun u => (Job.user j =? u)%nat) (q_user q)
  && opt_ok (fun s => String.eqb (Job.status j) s) (q_status q)
  && opt_ok (fun s => regexTest s (Job.company j)
                      || regexTest s (Job.position j)) (q_search q).

(** [Job.find(query)], in natural order. *)
Definition Job_find (q : JobQuery) (w : World) : list Job.t :=
  List.filter (Job_matches q) (jobs w).

(** [Job.countDocuments(query)] *)
Definition Job_countDocuments (q : JobQuery) (w : World) : nat :=
  length (Job_find q w).

(** *** Feedback *)

Definition Feedback_text_ok (s : string) : bool :=
  negb (String.eqb s "") && maxlength 1000 s.
Definition Feedback_rating_ok (z : Z) : bool := (1 <=? z) && (z <=? 5).
Definition Feedback_status_ok (s : string) : bool :=
  JS.includes Feedback.statuses s.

Definition Feedback_document (id : ObjectId) (t : Date) (r : Z)
    (b : Feedback.body) : Feedback.t :=
  Feedback.mk id
    (JS.trim <$> Feedback.b_name b)
    ((fun s => JS.toLowerCase (JS.trim s)) <$> Feedback.b_email b)
    (JS.trim (default "" (Feedback.b_feedback b)))
    r
    (default "general" (Feedback.b_category b))
    (default true (Feedback.b_isPublic b))
    (default "pending" (Feedback.b_status b))
    t t.

Definition Feedback_validate (f : Feedback.t) : bool :=
  opt_ok (maxlength 50) (Feedback.name f)
  && opt_ok emailPattern (Feedback.email f)
  && Feedback_text_ok (Feedback.feedback f)
  && Feedback_rating_ok (Feedback.rating f)
  && JS.includes Feedback.categories (Feedback.category f)
  && Feedback_status_ok (Feedback.status f).

(** [Feedback.create(req.body)]; a missing [rating] fails [required]. *)
Definition Feedback_create (b : Feedback.body) : M Feedback.t :=
  w <- get ;;
  match Feedback.b_rating b with
  | None => throw ValidationError
  | Some r =>
      let doc := Feedback_document (nextId w) (now w) r b in
      check (Feedback_validate doc) ;;;
      modify (fun w => set_nextId (S (nextId w))
                         (set_feedbacks (feedbacks w ++ [doc]) w)) ;;;
      ret doc
  end.

Definition Feedback_set_status (t : Date) (s : string) (f : Feedback.t)
  : Feedback.t :=
  Feedback.mk (Feedback._id f) (Feedback.name f) (Feedback.email f)
    (Feedback.feedback f) (Feedback.rating f) (Feedback.category f)
    (Feedback.isPublic f) s (Feedback.createdAt f) t.

(** [Feedback.findByIdAndUpdate(id, { status }, { new: true,
    runValidators: true })] *)
Definition Feedback_findByIdAndUpdate_status (id : ObjectId) (s : string)
  : M (option Feedback.t) :=
  check (Feedback_status_ok s) ;;;
  w <- get ;;
  match List.find (by_id Feedback._id id) (feedbacks w) with
  | None => ret None
  | Some f =>
      let f' := Feedback_set_status (now w) s f in
      modify (fun w => set_feedbacks
                (update_first (by_id Feedback._id id) (fun _ => f')
                   (feedbacks w)) w) ;;;
      ret (Some f')
  end.

(** [Feedback.findById(id)] *)
Definition Feedback_findById (id : ObjectId) : M (option Feedback.t) :=
  w <- get ;;
  ret (List.find (by_id Feedback._id id) (feedbacks w)).

(** [Feedback.findByIdAndDelete(id)] *)
Definition Feedback_findByIdAndDelete (id : ObjectId) : M unit :=
  modify (fun w => set_feedbacks
            (delete_first (by_id Feedback._id id) (feedbacks w)) w).

Record FeedbackQuery := mkFeedbackQuery {
  fq_isPublic : option bool;
  fq_rating : option Z;
  fq_status : option string
}.

Definition Feedback_matches (q : FeedbackQuery) (f : Feedback.t) : bool :=
  opt_ok (fun b => Bool.eqb (Feedback.isPublic f) b) (fq_isPublic q)
  && opt_ok (fun r => Feedback.rating f =? r) (fq_rating q)
  && opt_ok (fun s => String.eqb (Feedback.status f) s) (fq_status q).

Definition Feedback_find (q : FeedbackQuery) (w : World)
  : list Feedback.t :=
  List.filter (Feedback_matches q) (feedbacks w).

Definition Feedback_countDocuments (q : FeedbackQuery) (w : World) : nat :=
  length (Feedback_find q w).

(** *** User *)

(** [User.findById(id)] *)
Definition User_findById (id : ObjectId) : M (option User.t) :=
  w <- get ;;
  ret (List.find (by_id User._id id) (users w)).

(** [user.save()]: the stored document with this [_id] is replaced and
    [updatedAt] refreshed. *)
Definition User_save (u : User.t) : M User.t :=
  w <- get ;;
  let u' := User.set_updatedAt (now w) u in
  modify (fun w => set_users
            (update_first (by_id User._id (User._id u)) (fun _ => u')
               (users w)) w) ;;;
  ret u'.
End Models.

(** ** [src/middleware/validation.js] *)

Module Validation.
Section Validation.
Context `{Platform}.

(** express-validator's [toString]: an absent field is validated as ['']. *)
Definition toString (v : option string) : string := default "" v.

Definition isLength (min max : nat) (s : string) : bool :=
  ((min <=? String.length s) && (String.length s <=? max))%nat.

(** [isNumeric] on a number with an integer value.  The chain checks the
    string JavaScript prints for it: an optional sign and digits below
    [10 ^ 21] in absolute value, which [isNumeric] takes, and the exponent
    form ([1e+21]) from there on, which it does not. *)
Definition isNumeric (z : Z) : bool := Z.abs z <? 10 ^ 21.

(** [isInt({ min, max })] on a number with an integer value: the string
    printed for it is in digits, and the number lies in the range. *)
Definition isInt (min max : Z) (z : Z) : bool :=
  isNumeric z && (min <=? z) && (z <=? max).

(** One chain: the error descriptor [(param, msg)] when the check fails. *)
Definition rule (param msg : string) (passed : bool)
  : list (string * string) :=
  if passed then [] else [(param, msg)].

(** [jobValidation]: the sanitized body and the errors of all chains. *)
Definition jobValidation (b : Job.body)
  : Job.body * list (string * string) :=
  let company := JS.trim (toString (Job.b_company b)) in
  let position := JS.trim (toString (Job.b_position b)) in
  (Job.mkBody (Some company) (Some position) (Job.b_status b)
     (Job.b_appliedDate b) (Job.b_notes b) (Job.b_salary b)
     (Job.b_location b) (Job.b_jobUrl b),
   concat
     [rule "company"
        "Company name is required and must not exceed 100 characters"
        (isLength 1 100 company);
      rule "position"
        "Position is required and must not exceed 100 characters"
        (isLength 1 100 position);
      rule "status" "Invalid status"
        (opt_ok (JS.includes Job.statuses) (Job.b_status b));
      rule "appliedDate" "Please provide a valid date"
        (isISO8601 (toString (Job.b_appliedDate b)));
      rule "notes" "Notes cannot exceed 500 characters"
        (opt_ok (isLength 0 500) (Job.b_notes b));
      rule "salary" "Salary must be a number"
        (opt_ok isNumeric (Job.b_salary b))]).

(** [feedbackValidation] *)
Definition feedbackValidation (b : Feedback.body)
  : Feedback.body * list (string * string) :=
  let feedback := JS.trim (toString (Feedback.b_feedback b)) in
  let name := JS.trim <$> Feedback.b_name b in
  (Feedback.mkBody name (normalizeEmail <$> Feedback.b_email b)
     (Some feedback) (Feedback.b_rating b) (Feedback.b_category b)
     (Feedback.b_isPublic b) (Feedback.b_status b),
   concat
     [rule "feedback"
        "Feedback is required and must not exceed 1000 characters"
        (isLength 1 1000 feedback);
      rule "rating" "Rating must be between 1 and 5"
        (match Feedback.b_rating b with
         | Some r => isInt 1 5 r
         | None => false
         end);
      rule "name" "Name cannot exceed 50 characters"
        (opt_ok (isLength 0 50) name);
      rule "email" "Please provide a valid email"
        (opt_ok isEmail (Feedback.b_email b))]).

(** The body of a registration: [{ name, email, password, role }]. *)
Record registration := mkRegistration {
  r_name : option string;
  r_email : option string;
  r_password : option string;
  r_role : option string
}.

(** The body of a login: [{ email, password }]. *)
Record credentials := mkCredentials {
  l_email : option string;
  l_password : option string
}.

(** [isLength({ min })] *)
Definition isLength_min (min : nat) (s : string) : bool :=
  (min <=? String.length s)%nat.

(** [notEmpty()] *)
Definition notEmpty (s : string) : bool := negb (String.eqb s "").

(** [registerValidation] *)
Definition registerValidation (b : registration)
  : registration * list (string * string) :=
  let name := JS.trim (toString (r_name b)) in
  let email := toString (r_email b) in
  (mkRegistration (Some name) (Some (normalizeEmail email)) (r_password b)
     (r_role b),
   concat
     [rule "name" "Name must be between 2 and 50 characters"
        (isLength 2 50 name);
      rule "email" "Please provide a valid email" (isEmail email);
      rule "password" "Password must be at least 6 characters long"
        (isLength_min 6 (toString (r_password b)));
      rule "role" "Role must be either applicant or admin"
        (opt_ok (JS.includes ["applicant"; "admin"]) (r_role b))]).

(** [loginValidation] *)
Definition loginValidation (b : credentials)
  : credentials * list (string * string) :=
  let email := toString (l_email b) in
  (mkCredentials (Some (normalizeEmail email)) (l_password b),
   concat
     [rule "email" "Please provide a valid email" (isEmail email);
      rule "password" "Password is required"
        (notEmpty (toString (l_password b)))]).

(** [validateRequest] in front of a handler: [400] with all the errors, or
    [next()] on the sanitized body. *)
Definition validateRequest {B} (validation : B -> B * list (string * string))
    (next : B -> World -> World * Response) (b : B)
  : World -> World * Response :=
  fun w =>
    match validation b with
    | (b', []) => next b' w
    | (_, errors) =>
        (w, mkResponse 400 false (Some "Validation failed") (Errors errors))
    end.
End Validation.
End Validation.

(** ** [src/routes/jobs.js]

    Every handler runs behind [protect]: [me] is [req.user].  The
    [populate('user', 'name email')] step only decorates the documents that
    are sent and is left out. *)

Module JobsRouter.
Section JobsRouter.
Context `{Platform}.
Local Open Scope handler_scope.

(** [req.query] of [GET /api/jobs]; [page] and [limit] hold integer
    numerals. *)
Record ListQuery := mkListQuery {
  status : option string;
  sortBy : option string;
  order : option string;
  page : option Z;
  limit : option Z
}.

(** [{ user: req.user._id }], plus [status] when
    [status && status !== 'all']. *)
Definition list_filter (me : User.t) (status : option string) : JobQuery :=
  mkJobQuery (Some (User._id me))
    (if JS.truthy status && negb (String.eqb (default "" status) "all")
     then status else None)
    None.

(** [GET /api/jobs] *)
Definition index (me : User.t) (rq : ListQuery)
  : World -> World * Response :=
  try_catch
    (let sortBy := default "createdAt" (sortBy rq) in
     let order := default "desc" (order rq) in
     let page := default 1 (page rq) in
     let limit := default 10 (limit rq) in
     let query := list_filter me (status rq) in
     let sortOrder := if String.eqb order "desc" then -1 else 1 in
     w <- get ;;
     check_sort sortBy ;;;
     jobs <- lift (limit_skip (times_one limit) (skipped page limit)
                     (sort_by (sort_leb (Job_field sortBy) sortOrder)
                        (Job_find query w))) ;;
     let total := Job_countDocuments query w in
     ret (ok 200 None
            (JobPage (length jobs) total (parseInt page)
               (JS.Math_ceil_div (Z.of_nat total) (toNumber limit)) jobs)))
    (fail 500 "Server error while fetching jobs").

(** [GET /api/jobs/:id] *)
Definition show (me : User.t) (id : ObjectId) : World -> World * Response :=
  try_catch
    (job <- Job_findOne id (User._id me) ;;
     match job with
     | None => ret (fail 404 "Job not found")
     | Some job => ret (ok 200 None (JobData job))
     end)
    (fail 500 "Server error while fetching job").

(** The handler of [POST /api/jobs]. *)
Definition create_handler (me : User.t) (body : Job.body)
  : World -> World * Response :=
  try_catch
    (job <- Job_create (User._id me) body ;;
     emit None
       (job_created
          ("New job application added: " ++ Job.position job ++ " at "
             ++ Job.company job)
          job (User.name me)) ;;;
     ret (ok 201 (Some "Job application created successfully")
            (JobData job)))
    (fail 500 "Server error while creating job").

(** [POST /api/jobs]: [protect, jobValidation, validateRequest, handler] *)
Definition create (me : User.t) : Job.body -> World -> World * Response :=
  Validation.validateRequest Validation.jobValidation (create_handler me).

(** The handler of [PUT /api/jobs/:id]. *)
Definition update_handler (me : User.t) (id : ObjectId) (body : Job.body)
  : World -> World * Response :=
  try_catch
    (job <- Job_findOne id (User._id me) ;;
     match job with
     | None => ret (fail 404 "Job not found")
     | Some job =>
         let oldStatus := Job.status job in
         job <- Job_findByIdAndUpdate id body ;;
         match job with
         | None => throw TypeError
         | Some job =>
             (if negb (String.eqb oldStatus (Job.status job))
              then emit None
                     (job_status_updated
                        ("Job status updated: " ++ Job.position job
                           ++ " at " ++ Job.company job ++ " - "
                           ++ Job.status job)
                        job (User.name me) oldStatus (Job.status job))
              else ret tt) ;;;
             ret (ok 200 (Some "Job application updated successfully")
                    (JobData job))
         end
     end)
    (fail 500 "Server error while updating job").

(** [PUT /api/jobs/:id] *)
Definition update (me : User.t) (id : ObjectId)
  : Job.body -> World -> World * Response :=
  Validation.validateRequest Validation.jobValidation (update_handler me id).

(** [DELETE /api/jobs/:id] *)
Definition destroy (me : User.t) (id : ObjectId)
  : World -> World * Response :=
  try_catch
    (job <- Job_findOne id (User._id me) ;;
     match job with
     | None => ret (fail 404 "Job not found")
     | Some job =>
         Job_findByIdAndDelete id ;;;
         emit None
           (job_deleted
              ("Job application deleted: " ++ Job.position job ++ " at "
                 ++ Job.company job)
              job (User.name me)) ;;;
         ret (ok 200 (Some "Job application deleted successfully") NoData)
     end)
    (fail 500 "Server error while deleting job").

(** The object [statusStats] starts as. *)
Definition statusStats_seed : gmap string nat :=
  <["applied" := 0%nat]> (<["interview" := 0%nat]> (<["offer" := 0%nat]>
    (<["rejected" := 0%nat]> (<["accepted" := 0%nat]> ∅)))).

(** [stats.forEach(stat => { statusStats[stat._id] = stat.count })] *)
Definition statusStats_of (stats : list (Row string)) : gmap string nat :=
  foldl (fun m stat => <[stat.1 := stat.2]> m) statusStats_seed stats.

(** [GET /api/jobs/stats/overview] *)
Definition stats_overview (me : User.t) : World -> World * Response :=
  try_catch
    (let userId := User._id me in
     let mine := mkJobQuery (Some userId) None None in
     w <- get ;;
     let stats := group_count (Job.status <$> Job_find mine w) in
     let totalJobs := Job_countDocuments mine w in
     let statusStats := statusStats_of stats in
     recentJobs <- lift (limit_skip 5 0
                           (sort_by (sort_leb (Job_field "updatedAt") (-1))
                              (Job_find mine w))) ;;
     ret (ok 200 None (JobStats totalJobs statusStats recentJobs)))
    (fail 500 "Server error while fetching statistics").
End JobsRouter.
End JobsRouter.

(** ** The feedback router *)

Module FeedbackRouter.
Section FeedbackRouter.
Context `{Platform}.
Local Open Scope handler_scope.

(** The handler of [POST /api/feedback]. *)
Definition create_handler (body : Feedback.body)
  : World -> World * Response :=
  try_catch
    (feedback <- Feedback_create body ;;
     w <- get ;;
     emit (Some "admin-room")
       (new_feedback "New feedback received" feedback (now w)) ;;;
     ret (ok 201 (Some "Feedback submitted successfully")
            (FeedbackData feedback)))
    (fail 500 "Server error while submitting feedback").

(** [POST /api/feedback] *)
Definition create : Feedback.body -> World -> World * Response :=
  Validation.validateRequest Validation.feedbackValidation create_handler.

(** [req.query] of [GET /api/feedback/public]; [page] and [limit] hold
    integer numerals, [rating] the integer [parseInt(rating)] gives. *)
Record PublicQuery := mkPublicQuery {
  page : option Z;
  limit : option Z;
  rating : option Z
}.

(** [.select('-email')] *)
Definition without_email (f : Feedback.t) : Feedback.t :=
  Feedback.mk (Feedback._id f) (Feedback.name f) None (Feedback.feedback f)
    (Feedback.rating f) (Feedback.category f) (Feedback.isPublic f)
    (Feedback.status f) (Feedback.createdAt f) (Feedback.updatedAt f).

Definition newest_first (x y : Feedback.t) : bool :=
  sort_leb (fun f => BDate (Feedback.createdAt f)) (-1) x y.

(** [GET /api/feedback/public] *)
Definition public (rq : PublicQuery) : World -> World * Response :=
  try_catch
    (let page := default 1 (page rq) in
     let limit := default 10 (limit rq) in
     let query := mkFeedbackQuery (Some true) (rating rq) None in
     w <- get ;;
     feedbacks <- lift (limit_skip (times_one limit) (skipped page limit)
                          (sort_by newest_first (Feedback_find query w))) ;;
     let feedbacks := without_email <$> feedbacks in
     let total := Feedback_countDocuments query w in
     ret (ok 200 None
            (FeedbackPage (length feedbacks) total (parseInt page)
               (JS.Math_ceil_div (Z.of_nat total) (toNumber limit))
               feedbacks)))
    (fail 500 "Server error while fetching feedback").

(** [{ 5: 0, 4: 0, 3: 0, 2: 0, 1: 0 }] *)
Definition ratingDistribution_seed : gmap Z nat :=
  <[5 := 0%nat]> (<[4 := 0%nat]> (<[3 := 0%nat]> (<[2 := 0%nat]>
    (<[1 := 0%nat]> ∅)))).

Definition ratingDistribution_of (stats : list (Row Z)) : gmap Z nat :=
  foldl (fun m stat => <[stat.1 := stat.2]> m) ratingDistribution_seed stats.

(** [{ $group: ... }, { $sort: { _id: -1 } }] over the ratings. *)
Definition rating_stats (w : World) : list (Row Z) :=
  sort_by (fun x y => sort_leb (fun r : Row Z => BNum r.1) (-1) x y)
    (group_count (Feedback.rating <$> feedbacks w)).

(** [averageRating[0]?.avgRating || 0] *)
Definition average_or_zero (averageRating : list Q) : Q :=
  match averageRating with
  | [] => 0%Q
  | avgRating :: _ => JS.or_num avgRating 0%Q
  end.

(** [GET /api/feedback/stats] *)
Definition stats : World -> World * Response :=
  try_catch
    (w <- get ;;
     let stats := rating_stats w in
     let totalFeedbacks := length (feedbacks w) in
     let averageRating := group_avg (Feedback.rating <$> feedbacks w) in
     let ratingDistribution := ratingDistribution_of stats in
     ret (ok 200 None
            (FeedbackStats totalFeedbacks (average_or_zero averageRating)
               ratingDistribution)))
    (fail 500 "Server error while fetching feedback statistics").
End FeedbackRouter.
End FeedbackRouter.

(** ** The admin router

    Every handler runs behind [protect] and [authorize('admin')]; it is
    modelled from the point where both have let the request through. *)

Module AdminRouter.
Section AdminRouter.
Context `{Platform}.
Local Open Scope handler_scope.

Definition is_applicant (u : User.t) : bool :=
  String.eqb (User.role u) "applicant".

Definition newest_user_first (x y : User.t) : bool :=
  sort_leb (fun u => BDate (User.createdAt u)) (-1) x y.

Definition newest_job_first (x y : Job.t) : bool :=
  sort_leb (Job_field "createdAt") (-1) x y.

(** [thirtyDaysAgo.setDate(thirtyDaysAgo.getDate() - 30)] on
    [new Date()] *)
Definition thirtyDaysAgo (w : World) : Date := minusDays 30 (now w).

(** [GET /api/admin/stats] *)
Definition stats : World -> World * Response :=
  try_catch
    (w <- get ;;
     let totalUsers := length (List.filter is_applicant (users w)) in
     let totalJobs := length (jobs w) in
     let totalFeedbacks := length (feedbacks w) in
     let avgRatingResult := group_avg (Feedback.rating <$> feedbacks w) in
     let averageRating := FeedbackRouter.average_or_zero avgRatingResult in
     let jobStatusStats := group_count (Job.status <$> jobs w) in
     let feedbackRatingStats := FeedbackRouter.rating_stats w in
     recentUsers <- lift (limit_skip 5 0
                            (sort_by newest_user_first
                               (List.filter is_applicant (users w)))) ;;
     recentJobs <- lift (limit_skip 5 0
                           (sort_by newest_job_first (jobs w))) ;;
     recentFeedbacks <- lift (limit_skip 5 0
                                (sort_by FeedbackRouter.newest_first
                                   (feedbacks w))) ;;
     let since := thirtyDaysAgo w in
     let newUsers :=
       length (List.filter
                 (fun u => (since <=? User.createdAt u) && is_applicant u)
                 (users w)) in
     let newJobs :=
       length (List.filter (fun j => since <=? Job.createdAt j) (jobs w)) in
     let newFeedbacks :=
       length (List.filter (fun f => since <=? Feedback.createdAt f)
                 (feedbacks w)) in
     ret (ok 200 None
            (AdminStats totalUsers totalJobs totalFeedbacks
               (inject_Z (JS.Math_round (averageRating * 10)) / 10)%Q
               jobStatusStats feedbackRatingStats
               recentUsers recentJobs recentFeedbacks
               newUsers newJobs newFeedbacks)))
    (fail 500 "Server error while fetching admin statistics").

Record JobsQuery := mkJobsQuery {
  page : option Z;
  limit : option Z;
  status : option string;
  search : option string
}.

(** [{}], plus [status] when [status && status !== 'all'], plus the
    [$or] of the two [$regex] clauses when [search] is truthy. *)
Definition jobs_filter (status search : option string) : JobQuery :=
  mkJobQuery None
    (if JS.truthy status && negb (String.eqb (default "" status) "all")
     then status else None)
    (if JS.truthy search then search else None).

(** [GET /api/admin/jobs] *)
Definition jobs (rq : JobsQuery) : World -> World * Response :=
  try_catch
    (let page := default 1 (page rq) in
     let limit := default 10 (limit rq) in
     let query := jobs_filter (status rq) (search rq) in
     w <- get ;;
     check_pattern (search rq) ;;;
     jobs <- lift (limit_skip (times_one limit) (skipped page limit)
                     (sort_by newest_job_first (Job_find query w))) ;;
     let total := Job_countDocuments query w in
     ret (ok 200 None
            (JobPage (length jobs) total (parseInt page)
               (JS.Math_ceil_div (Z.of_nat total) (toNumber limit)) jobs)))
    (fail 500 "Server error while fetching jobs").

(** [req.query] of [GET /api/admin/feedback]; [rating] is the integer
    [parseInt(rating)] gives. *)
Record FeedbackListQuery := mkFeedbackListQuery {
  f_page : option Z;
  f_limit : option Z;
  f_rating : option Z;
  f_status : option string
}.

(** [GET /api/admin/feedback] *)
Definition feedback (rq : FeedbackListQuery) : World -> World * Response :=
  try_catch
    (let page := default 1 (f_page rq) in
     let limit := default 10 (f_limit rq) in
     let query :=
       mkFeedbackQuery None (f_rating rq)
         (if JS.truthy (f_status rq) then f_status rq else None) in
     w <- get ;;
     feedbacks <- lift (limit_skip (times_one limit) (skipped page limit)
                          (sort_by FeedbackRouter.newest_first
                             (Feedback_find query w))) ;;
     let total := Feedback_countDocuments query w in
     ret (ok 200 None
            (FeedbackPage (length feedbacks) total (parseInt page)
               (JS.Math_ceil_div (Z.of_nat total) (toNumber limit))
               feedbacks)))
    (fail 500 "Server error while fetching feedback").

(** [['pending', 'reviewed', 'resolved'].includes(status)]; an absent
    [status] is [undefined], which the array does not hold. *)
Definition status_allowed (status : option string) : bool :=
  match status with
  | Some s => JS.includes ["pending"; "reviewed"; "resolved"] s
  | None => false
  end.

(** [PUT /api/admin/feedback/:id/status]; [status] is [req.body.status]. *)
Definition feedback_status (id : ObjectId) (status : option string)
  : World -> World * Response :=
  try_catch
    (if negb (status_allowed status)
     then ret (fail 400 "Invalid status")
     else
       feedback <- Feedback_findByIdAndUpdate_status id (default "" status) ;;
       match feedback with
       | None => ret (fail 404 "Feedback not found")
       | Some feedback =>
           ret (ok 200 (Some "Feedback status updated successfully")
                  (FeedbackData feedback))
       end)
    (fail 500 "Server error while updating feedback status").

(** [DELETE /api/admin/feedback/:id] *)
Definition feedback_delete (id : ObjectId) : World -> World * Response :=
  try_catch
    (feedback <- Feedback_findById id ;;
     match feedback with
     | None => ret (fail 404 "Feedback not found")
     | Some _ =>
         Feedback_findByIdAndDelete id ;;;
         ret (ok 200 (Some "Feedback deleted successfully") NoData)
     end)
    (fail 500 "Server error while deleting feedback").

(** [PUT /api/admin/users/:id/toggle-status] *)
Definition toggle_status (id : ObjectId) : World -> World * Response :=
  try_catch
    (user <- User_findById id ;;
     match user with
     | None => ret (fail 404 "User not found")
     | Some user =>
         let user := User.set_isActive (negb (User.isActive user)) user in
         user <- User_save user ;;
         ret (ok 200
                (Some ("User "
                         ++ (if User.isActive user
                             then "activated" else "deactivated")
                         ++ " successfully"))
                (UserData user))
     end)
    (fail 500 "Server error while updating user status").

Record UsersQuery := mkUsersQuery {
  u_page : option Z;
  u_limit : option Z;
  u_search : option string;
  u_role : option string
}.

(** [{}], plus the [$or] of [$regex] on [name] and [email] when [search] is
    truthy, plus [role] when it is. *)
Definition users_filter (search role : option string) (u : User.t) : bool :=
  (if JS.truthy search
   then regexTest (default "" search) (User.name u)
        || regexTest (default "" search) (User.email u)
   else true)
  && (if JS.truthy role then String.eqb (User.role u) (default "" role)
      else true).

(** [GET /api/admin/users]; each user is sent with its [jobCount].  The
    [User] record holds no credential hash, so [select('-password')] has
    nothing to drop. *)
Definition users (rq : UsersQuery) : World -> World * Response :=
  try_catch
    (let page := default 1 (u_page rq) in
     let limit := default 10 (u_limit rq) in
     let query := users_filter (u_search rq) (u_role rq) in
     w <- get ;;
     check_pattern (u_search rq) ;;;
     found <- lift (limit_skip (times_one limit) (skipped page limit)
                      (sort_by newest_user_first
                         (List.filter query (users w)))) ;;
     let total := length (List.filter query (users w)) in
     let usersWithJobCounts :=
       (fun user =>
          (user,
           Job_countDocuments (mkJobQuery (Some (User._id user)) None None) w))
         <$> found in
     ret (ok 200 None
            (UserPage (length found) total (parseInt page)
               (JS.Math_ceil_div (Z.of_nat total) (toNumber limit))
               usersWithJobCounts)))
    (fail 500 "Server error while fetching users").
End AdminRouter.
End AdminRouter.

(** ** Reading a response *)

Definition sent_job (r : Response) : option Job.t :=
  match payload r with JobData j => Some j | _ => None end.

Definition sent_jobs (r : Response) : option (list Job.t) :=
  match payload r with JobPage _ _ _ _ data => Some data | _ => None end.

Definition sent_statusStats (r : Response) : option (gmap string nat) :=
  match payload r with JobStats _ m _ => Some m | _ => None end.

Definition sent_ratingDistribution (r : Response) : option (gmap Z nat) :=
  match payload r with FeedbackStats _ _ m => Some m | _ => None end.

Definition sent_averageRating (r : Response) : option Q :=
  match payload r with
  | FeedbackStats _ avg _ => Some avg
  | AdminStats _ _ _ avg _ _ _ _ _ _ _ _ => Some avg
  | _ => None
  end.

Definition sent_jobStatusStats (r : Response) : option (list (Row string)) :=
  match payload r with
  | AdminStats _ _ _ _ rows _ _ _ _ _ _ _ => Some rows
  | _ => None
  end.

Definition sent_feedbackRatingStats (r : Response) : option (list (Row Z)) :=
  match payload r with
  | AdminStats _ _ _ _ _ rows _ _ _ _ _ _ => Some rows
  | _ => None
  end.

Definition sent_user (r : Response) : option User.t :=
  match payload r with UserData u => Some u | _ => None end.

Definition sent_feedback (r : Response) : option Feedback.t :=
  match payload r with FeedbackData f => Some f | _ => None end.

(** The status values under which a list route filters on nothing:
    an absent [status], [''] and ['all']. *)
Definition no_status_filter (status : option string) : bool :=
  match status with
  | None => true
  | Some s => String.eqb s "" || String.eqb s "all"
  end.

(** The message of a [job-status-updated] event. *)
Definition status_updated_message (job : Job.t) : string :=
  "Job status updated: " ++ Job.position job ++ " at " ++ Job.company job
    ++ " - " ++ Job.status job.

(** What [PUT /api/jobs/:id] publishes when it turns the stored job [old]
    into [new] on behalf of [me]. *)
Definition status_notifications (me : User.t) (old new : Job.t)
  : list Emission :=
  if String.eqb (Job.status old) (Job.status new) then []
  else [mkEmission None
          (job_status_updated (status_updated_message new) new (User.name me)
             (Job.status old) (Job.status new))].





(** The number of occurrences of [k]: what [$sum: 1] adds up in its group. *)
Definition occurrences {K} `{EqDecision K} (k : K) (keys : list K) : nat :=
  length (List.filter (fun x => bool_decide (x = k)) keys).

(** The first row of a [$group] result with the given [_id]. *)
Fixpoint assoc {K} `{EqDecision K} (k : K) (rows : list (Row K))
  : option nat :=
  match rows with
  | [] => None
  | (k', n) :: rows' => if decide (k = k') then Some n else assoc k rows'
  end.

(** The arithmetic mean of a list of ratings. *)
Definition mean (ratings : list Z) : Q :=
  (inject_Z (foldr Z.add 0%Z ratings)
   / inject_Z (Z.of_nat (length ratings)))%Q.

(** [_id] is unique within a collection (Mongo's primary index). *)
Definition unique_ids (w : World) : Prop :=
  NoDup (Job._id <$> jobs w)
  /\ NoDup (Feedback._id <$> feedbacks w)
  /\ NoDup (User._id <$> users w).

(** ** The API as one step function *)

Inductive Request :=
| GET_jobs (me : User.t) (rq : JobsRouter.ListQuery)
| GET_job (me : User.t) (id : ObjectId)
| POST_job (me : User.t) (body : Job.body)
| PUT_job (me : User.t) (id : ObjectId) (body : Job.body)
| DELETE_job (me : User.t) (id : ObjectId)
| GET_jobs_stats (me : User.t)
| POST_feedback (body : Feedback.body)
| GET_feedback_public (rq : FeedbackRouter.PublicQuery)
| GET_feedback_stats
| GET_admin_stats
| GET_admin_users (rq : AdminRouter.UsersQuery)
| GET_admin_jobs (rq : AdminRouter.JobsQuery)
| GET_admin_feedback (rq : AdminRouter.FeedbackListQuery)
| PUT_admin_feedback_status (id : ObjectId) (status : option string)
| DELETE_admin_feedback (id : ObjectId)
| PUT_admin_toggle_status (id : ObjectId).

(** The router: one request, served on the current world. *)
Definition serve `{Platform} (rq : Request) : World -> World * Response :=
  match rq with
  | GET_jobs me q => JobsRouter.index me q
  | GET_job me id => JobsRouter.show me id
  | POST_job me body => JobsRouter.create me body
  | PUT_job me id body => JobsRouter.update me id body
  | DELETE_job me id => JobsRouter.destroy me id
  | GET_jobs_stats me => JobsRouter.stats_overview me
  | POST_feedback body => FeedbackRouter.create body
  | GET_feedback_public q => FeedbackRouter.public q
  | GET_feedback_stats => FeedbackRouter.stats
  | GET_admin_stats => AdminRouter.stats
  | GET_admin_users q => AdminRouter.users q
  | GET_admin_jobs q => AdminRouter.jobs q
  | GET_admin_feedback q => AdminRouter.feedback q
  | PUT_admin_feedback_status id status =>
      AdminRouter.feedback_status id status
  | DELETE_admin_feedback id => AdminRouter.feedback_delete id
  | PUT_admin_toggle_status id => AdminRouter.toggle_status id
  end.

(** The world after a sequence of requests, and the answers given. *)
Fixpoint serve_all `{Platform} (rqs : list Request) (w : World)
  : World * list Response :=
  match rqs with
  | [] => (w, [])
  | rq :: rqs' =>
      let (w1, r) := serve rq w in
      let (w2, rs) := serve_all rqs' w1 in
      (w2, r :: rs)
  end.

(** Every stored [_id] was handed out before: it is below [nextId]. *)
Definition ids_below (w : World) : Prop :=
  Forall (fun j => (Job._id j < nextId w)%nat) (jobs w)
  /\ Forall (fun f => (Feedback._id f < nextId w)%nat) (feedbacks w).

(** The invariant of the database. *)
Definition well_formed (w : World) : Prop := unique_ids w /\ ids_below w.

(** The schema constraints on a stored job and on a stored feedback. *)
Definition Job_invariant (j : Job.t) : Prop :=
  Job.status j ∈ Job.statuses
  /\ Job.company j <> "" /\ Job.position j <> "".

Definition Feedback_invariant (f : Feedback.t) : Prop :=
  1 <= Feedback.rating f <= 5 /\ Feedback.status f ∈ Feedback.statuses.

Definition consistent (w : World) : Prop :=
  well_formed w
  /\ Forall Job_invariant (jobs w)
  /\ Forall Feedback_invariant (feedbacks w).

(** What a request may do to the database. *)
Inductive db_step `{Platform} (w w' : World) : Prop :=
| db_same :
    users w' = users w -> jobs w' = jobs w -> feedbacks w' = feedbacks w ->
    nextId w' = nextId w -> db_step w w'
| db_job_created (job : Job.t) :
    users w' = users w -> jobs w' = (jobs w ++ [job])%list ->
    feedbacks w' = feedbacks w -> nextId w' = S (nextId w) ->
    Job._id job = nextId w -> Job_validate job = true -> db_step w w'
| db_job_updated (id : ObjectId) (old : Job.t) (applied : option Date)
    (b : Job.body) :
    users w' = users w ->
    jobs w' = update_first (by_id Job._id id)
                (fun _ => Job_apply (now w) applied b old) (jobs w) ->
    feedbacks w' = feedbacks w -> nextId w' = nextId w ->
    List.find (by_id Job._id id) (jobs w) = Some old ->
    Job_update_ok b = true -> db_step w w'
| db_job_deleted (id : ObjectId) :
    users w' = users w ->
    jobs w' = delete_first (by_id Job._id id) (jobs w) ->
    feedbacks w' = feedbacks w -> nextId w' = nextId w -> db_step w w'
| db_feedback_created (f : Feedback.t) :
    users w' = users w -> jobs w' = jobs w ->
    feedbacks w' = (feedbacks w ++ [f])%list -> nextId w' = S (nextId w) ->
    Feedback._id f = nextId w -> Feedback_validate f = true -> db_step w w'
| db_feedback_status (id : ObjectId) (old : Feedback.t) (s : string) :
    users w' = users w -> jobs w' = jobs w ->
    feedbacks w' = update_first (by_id Feedback._id id)
                     (fun _ => Feedback_set_status (now w) s old)
                     (feedbacks w) ->
    nextId w' = nextId w ->
    List.find (by_id Feedback._id id) (feedbacks w) = Some old ->
    s ∈ Feedback.statuses -> db_step w w'
| db_feedback_deleted (id : ObjectId) :
    users w' = users w -> jobs w' = jobs w ->
    feedbacks w' = delete_first (by_id Feedback._id id) (feedbacks w) ->
    nextId w' = nextId w -> db_step w w'
| db_user_toggled (old : User.t) :
    users w' = update_first (by_id User._id (User._id old))
                 (fun _ => User.set_updatedAt (now w)
                             (User.set_isActive (negb (User.isActive old))
                                old))
                 (users w) ->
    jobs w' = jobs w -> feedbacks w' = feedbacks w ->
    nextId w' = nextId w -> db_step w w'.

(** ** Reading the traffic *)

(** The requests of the [GET] routes. *)
Definition is_read (rq : Request) : bool :=
  match rq with
  | GET_jobs _ _ | GET_job _ _ | GET_jobs_stats _ | GET_feedback_public _
  | GET_feedback_stats | GET_admin_stats | GET_admin_users _
  | GET_admin_jobs _ | GET_admin_feedback _ => true
  | _ => false
  end.

(** The event a request publishes when it succeeds, if it has one. *)
Definition event_of (rq : Request) : option (option string * string) :=
  match rq with
  | POST_job _ _ => Some (None, "job-created")
  | PUT_job _ _ _ => Some (None, "job-status-updated")
  | DELETE_job _ _ => Some (None, "job-deleted")
  | POST_feedback _ => Some (Some "admin-room", "new-feedback")
  | _ => None
  end.

(** Where an emission went and under which name. *)
Definition addressed (e : Emission) : option string * string :=
  (room e, event_name (event e)).

(** The messages of the [catch] blocks. *)
Definition server_errors : list string :=
  ["Server error while fetching jobs";
   "Server error while fetching job";
   "Server error while creating job";
   "Server error while updating job";
   "Server error while deleting job";
   "Server error while fetching statistics";
   "Server error while submitting feedback";
   "Server error while fetching feedback";
   "Server error while fetching feedback statistics";
   "Server error while fetching admin statistics";
   "Server error while fetching users";
   "Server error while updating feedback status";
   "Server error while deleting feedback";
   "Server error while updating user status"].

(** The sum of the [count] column of a [$group] result. *)
Definition counted {K} (rows : list (Row K)) : nat := sum_list rows.*2.

(** The sum of a histogram object over the given keys. *)
Definition histogram_total {K} `{Countable K} (keys : list K)
    (m : gmap K nat) : nat :=
  sum_list ((fun k => default 0%nat (m !! k)) <$> keys).

(** Newest first, on either collection. *)
Definition job_newer (x y : Job.t) : Prop := Job.createdAt y <= Job.createdAt x.
Definition feedback_newer (x y : Feedback.t) : Prop :=
  Feedback.createdAt y <= Feedback.createdAt x.
Definition user_newer (x y : User.t) : Prop :=
  User.createdAt y <= User.createdAt x.

(** The requests that publish an event whenever they succeed. *)
Definition announces (rq : Request) : bool :=
  match rq with
  | POST_job _ _ | DELETE_job _ _ | POST_feedback _ => true
  | _ => false
  end.

(** The messages of the [404] answers. *)
Definition not_found_errors : list string :=
  ["Job not found"; "Feedback not found"; "User not found"].

(** ** The guards in front of the routes *)

(** Modelled from the spec: [middleware/auth.js] is not among the sources.
    [protect] is the capability that resolves the identity of the caller:
    it returns the identity or fails with [Unauthorized], answered [401].
    [authorize(role)] fails with [Forbidden], answered [403], when the role
    of the caller is not [role].  Like every error answer, the two carry
    [success: false] and a message, and nothing else. *)
Class Guards := {
  (** what a request carries to identify its caller *)
  Credentials : Type;
  (** [protect]: the identity of the caller, or the message of the [401] *)
  protect : Credentials -> World -> string + User.t;
  (** the message of the [403] *)
  forbidden : User.t -> string
}.

(** The routes of the three routers, as a request names them. *)
Inductive JobsRoute :=
| jobs_index (rq : JobsRouter.ListQuery)
| jobs_show (id : ObjectId)
| jobs_create (body : Job.body)
| jobs_update (id : ObjectId) (body : Job.body)
| jobs_destroy (id : ObjectId)
| jobs_stats.

Inductive FeedbackRoute :=
| feedback_create (body : Feedback.body)
| feedback_public (rq : FeedbackRouter.PublicQuery)
| feedback_stats.

Inductive AdminRoute :=
| admin_stats
| admin_users (rq : AdminRouter.UsersQuery)
| admin_jobs (rq : AdminRouter.JobsQuery)
| admin_feedback (rq : AdminRouter.FeedbackListQuery)
| admin_feedback_status (id : ObjectId) (status : option string)
| admin_feedback_delete (id : ObjectId)
| admin_toggle_status (id : ObjectId).

(** The request a handler of the jobs router sees: [req.user] is the
    identity [protect] has resolved. *)
Definition jobs_request (me : User.t) (route : JobsRoute) : Request :=
  match route with
  | jobs_index rq => GET_jobs me rq
  | jobs_show id => GET_job me id
  | jobs_create body => POST_job me body
  | jobs_update id body => PUT_job me id body
  | jobs_destroy id => DELETE_job me id
  | jobs_stats => GET_jobs_stats me
  end.

Definition feedback_request (route : FeedbackRoute) : Request :=
  match route with
  | feedback_create body => POST_feedback body
  | feedback_public rq => GET_feedback_public rq
  | feedback_stats => GET_feedback_stats
  end.

Definition admin_request (route : AdminRoute) : Request :=
  match route with
  | admin_stats => GET_admin_stats
  | admin_users rq => GET_admin_users rq
  | admin_jobs rq => GET_admin_jobs rq
  | admin_feedback rq => GET_admin_feedback rq
  | admin_feedback_status id status => PUT_admin_feedback_status id status
  | admin_feedback_delete id => DELETE_admin_feedback id
  | admin_toggle_status id => PUT_admin_toggle_status id
  end.

(** A request as it arrives.  Every route of the jobs router names
    [protect] in front of its handler; the admin router starts with
    [router.use(protect)] and [router.use(authorize('admin'))]; the routes
    of the feedback router have no guard. *)
Inductive Arrival `{Guards} :=
| to_jobs (c : Credentials) (route : JobsRoute)
| to_feedback (route : FeedbackRoute)
| to_admin (c : Credentials) (route : AdminRoute).

(** The answer to a request as it arrives: the guards first, in the order
    the routers name them, then the handler. *)
Definition arrive `{Platform} `{Guards} (a : Arrival)
  : World -> World * Response :=
  fun w =>
    match a with
    | to_feedback route => serve (feedback_request route) w
    | to_jobs c route =>
        match protect c w with
        | inl message => (w, fail 401 message)
        | inr me => serve (jobs_request me route) w
        end
    | to_admin c route =>
        match protect c w with
        | inl message => (w, fail 401 message)
        | inr me =>
            if String.eqb (User.role me) "admin"
            then serve (admin_request route) w
            else (w, fail 403 (forbidden me))
        end
    end.

(** The shapes an answer can have. *)
Inductive envelope : Response -> Prop :=
| envelope_unauthorized (msg : string) : envelope (fail 401 msg)
| envelope_forbidden (msg : string) : envelope (fail 403 msg)
| envelope_ok (c : nat) (msg : option string) (p : Payload) :
    c = 200%nat \/ c = 201%nat -> envelope (ok c msg p)
| envelope_invalid (errors : list (string * string)) :
    errors <> [] ->
    envelope (mkResponse 400 false (Some "Validation failed") (Errors errors))
| envelope_bad_status : envelope (fail 400 "Invalid status")
| envelope_not_found (msg : string) :
    JS.includes not_found_errors msg = true -> envelope (fail 404 msg)
| envelope_server_error (msg : string) :
    JS.includes server_errors msg = true -> envelope (fail 500 msg).

(** What [jobValidation] asks of a body. *)
Definition Job_acceptable `{Platform} (b : Job.body) : Prop :=
  (1 <= String.length (JS.trim (default "" (Job.b_company b))) <= 100)%nat
  /\ (1 <= String.length (JS.trim (default "" (Job.b_position b))) <= 100)%nat
  /\ (forall s, Job.b_status b = Some s -> s ∈ Job.statuses)
  /\ (exists d, Job.b_appliedDate b = Some d /\ isISO8601 d = true)
  /\ (forall n, Job.b_notes b = Some n -> (String.length n <= 500)%nat)
  /\ (forall z, Job.b_salary b = Some z -> Z.abs z < 10 ^ 21).

(** What [feedbackValidation] asks of a body. *)
Definition Feedback_acceptable `{Platform} (b : Feedback.body) : Prop :=
  (1 <= String.length (JS.trim (default "" (Feedback.b_feedback b)))
   <= 1000)%nat
  /\ (exists r, Feedback.b_rating b = Some r /\ 1 <= r <= 5)
  /\ (forall n, Feedback.b_name b = Some n ->
        (String.length (JS.trim n) <= 50)%nat)
  /\ (forall e, Feedback.b_email b = Some e -> isEmail e = true).

(** The message of a [job-created] and of a [job-deleted] event. *)
Definition created_message (job : Job.t) : string :=
  "New job application added: " ++ Job.position job ++ " at "
    ++ Job.company job.

Definition deleted_message (job : Job.t) : string :=
  "Job application deleted: " ++ Job.position job ++ " at "
    ++ Job.company job.

(** The outcome of casting the [appliedDate] of a body: [None] is a
    [CastError], [Some None] an absent date. *)
Definition cast_applied `{Platform} (v : option string)
  : option (option Date) :=
  match v with
  | None => Some None
  | Some s => Some <$> castDate s
  end.

(** A job with its [updatedAt] time stamp set. *)
Definition Job_touch (t : Date) (j : Job.t) : Job.t :=
  Job.mk (Job._id j) (Job.user j) (Job.company j) (Job.position j)
    (Job.status j) (Job.appliedDate j) (Job.notes j) (Job.salary j)
    (Job.location j) (Job.jobUrl j) (Job.createdAt j) t.

Definition sent_feedbacks (r : Response) : option (list Feedback.t) :=
  match payload r with FeedbackPage _ _ _ _ data => Some data | _ => None end.

Definition job_older (x y : Job.t) : Prop := Job.createdAt x <= Job.createdAt y.

(** A string that does not start with white space. *)
Definition starts_clean (s : string) : Prop :=
  match s with
  | EmptyString => True
  | String c _ => JS.is_ws c = false
  end.

(** A body the schema refuses for something [jobValidation] does not look
    at, the sign of the salary or the length of the location: a negative
    salary, or a location of more than 100 characters. *)
Definition Job_out_of_schema (b : Job.body) : Prop :=
  (exists s, Job.b_salary b = Some s /\ s < 0)
  \/ (exists l, Job.b_location b = Some l
                /\ (100 < String.length (JS.trim l))%nat).

Definition sent_users (r : Response) : option (list (User.t * nat)) :=
  match payload r with UserPage _ _ _ _ data => Some data | _ => None end.

(** The message of [PUT /admin/users/:id/toggle-status]. *)
Definition toggled_message (isActive : bool) : string :=
  if isActive then "User activated successfully"
  else "User deactivated successfully".

(** Most recently updated first. *)
Definition job_fresher (x y : Job.t) : Prop :=
  Job.updatedAt y <= Job.updatedAt x.

(** Rows of a rating histogram from the highest rating down. *)
Definition row_above (x y : Row Z) : Prop := y.1 <= x.1.

(** The ratings the schema admits. *)
Definition ratings : list Z := [1; 2; 3; 4; 5].

(** ** Sample data *)

Module Sample.

Definition is_digit (c : ascii) : bool :=
  let n := nat_of_ascii c in ((48 <=? n) && (n <=? 57))%nat.

(** Calendar dates [YYYY-MM-DD], the simplest ISO 8601 form. *)
Definition calendar_date (s : string) : bool :=
  match s with
  | String y1 (String y2 (String y3 (String y4 (String "-"
      (String m1 (String m2 (String "-" (String d1 (String d2
         EmptyString))))))))) =>
      forallb is_digit [y1; y2; y3; y4; m1; m2; d1; d2]
  | _ => false
  end.

Fixpoint digits (s : string) (acc : Z) : Z :=
  match s with
  | EmptyString => acc
  | String c s' =>
      if is_digit c then digits s' (10 * acc + Z.of_nat (nat_of_ascii c - 48))
      else digits s' acc
  end.

Definition contains (pattern s : string) : bool :=
  match String.index 0 (JS.toLowerCase pattern) (JS.toLowerCase s) with
  | Some _ => true
  | None => false
  end.

(** An integer beyond [2 ^ 53] rounded to 53 significant bits, a tie going
    to the even significand. *)
Definition round_to_53_bits (z : Z) : Z :=
  let a := Z.abs z in
  let e := Z.log2 a - 52 in
  let q := a / 2 ^ e in
  let r := a mod 2 ^ e in
  let up := (2 ^ (e - 1) <? r) || ((r =? 2 ^ (e - 1)) && Z.odd q) in
  Z.sgn z * ((if up then q + 1 else q) * 2 ^ e).

(** The double nearest to an integer. *)
Definition nearest_double (z : Z) : Z :=
  if Z.abs z <=? 2 ^ 53 then z else round_to_53_bits z.

Definition nearest_double_safe (z : Z) (Hz : Z.abs z <= 2 ^ 53)
  : nearest_double z = z :=
  @eq_ind_r bool true
    (fun b : bool => (if b then z else round_to_53_bits z) = z)
    eq_refl (Z.abs z <=? 2 ^ 53) (proj2 (Z.leb_le (Z.abs z) (2 ^ 53)) Hz).

(** A small platform to run the routes on: calendar dates only, dates cast
    to the number their digits spell, addresses recognised by their [@],
    patterns matched as substrings and refused when they hold an opening
    parenthesis, any key but the empty one taken by a sort, and a host
    whose days all have 24 hours. *)
#[local] Instance platform : Platform := {|
  isISO8601 := calendar_date;
  isISO8601_empty := eq_refl;
  castDate := fun s => if calendar_date s then Some (digits s 0) else None;
  isEmail := contains "@";
  normalizeEmail := JS.toLowerCase;
  emailPattern := contains "@";
  regexTest := contains;
  regexValid := fun s => negb (contains "(" s);
  sortKey := fun s => negb (String.eqb s "");
  sortKey_empty := eq_refl;
  toNumber := nearest_double;
  toNumber_safe := nearest_double_safe;
  parseInt := nearest_double;
  parseInt_safe := nearest_double_safe;
  minusDays := fun n d => d - n * 86400000
|}.

(** Guards to run the routes behind: a request carries the id its token
    resolves to, if it has a token, and the caller is the user stored under
    that id. *)
#[local] Instance guards : Guards := {|
  Credentials := option ObjectId;
  protect := fun c w =>
    match c with
    | None => inl "Not authorized, no token"
    | Some id =>
        match List.find (by_id User._id id) (users w) with
        | Some u => inr u
        | None => inl "Not authorized, user not found"
        end
    end;
  forbidden := fun u =>
    "User role " ++ User.role u ++ " is not authorized to access this route"
|}.

Definition alice : User.t :=
  User.mk 1 "Alice" "alice@example.com" "applicant" true 1000 1000.
Definition bob : User.t :=
  User.mk 2 "Bob" "bob@example.com" "applicant" true 1100 1100.
Definition root : User.t :=
  User.mk 3 "Root" "root@example.com" "admin" true 900 900.

Definition acme : Job.t :=
  Job.mk 10 1 "Acme" "Engineer" "applied" 20240101 None None None None
    2000 2000.
Definition globex : Job.t :=
  Job.mk 11 1 "Globex" "Analyst" "interview" 20240105
    (Some "phone screen done") (Some 90000) (Some "Remote") None 2100 2500.
Definition hooli : Job.t :=
  Job.mk 12 1 "Hooli" "Designer" "applied" 20240110 None None None None
    2200 2200.
Definition initech : Job.t :=
  Job.mk 13 2 "Initech" "Tester" "offer" 20240102 None None None None
    2300 2300.

Definition praise : Feedback.t :=
  Feedback.mk 20 (Some "Ann") (Some "ann@example.com") "Great tool" 5
    "general" true "pending" 3000 3000.
Definition gripe : Feedback.t :=
  Feedback.mk 21 None None "Search is slow" 2 "bug" true "pending"
    3100 3100.
Definition idea : Feedback.t :=
  Feedback.mk 22 (Some "Cy") None "Add a calendar view" 4 "feature" false
    "reviewed" 3200 3200.

Definition world : World :=
  mkWorld [alice; bob; root] [acme; globex; hooli; initech]
    [praise; gripe; idea] 100 5000 true [].

(** The same world with the socket server down. *)
Definition offline : World :=
  mkWorld (users world) (jobs world) (feedbacks world) (nextId world)
    (now world) false [].

(** A freshly installed system. *)
Definition empty : World := mkWorld [] [] [] 1 5000 true [].

Definition no_body : Job.body :=
  Job.mkBody None None None None None None None None.

(** [{ company: 'Acme', position: 'Engineer', appliedDate: '2024-01-01' }] *)
Definition dated : Job.body :=
  Job.mkBody (Some "Acme") (Some "Engineer") None (Some "2024-01-01")
    None None None None.

(** [{ company: 'Acme', position: 'Engineer' }] *)
Definition undated : Job.body :=
  Job.mkBody (Some "Acme") (Some "Engineer") None None None None None None.

(** [{ company, position, appliedDate, status: 'interview' }] *)
Definition promoted : Job.body :=
  Job.mkBody (Some "Acme") (Some "Engineer") (Some "interview")
    (Some "2024-01-01") None None None None.

(** [{ rating: 5, feedback: 'Great tool' }] *)
Definition five_stars : Feedback.body :=
  Feedback.mkBody None None (Some "Great tool") (Some 5) None None None.

End Sample.

(** * Properties *)

Local Open Scope list_scope.

(** ** Running a handler *)

Ltac run :=
  unfold try_catch, bind, ret, get, modify, lift, throw, check, emit,
    check_sort, check_pattern in *;
  simpl in *.

(** ** Sorting, skipping and limiting *)

Section CollectionFacts.
Context {A : Type}.
Implicit Types (l : list A) (le : A -> A -> bool).

Lemma insert_by_perm le x l : insert_by le x l ≡ₚ x :: l.
Proof.
  induction l as [|y l IH]; simpl; [done|].
  destruct (le x y); [done|].
  rewrite IH. apply Permutation_swap.
Qed.

Lemma sort_by_perm le l : sort_by le l ≡ₚ l.
Proof.
  unfold sort_by. induction l as [|x l IH]; simpl; [done|].
  by rewrite insert_by_perm, IH.
Qed.

Lemma sort_by_length le l : length (sort_by le l) = length l.
Proof. by rewrite sort_by_perm. Qed.


Lemma find_update_first (p : A -> bool) (f : A -> A) l x :
  List.find p l = Some x -> p (f x) = true ->
  List.find p (update_first p f l) = Some (f x).
Proof.
  induction l as [|y l IH]; simpl; [done|].
  destruct (p y) eqn:Hy; simpl.
  - intros [= ->] ->. done.
  - rewrite Hy. auto.
Qed.

Lemma find_update_first_other (p q : A -> bool) (f : A -> A) l :
  (forall x, p x = true -> q x = false) ->
  (forall x, p x = true -> q (f x) = false) ->
  List.find q (update_first p f l) = List.find q l.
Proof.
  intros Hpq Hpf. induction l as [|y l IH]; simpl; [done|].
  destruct (p y) eqn:Hy; simpl.
  - by rewrite (Hpq y Hy), (Hpf y Hy).
  - by rewrite IH.
Qed.

Lemma length_update_first (p : A -> bool) (f : A -> A) l :
  length (update_first p f l) = length l.
Proof.
  induction l as [|y l IH]; simpl; [done|].
  destruct (p y); simpl; by rewrite ?IH.
Qed.
End CollectionFacts.


(** ** Pagination of the list routes *)


Section Pagination.
Context `{Platform}.








End Pagination.


(** ** Grouped counts *)

Section GroupFacts.
Context {K : Type} `{EqDecision K}.
Implicit Types (k : K) (keys : list K) (rows : list (Row K)).

Lemma assoc_bump k k' rows :
  assoc k' (bump k rows)
  = if decide (k' = k) then Some (S (default 0%nat (assoc k rows)))
    else assoc k' rows.
Proof.
  induction rows as [|[k0 n0] rows IH]; simpl.
  - repeat case_decide; congruence.
  - destruct (decide (k = k0)) as [->|Hne]; simpl.
    + repeat case_decide; congruence.
    + rewrite IH. repeat case_decide; congruence.
Qed.

Lemma bump_keys k rows :
  (bump k rows).*1 = if decide (k ∈ rows.*1) then rows.*1 else rows.*1 ++ [k].
Proof.
  induction rows as [|[k0 n0] rows IH].
  - rewrite decide_False by apply not_elem_of_nil. done.
  - cbn [bump]. destruct (decide (k = k0)) as [->|Hne].
    + rewrite decide_True by (rewrite fmap_cons; apply list_elem_of_here).
      done.
    + rewrite !fmap_cons, IH. cbn [fst].
      destruct (decide (k ∈ rows.*1)) as [Hin|Hin].
      * rewrite decide_True by (by apply list_elem_of_further). done.
      * rewrite decide_False; [done|].
        intros [?|?]%elem_of_cons; done.
Qed.

Lemma occurrences_snoc k k' keys :
  occurrences k' (keys ++ [k])
  = if decide (k' = k) then S (occurrences k' keys) else occurrences k' keys.
Proof.
  unfold occurrences. rewrite List.filter_app, length_app. simpl.
  case_bool_decide; case_decide; simpl; try congruence; lia.
Qed.

Lemma group_count_snoc k keys :
  group_count (keys ++ [k]) = bump k (group_count keys).
Proof. unfold group_count. by rewrite foldl_app. Qed.

(** The row of a value holds the number of its occurrences; a value that
    does not occur has no row. *)
Lemma assoc_group_count k keys :
  assoc k (group_count keys)
  = match occurrences k keys with O => None | n => Some n end.
Proof.
  induction keys as [|k0 keys IH] using rev_ind; [done|].
  rewrite group_count_snoc, assoc_bump, occurrences_snoc.
  case_decide as Hk; [subst k0|done].
  rewrite IH. by destruct (occurrences k keys).
Qed.

Lemma NoDup_group_count keys : NoDup (group_count keys).*1.
Proof.
  induction keys as [|k0 keys IH] using rev_ind; [constructor|].
  rewrite group_count_snoc, bump_keys.
  case_decide as Hin; [done|].
  apply NoDup_app. split; [done|]. split; [|apply NoDup_singleton].
  intros x Hx ->%list_elem_of_singleton. done.
Qed.

Lemma assoc_elem_of k n rows :
  NoDup rows.*1 -> assoc k rows = Some n <-> (k, n) ∈ rows.
Proof.
  induction rows as [|[k0 n0] rows IH]; simpl.
  - intros _. split; [done|]. by intros ?%elem_of_nil.
  - intros [Hnotin Hnd]%NoDup_cons. specialize (IH Hnd).
    rewrite elem_of_cons. case_decide as Hk.
    + subst k0. split.
      * intros [= ->]. by left.
      * intros [[= ->]|Hin]; [done|].
        exfalso. apply Hnotin. apply list_elem_of_fmap. by exists (k, n).
    + rewrite IH. split; [by right|]. intros [[= -> ->]|Hin]; done.
Qed.

Lemma assoc_perm k rows rows' :
  NoDup rows.*1 -> rows ≡ₚ rows' -> assoc k rows = assoc k rows'.
Proof.
  intros Hnd Hp.
  assert (Hnd' : NoDup rows'.*1) by (by rewrite <- Hp).
  destruct (assoc k rows) as [n|] eqn:Ha.
  - symmetry. apply assoc_elem_of; [done|]. rewrite <- Hp.
    by apply assoc_elem_of.
  - destruct (assoc k rows') as [n|] eqn:Ha'; [|done].
    apply assoc_elem_of in Ha'; [|done]. rewrite <- Hp in Ha'.
    apply assoc_elem_of in Ha'; [|done]. congruence.
Qed.

(** Exactly the values that occur have a row. *)
Lemma group_count_rows k n keys :
  (k, n) ∈ group_count keys <-> n = occurrences k keys /\ (0 < n)%nat.
Proof.
  rewrite <- assoc_elem_of by apply NoDup_group_count.
  rewrite assoc_group_count.
  destruct (occurrences k keys); split; try lia; try congruence.
  - intros [= <-]. lia.
  - intros [-> _]. done.
Qed.

End GroupFacts.

(** Copying the rows into a seeded object. *)
Lemma seeded_lookup `{Countable K} (seed : gmap K nat) (k : K)
    (rows : list (Row K)) :
  NoDup rows.*1 ->
  foldl (fun m stat => <[stat.1 := stat.2]> m) seed rows !! k
  = match assoc k rows with Some n => Some n | None => seed !! k end.
Proof.
  revert seed. induction rows as [|[k0 n0] rows IH]; intros seed; simpl.
  - done.
  - intros [Hnotin Hnd]%NoDup_cons. rewrite IH by done.
    case_decide as Hk.
    + subst k0. destruct (assoc k rows) as [n|] eqn:Ha.
      * exfalso. apply Hnotin. apply assoc_elem_of in Ha; [|done].
        apply list_elem_of_fmap. by exists (k, n).
      * by rewrite lookup_insert_eq.
    + destruct (assoc k rows); [done|]. by rewrite lookup_insert_ne.
Qed.

(** ** Histograms *)

Lemma statusStats_lookup (s : string) (keys : list string) :
  s ∈ Job.statuses ->
  JobsRouter.statusStats_of (group_count keys) !! s
  = Some (occurrences s keys).
Proof.
  intros Hs. unfold JobsRouter.statusStats_of.
  rewrite seeded_lookup by apply NoDup_group_count.
  rewrite assoc_group_count.
  destruct (occurrences s keys); [|done].
  unfold Job.statuses in Hs.
  repeat (apply elem_of_cons in Hs as [->|Hs]; [by vm_compute|]).
  by apply elem_of_nil in Hs.
Qed.

Lemma rating_stats_rows (r : Z) (n : nat) (w : World) :
  (r, n) ∈ FeedbackRouter.rating_stats w
  <-> n = occurrences r (Feedback.rating <$> feedbacks w) /\ (0 < n)%nat.
Proof.
  unfold FeedbackRouter.rating_stats.
  rewrite sort_by_perm. apply group_count_rows.
Qed.

Lemma ratingDistribution_lookup (r : Z) (w : World) :
  1 <= r <= 5 ->
  FeedbackRouter.ratingDistribution_of (FeedbackRouter.rating_stats w) !! r
  = Some (occurrences r (Feedback.rating <$> feedbacks w)).
Proof.
  intros Hr. unfold FeedbackRouter.ratingDistribution_of.
  assert (Hperm : FeedbackRouter.rating_stats w
                  ≡ₚ group_count (Feedback.rating <$> feedbacks w))
    by apply sort_by_perm.
  rewrite seeded_lookup
    by (rewrite Hperm; apply NoDup_group_count).
  rewrite <- (assoc_perm r _ _ (NoDup_group_count _) (symmetry Hperm)).
  rewrite assoc_group_count.
  destruct (occurrences r (Feedback.rating <$> feedbacks w)); [|done].
  assert (Hcases : r = 1 \/ r = 2 \/ r = 3 \/ r = 4 \/ r = 5) by lia.
  destruct Hcases as [->|[->|[->|[->| ->]]]]; by vm_compute.
Qed.

Section Histograms.
Context `{Platform}.

(** C2 (as the routes have it).  [GET /jobs/stats/overview] answers with a
    status histogram holding each of the five statuses, at the number of the
    caller's jobs in that status (0 when there is none), and
    [GET /feedback/stats] with a rating histogram holding each rating 1..5
    likewise.  [GET /admin/stats] sends the grouped counts as the database
    returns them: one row per status (rating) that occurs, no row at 0. *)
Theorem C2_histograms (me : User.t) (w : World) :
  (exists totalJobs statusStats recentJobs,
     JobsRouter.stats_overview me w
     = (w, ok 200 None (JobStats totalJobs statusStats recentJobs))
     /\ forall s, s ∈ Job.statuses ->
          statusStats !! s
          = Some (occurrences s
                    (Job.status
                       <$> Job_find (mkJobQuery (Some (User._id me)) None None)
                             w)))
  /\ (exists totalFeedbacks averageRating ratingDistribution,
        FeedbackRouter.stats w
        = (w, ok 200 None
                (FeedbackStats totalFeedbacks averageRating
                   ratingDistribution))
        /\ forall r, 1 <= r <= 5 ->
             ratingDistribution !! r
             = Some (occurrences r (Feedback.rating <$> feedbacks w)))
  /\ (exists jobStatusStats feedbackRatingStats,
        (AdminRouter.stats w).1 = w
        /\ code (AdminRouter.stats w).2 = 200%nat
        /\ sent_jobStatusStats (AdminRouter.stats w).2 = Some jobStatusStats
        /\ sent_feedbackRatingStats (AdminRouter.stats w).2
           = Some feedbackRatingStats
        /\ (forall s n,
              (s, n) ∈ jobStatusStats
              <-> n = occurrences s (Job.status <$> jobs w) /\ (0 < n)%nat)
        /\ (forall r n,
              (r, n) ∈ feedbackRatingStats
              <-> n = occurrences r (Feedback.rating <$> feedbacks w)
                  /\ (0 < n)%nat)).
Proof.
  split; [|split].
  - do 3 eexists. split; [reflexivity|].
    intros s Hs. by apply statusStats_lookup.
  - do 3 eexists. split; [reflexivity|].
    intros r Hr. by apply ratingDistribution_lookup.
  - do 2 eexists.
    split; [reflexivity|]. split; [reflexivity|].
    split; [reflexivity|]. split; [reflexivity|]. split.
    + intros s n. apply group_count_rows.
    + intros r n. apply rating_stats_rows.
Qed.
End Histograms.

Lemma C2_histograms_witness :
  exists statusStats,
    sent_statusStats
      (JobsRouter.stats_overview (H := Sample.platform) Sample.bob
         Sample.world).2 = Some statusStats
    /\ statusStats !! "offer" = Some 1%nat
    /\ statusStats !! "rejected" = Some 0%nat.
Proof.
  destruct (C2_histograms (H := Sample.platform) Sample.bob Sample.world)
    as [(n & m & recent & Heq & Hm) _].
  exists m. rewrite Heq. split; [reflexivity|]. split.
  - rewrite (Hm "offer") by (vm_compute; set_solver). reflexivity.
  - rewrite (Hm "rejected") by (vm_compute; set_solver). reflexivity.
Defined.

(** The admin dashboard of the sample world has no row for the statuses
    [rejected] and [accepted], nor for the ratings 1 and 3. *)
Lemma C2_admin_stats_counterexample :
  sent_jobStatusStats
    (AdminRouter.stats (H := Sample.platform) Sample.world).2
  = Some [("applied", 2%nat); ("interview", 1%nat); ("offer", 1%nat)]
  /\ sent_feedbackRatingStats
       (AdminRouter.stats (H := Sample.platform) Sample.world).2
     = Some [(5, 1%nat); (4, 1%nat); (2, 1%nat)]
  /\ sent_jobStatusStats
       (AdminRouter.stats (H := Sample.platform) Sample.empty).2 = Some [].
Proof. repeat split; reflexivity. Qed.

(** ** The average rating *)

Lemma or_num_zero (x : Q) : (JS.or_num x 0 == x)%Q.
Proof.
  unfold JS.or_num. destruct (Qeq_bool x 0) eqn:Hx; [|reflexivity].
  apply Qeq_bool_eq in Hx. by rewrite Hx.
Qed.

Lemma average_or_zero_mean (ratings : list Z) :
  ratings <> [] ->
  (FeedbackRouter.average_or_zero (group_avg ratings) == mean ratings)%Q.
Proof.
  destruct ratings as [|r ratings]; [done|]. intros _.
  unfold FeedbackRouter.average_or_zero, group_avg. apply or_num_zero.
Qed.

Section AverageRating.
Context `{Platform}.

(** C7.  [GET /feedback/stats] answers with an average rating of 0 when
    there is no feedback, no division taking place, and with the arithmetic
    mean of all ratings otherwise.  The admin dashboard computes its
    [averageRating] by the same expression, and sends it rounded to one
    decimal. *)
Theorem C7_average_rating (w : World) :
  exists totalFeedbacks averageRating ratingDistribution,
    FeedbackRouter.stats w
    = (w, ok 200 None
            (FeedbackStats totalFeedbacks averageRating ratingDistribution))
    /\ (feedbacks w = [] -> averageRating = 0%Q)
    /\ (feedbacks w <> [] ->
        (averageRating == mean (Feedback.rating <$> feedbacks w))%Q)
    /\ sent_averageRating (AdminRouter.stats w).2
       = Some (inject_Z (JS.Math_round (averageRating * 10)) / 10)%Q.
Proof.
  do 3 eexists. split; [reflexivity|]. split; [|split].
  - intros ->. reflexivity.
  - intros Hne. apply average_or_zero_mean.
    destruct (feedbacks w); [done|]. discriminate.
  - reflexivity.
Qed.
End AverageRating.

Lemma C7_average_rating_witness :
  feedbacks Sample.world <> []
  /\ exists averageRating,
       sent_averageRating (FeedbackRouter.stats Sample.world).2
       = Some averageRating
       /\ (averageRating == 11 # 3)%Q.
Proof.
  split; [discriminate|].
  destruct (C7_average_rating (H := Sample.platform) Sample.world)
    as (n & avg & dist & Heq & _ & Hmean & _).
  exists avg. rewrite Heq. split; [reflexivity|].
  rewrite Hmean by discriminate. reflexivity.
Defined.

(** ** Toggling a user *)

Lemma find_by_id {A} (_id : A -> ObjectId) (id : ObjectId) (l : list A)
    (x : A) :
  List.find (by_id _id id) l = Some x -> _id x = id.
Proof.
  intros Hf. apply List.find_some in Hf as [_ Hid].
  unfold by_id in Hid. by apply Nat.eqb_eq in Hid.
Qed.

(** One call: the stored user has the flag negated, and is what is sent. *)
Lemma toggle_status_once (id : ObjectId) (w : World) (u : User.t) :
  List.find (by_id User._id id) (users w) = Some u ->
  exists w' u',
    AdminRouter.toggle_status id w
    = (w', ok 200
             (Some ("User "
                      ++ (if User.isActive u' then "activated"
                          else "deactivated")
                      ++ " successfully")%string)
             (UserData u'))
    /\ List.find (by_id User._id id) (users w') = Some u'
    /\ User.isActive u' = negb (User.isActive u).
Proof.
  intros Hf. pose proof (find_by_id _ _ _ _ Hf) as Hid.
  unfold AdminRouter.toggle_status, User_findById, User_save. run.
  rewrite Hf. simpl.
  set (u' := User.set_updatedAt (now w)
               (User.set_isActive (negb (User.isActive u)) u)).
  exists (set_users
            (update_first (by_id User._id (User._id u)) (fun _ => u')
               (users w)) w), u'.
  split; [reflexivity|]. split; [|reflexivity].
  simpl. rewrite Hid.
  erewrite find_update_first; [reflexivity | exact Hf |].
  unfold by_id. simpl. by apply Nat.eqb_eq.
Qed.

(** C9.  For an existing user, [PUT /admin/users/:id/toggle-status] negates
    [isActive]; two calls in a row bring the flag back to its value. *)
Theorem C9_toggle_status_involution (id : ObjectId) (w : World) (u : User.t) :
  List.find (by_id User._id id) (users w) = Some u ->
  exists w1 u1 w2 u2,
    (AdminRouter.toggle_status id w).1 = w1
    /\ sent_user (AdminRouter.toggle_status id w).2 = Some u1
    /\ List.find (by_id User._id id) (users w1) = Some u1
    /\ User.isActive u1 = negb (User.isActive u)
    /\ (AdminRouter.toggle_status id w1).1 = w2
    /\ sent_user (AdminRouter.toggle_status id w1).2 = Some u2
    /\ List.find (by_id User._id id) (users w2) = Some u2
    /\ User.isActive u2 = User.isActive u.
Proof.
  intros Hf.
  destruct (toggle_status_once id w u Hf) as (w1 & u1 & E1 & Hf1 & Ha1).
  destruct (toggle_status_once id w1 u1 Hf1) as (w2 & u2 & E2 & Hf2 & Ha2).
  exists w1, u1, w2, u2. rewrite E1, E2. simpl.
  repeat (split; [done|]).
  rewrite Ha2, Ha1. apply negb_involutive.
Qed.

Lemma C9_toggle_status_involution_witness :
  List.find (by_id User._id 1) (users Sample.world) = Some Sample.alice
  /\ exists w1 u1 w2 u2,
       (AdminRouter.toggle_status 1 Sample.world).1 = w1
       /\ sent_user (AdminRouter.toggle_status 1 Sample.world).2 = Some u1
       /\ List.find (by_id User._id 1) (users w1) = Some u1
       /\ User.isActive u1 = negb (User.isActive Sample.alice)
       /\ (AdminRouter.toggle_status 1 w1).1 = w2
       /\ sent_user (AdminRouter.toggle_status 1 w1).2 = Some u2
       /\ List.find (by_id User._id 1) (users w2) = Some u2
       /\ User.isActive u2 = User.isActive Sample.alice.
Proof.
  split; [reflexivity|].
  apply (C9_toggle_status_involution 1 Sample.world Sample.alice).
  reflexivity.
Defined.

(** ** Moderating feedback *)

Lemma includes_elem_of (l : list string) (s : string) :
  JS.includes l s = true <-> s ∈ l.
Proof.
  unfold JS.includes. rewrite List.existsb_exists, list_elem_of_In.
  split.
  - intros (x & Hin & Heq). apply String.eqb_eq in Heq. by subst.
  - intros Hin. exists s. split; [done|]. apply String.eqb_refl.
Qed.

Lemma by_id_other {A} (_id : A -> ObjectId) (id id' : ObjectId) (x : A) :
  id' <> id -> by_id _id id x = true -> by_id _id id' x = false.
Proof.
  unfold by_id. intros Hne Hx. apply Nat.eqb_eq in Hx.
  apply Nat.eqb_neq. congruence.
Qed.

(** A successful update: the stored document is the old one with [status]
    and [updatedAt] replaced; no other document and no other collection
    changes. *)
Lemma feedback_status_updates (id : ObjectId) (s : string) (w : World)
    (f : Feedback.t) :
  s ∈ Feedback.statuses ->
  List.find (by_id Feedback._id id) (feedbacks w) = Some f ->
  let f' := Feedback_set_status (now w) s f in
  let w' := set_feedbacks
              (update_first (by_id Feedback._id id) (fun _ => f')
                 (feedbacks w)) w in
  AdminRouter.feedback_status id (Some s) w
  = (w', ok 200 (Some "Feedback status updated successfully")
           (FeedbackData f'))
  /\ List.find (by_id Feedback._id id) (feedbacks w') = Some f'
  /\ (forall id', id' <> id ->
        List.find (by_id Feedback._id id') (feedbacks w')
        = List.find (by_id Feedback._id id') (feedbacks w)).
Proof.
  intros Hs Hf f' w'. pose proof (find_by_id _ _ _ _ Hf) as Hid.
  assert (Hok : JS.includes ["pending"; "reviewed"; "resolved"] s = true)
    by (by apply includes_elem_of).
  split; [|split].
  - unfold AdminRouter.feedback_status, AdminRouter.status_allowed,
      Feedback_findByIdAndUpdate_status, Feedback_status_ok, Feedback.statuses.
    run. rewrite Hok. simpl. rewrite Hf. reflexivity.
  - simpl. erewrite find_update_first; [reflexivity | exact Hf |].
    unfold by_id. simpl. by apply Nat.eqb_eq.
  - intros id' Hne. simpl. apply find_update_first_other.
    + intros x. by apply by_id_other.
    + intros x _. apply (by_id_other _ id); [done|].
      unfold by_id. simpl. by apply Nat.eqb_eq.
Qed.

(** C10.  For an existing feedback and a status among [pending],
    [reviewed], [resolved], [PUT /admin/feedback/:id/status] answers [200]
    and stores the document with its [status] set: [name], [email],
    [feedback], [rating], [category] and [isPublic] (and [_id], [createdAt])
    are as before, every other feedback is as before, and so are the jobs and
    the users; the schema's [timestamps] option sets the document's
    [updatedAt] to the time of the update.  With any
    other status the answer is [400], with an unknown id [404], and the
    database is left as it was. *)
Theorem C10_feedback_status_frame (id : ObjectId) (status : option string)
    (w : World) :
  (forall s f,
     status = Some s -> s ∈ Feedback.statuses ->
     List.find (by_id Feedback._id id) (feedbacks w) = Some f ->
     exists w' f',
       AdminRouter.feedback_status id status w
       = (w', ok 200 (Some "Feedback status updated successfully")
                (FeedbackData f'))
       /\ List.find (by_id Feedback._id id) (feedbacks w') = Some f'
       /\ Feedback.status f' = s
       /\ Feedback._id f' = Feedback._id f
       /\ Feedback.name f' = Feedback.name f
       /\ Feedback.email f' = Feedback.email f
       /\ Feedback.feedback f' = Feedback.feedback f
       /\ Feedback.rating f' = Feedback.rating f
       /\ Feedback.category f' = Feedback.category f
       /\ Feedback.isPublic f' = Feedback.isPublic f
       /\ Feedback.createdAt f' = Feedback.createdAt f
       /\ Feedback.updatedAt f' = now w
       /\ (forall id', id' <> id ->
             List.find (by_id Feedback._id id') (feedbacks w')
             = List.find (by_id Feedback._id id') (feedbacks w))
       /\ length (feedbacks w') = length (feedbacks w)
       /\ jobs w' = jobs w /\ users w' = users w /\ emitted w' = emitted w)
  /\ (AdminRouter.status_allowed status = false ->
      AdminRouter.feedback_status id status w
      = (w, fail 400 "Invalid status"))
  /\ (AdminRouter.status_allowed status = true ->
      List.find (by_id Feedback._id id) (feedbacks w) = None ->
      AdminRouter.feedback_status id status w
      = (w, fail 404 "Feedback not found")).
Proof.
  split; [|split].
  - intros s f -> Hs Hf.
    destruct (feedback_status_updates id s w f Hs Hf) as (E & Hf' & Hother).
    do 2 eexists. split; [exact E|]. split; [exact Hf'|].
    do 10 (split; [reflexivity|]). split; [exact Hother|].
    split; [apply length_update_first|]. done.
  - intros Hbad. unfold AdminRouter.feedback_status. run.
    by rewrite Hbad.
  - intros Hok Hnone.
    unfold AdminRouter.feedback_status, Feedback_findByIdAndUpdate_status,
      Feedback_status_ok, Feedback.statuses.
    run. rewrite Hok. simpl.
    destruct status as [s|]; [|discriminate]. simpl in *.
    rewrite Hok. simpl. rewrite Hnone. by destruct w.
Qed.

Lemma C10_feedback_status_frame_witness :
  "resolved" ∈ Feedback.statuses
  /\ List.find (by_id Feedback._id 20) (feedbacks Sample.world)
     = Some Sample.praise
  /\ exists w' f',
       AdminRouter.feedback_status 20 (Some "resolved") Sample.world
       = (w', ok 200 (Some "Feedback status updated successfully")
                (FeedbackData f'))
       /\ Feedback.status f' = "resolved"
       /\ Feedback.rating f' = 5
       /\ Feedback.feedback f' = "Great tool".
Proof.
  assert (Hs : "resolved" ∈ Feedback.statuses)
    by (apply includes_elem_of; reflexivity).
  split; [exact Hs|]. split; [reflexivity|].
  destruct (C10_feedback_status_frame 20 (Some "resolved") Sample.world)
    as [Hupd _].
  destruct (Hupd "resolved" Sample.praise eq_refl Hs eq_refl)
    as (w' & f' & E & _ & Hst & _ & _ & _ & Hfb & Hr & _).
  exists w', f'. rewrite E, Hst, Hr, Hfb. done.
Defined.

(** ** The status filter of the list routes *)

Lemma status_filter_off (status : option string) :
  no_status_filter status = true ->
  (if JS.truthy status && negb (String.eqb (default "" status) "all")
   then status else None) = None.
Proof.
  destruct status as [s|]; simpl; [|done].
  destruct (String.eqb s ""); simpl; [done|].
  destruct (String.eqb s "all"); simpl; done.
Qed.

Lemma status_filter_on (status : option string) :
  no_status_filter status = false ->
  exists s, status = Some s
    /\ (if JS.truthy status && negb (String.eqb (default "" status) "all")
        then status else None) = Some s.
Proof.
  destruct status as [s|]; simpl; [|done].
  intros [H1 H2]%orb_false_elim. exists s. by rewrite H1, H2.
Qed.

Section StatusFilter.
Context `{Platform}.

(** C4 (as the routes have it).  On [GET /jobs] and [GET /admin/jobs] a
    [status] that is absent, ['all'] or the empty string puts no condition on
    the status: the three requests get the same answer, and the jobs looked
    at are all the jobs of the caller (all jobs, for the admin).  Any other
    value selects the jobs with exactly that status. *)
Theorem C4_status_filter (me : User.t)
    (status sortBy order search : option string) (page limit : option Z)
    (w : World) :
  (no_status_filter status = true ->
   JobsRouter.index me
     (JobsRouter.mkListQuery status sortBy order page limit) w
   = JobsRouter.index me
       (JobsRouter.mkListQuery None sortBy order page limit) w
   /\ Job_find (JobsRouter.list_filter me status) w
      = List.filter (fun j => (Job.user j =? User._id me)%nat) (jobs w)
   /\ AdminRouter.jobs (AdminRouter.mkJobsQuery page limit status search) w
      = AdminRouter.jobs (AdminRouter.mkJobsQuery page limit None search) w
   /\ Job_find (AdminRouter.jobs_filter status None) w = jobs w)
  /\ (no_status_filter status = false ->
      exists s,
        status = Some s
        /\ Job_find (JobsRouter.list_filter me status) w
           = List.filter
               (fun j => (Job.user j =? User._id me)%nat
                         && String.eqb (Job.status j) s) (jobs w)
        /\ Job_find (AdminRouter.jobs_filter status None) w
           = List.filter (fun j => String.eqb (Job.status j) s) (jobs w)).
Proof.
  split.
  - intros Hoff. pose proof (status_filter_off status Hoff) as Hq.
    unfold JobsRouter.index, AdminRouter.jobs, JobsRouter.list_filter,
      AdminRouter.jobs_filter, Job_find. simpl.
    rewrite Hq. repeat split.
    + apply List.filter_ext. intros j. unfold Job_matches. simpl.
      by rewrite !andb_true_r.
    + rewrite <- (List.filter_true (jobs w)) at 2. by apply List.filter_ext.
  - intros Hon. destruct (status_filter_on status Hon) as (s & -> & Hq).
    exists s. unfold JobsRouter.list_filter, AdminRouter.jobs_filter, Job_find.
    rewrite Hq. repeat split.
    + apply List.filter_ext. intros j. unfold Job_matches. simpl.
      by rewrite andb_true_r.
    + apply List.filter_ext. intros j. unfold Job_matches. simpl.
      by rewrite andb_true_r.
Qed.
End StatusFilter.

Lemma C4_status_filter_witness :
  no_status_filter (Some "all") = true
  /\ JobsRouter.index (H := Sample.platform) Sample.alice
       (JobsRouter.mkListQuery (Some "all") None None None None) Sample.world
     = JobsRouter.index (H := Sample.platform) Sample.alice
         (JobsRouter.mkListQuery None None None None None) Sample.world.
Proof.
  split; [reflexivity|].
  destruct (C4_status_filter (H := Sample.platform) Sample.alice (Some "all")
              None None None None None Sample.world) as [Hoff _].
  destruct (Hoff eq_refl) as [E _]. exact E.
Defined.

(** [GET /api/jobs?status=] answers like [GET /api/jobs]: Alice gets her
    three jobs, of two different statuses; likewise for the admin list. *)
Lemma C4_empty_status_counterexample :
  sent_jobs
    (JobsRouter.index (H := Sample.platform) Sample.alice
       (JobsRouter.mkListQuery (Some "") None None None None) Sample.world).2
  = Some [Sample.hooli; Sample.globex; Sample.acme]
  /\ Job.status <$> [Sample.hooli; Sample.globex; Sample.acme]
     = ["applied"; "interview"; "applied"]
  /\ sent_jobs
       (AdminRouter.jobs (H := Sample.platform)
          (AdminRouter.mkJobsQuery None None (Some "") None) Sample.world).2
     = Some [Sample.initech; Sample.hooli; Sample.globex; Sample.acme].
Proof. repeat split; reflexivity. Qed.

(** ** Looking a job up *)

Lemma NoDup_fmap_inj {A B} (f : A -> B) (l : list A) (x y : A) :
  NoDup (f <$> l) -> x ∈ l -> y ∈ l -> f x = f y -> x = y.
Proof.
  induction l as [|a l IH]; [by intros _ ?%elem_of_nil|].
  rewrite fmap_cons. intros [Hnotin Hnd]%NoDup_cons.
  intros [->|Hx]%elem_of_cons [->|Hy]%elem_of_cons Heq; auto.
  - exfalso. apply Hnotin. rewrite Heq. by apply list_elem_of_fmap_2.
  - exfalso. apply Hnotin. rewrite <- Heq. by apply list_elem_of_fmap_2.
Qed.

Lemma find_Some_elem {A} (p : A -> bool) (l : list A) (x : A) :
  List.find p l = Some x -> x ∈ l /\ p x = true.
Proof.
  intros [Hin Hp]%List.find_some. split; [|done]. by apply list_elem_of_In.
Qed.

Lemma find_None_all {A} (p : A -> bool) (l : list A) :
  (forall x, x ∈ l -> p x = false) -> List.find p l = None.
Proof.
  intros Hall. destruct (List.find p l) as [x|] eqn:Hf; [|done].
  apply find_Some_elem in Hf as [Hin Hp]. rewrite (Hall x Hin) in Hp. done.
Qed.

(** With unique ids, the job [findOne({ _id, user })] returns is the one
    [findById] returns. *)
Lemma findOne_findById (id uid : ObjectId) (l : list Job.t) (j : Job.t) :
  NoDup (Job._id <$> l) ->
  List.find (owned id uid) l = Some j ->
  List.find (by_id Job._id id) l = Some j /\ Job.user j = uid.
Proof.
  intros Hnd [Hin [Hid Hu]%andb_prop]%find_Some_elem.
  apply Nat.eqb_eq in Hu. split; [|done].
  destruct (List.find (by_id Job._id id) l) as [j'|] eqn:Hf.
  - apply find_Some_elem in Hf as [Hin' Hid'].
    unfold by_id in *. apply Nat.eqb_eq in Hid, Hid'.
    f_equal. apply (NoDup_fmap_inj Job._id l); congruence.
  - apply List.find_none with (x := j) in Hf; [congruence|].
    by apply list_elem_of_In.
Qed.

(** A job of somebody else is not found... *)
Lemma findOne_foreign (id uid : ObjectId) (l : list Job.t) (j : Job.t) :
  NoDup (Job._id <$> l) ->
  j ∈ l -> Job._id j = id -> Job.user j <> uid ->
  List.find (owned id uid) l = None.
Proof.
  intros Hnd Hin Hid Hu. apply find_None_all. intros x Hx.
  unfold owned, by_id.
  destruct (Nat.eqb_spec (Job._id x) id) as [Hxid|]; [|done]. simpl.
  apply Nat.eqb_neq.
  assert (x = j) as -> by (apply (NoDup_fmap_inj Job._id l); congruence).
  done.
Qed.

(** ... and neither is a job that does not exist. *)
Lemma findOne_absent (id uid : ObjectId) (l : list Job.t) :
  (forall j, j ∈ l -> Job._id j <> id) ->
  List.find (owned id uid) l = None.
Proof.
  intros Habs. apply find_None_all. intros x Hx.
  unfold owned, by_id. specialize (Habs x Hx).
  by destruct (Nat.eqb_spec (Job._id x) id).
Qed.

Section JobRoutes.
Context `{Platform}.

Lemma show_not_found (me : User.t) (id : ObjectId) (w : World) :
  List.find (owned id (User._id me)) (jobs w) = None ->
  JobsRouter.show me id w = (w, fail 404 "Job not found").
Proof.
  intros Hf. unfold JobsRouter.show, Job_findOne. run. by rewrite Hf.
Qed.

Lemma destroy_not_found (me : User.t) (id : ObjectId) (w : World) :
  List.find (owned id (User._id me)) (jobs w) = None ->
  JobsRouter.destroy me id w = (w, fail 404 "Job not found").
Proof.
  intros Hf. unfold JobsRouter.destroy, Job_findOne. run. by rewrite Hf.
Qed.

Lemma update_handler_not_found (me : User.t) (id : ObjectId) (b : Job.body)
    (w : World) :
  List.find (owned id (User._id me)) (jobs w) = None ->
  JobsRouter.update_handler me id b w = (w, fail 404 "Job not found").
Proof.
  intros Hf. unfold JobsRouter.update_handler, Job_findOne. run.
  by rewrite Hf.
Qed.

(** [PUT /jobs/:id] on a job the caller does not own: the validation
    middleware answers first. *)
Lemma update_not_found (me : User.t) (id : ObjectId) (b : Job.body)
    (w : World) :
  List.find (owned id (User._id me)) (jobs w) = None ->
  JobsRouter.update me id b w
  = (w, match (Validation.jobValidation b).2 with
        | [] => fail 404 "Job not found"
        | errors =>
            mkResponse 400 false (Some "Validation failed") (Errors errors)
        end).
Proof.
  intros Hf. unfold JobsRouter.update, Validation.validateRequest.
  destruct (Validation.jobValidation b) as [b' [|e errors]]; simpl; [|done].
  by apply update_handler_not_found.
Qed.

(** C8 (as the routes have it).  When user [me] asks for a job that belongs
    to another user, [GET] and [DELETE /jobs/:id] answer [404 Job not found]
    and [PUT /jobs/:id] answers [404 Job not found] if the body passes
    [jobValidation] and [400 Validation failed] if it does not; nothing is
    written.  Each answer is the one given for an id that no job has, so it
    never tells whether the job exists, and it is never [403]. *)
Theorem C8_ownership_isolation (me : User.t) (id id' : ObjectId)
    (b : Job.body) (w : World) (j : Job.t) :
  NoDup (Job._id <$> jobs w) ->
  j ∈ jobs w -> Job._id j = id -> Job.user j <> User._id me ->
  (forall j', j' ∈ jobs w -> Job._id j' <> id') ->
  JobsRouter.show me id w = (w, fail 404 "Job not found")
  /\ JobsRouter.show me id' w = (w, fail 404 "Job not found")
  /\ JobsRouter.destroy me id w = (w, fail 404 "Job not found")
  /\ JobsRouter.destroy me id' w = (w, fail 404 "Job not found")
  /\ JobsRouter.update me id b w = JobsRouter.update me id' b w
  /\ JobsRouter.update me id b w
     = (w, match (Validation.jobValidation b).2 with
           | [] => fail 404 "Job not found"
           | errors =>
               mkResponse 400 false (Some "Validation failed")
                 (Errors errors)
           end).
Proof.
  intros Hnd Hin Hid Hu Habs.
  pose proof (findOne_foreign id (User._id me) (jobs w) j Hnd Hin Hid Hu)
    as Hforeign.
  pose proof (findOne_absent id' (User._id me) (jobs w) Habs) as Habsent.
  repeat split.
  - by apply show_not_found.
  - by apply show_not_found.
  - by apply destroy_not_found.
  - by apply destroy_not_found.
  - by rewrite !update_not_found.
  - by apply update_not_found.
Qed.
End JobRoutes.

Lemma sample_ids_unique : unique_ids Sample.world.
Proof.
  unfold unique_ids.
  repeat split; apply (bool_decide_unpack _); vm_compute; exact I.
Qed.

Lemma sample_no_job_99 (j : Job.t) :
  j ∈ jobs Sample.world -> Job._id j <> 99%nat.
Proof.
  simpl. intros Hin.
  repeat (apply elem_of_cons in Hin as [->|Hin]; [discriminate|]).
  by apply elem_of_nil in Hin.
Qed.

Lemma C8_ownership_isolation_witness :
  NoDup (Job._id <$> jobs Sample.world)
  /\ Sample.acme ∈ jobs Sample.world
  /\ Job.user Sample.acme <> User._id Sample.bob
  /\ JobsRouter.show Sample.bob 10 Sample.world
     = (Sample.world, fail 404 "Job not found")
  /\ JobsRouter.update (H := Sample.platform) Sample.bob 10 Sample.dated
       Sample.world
     = JobsRouter.update (H := Sample.platform) Sample.bob 99 Sample.dated
         Sample.world.
Proof.
  assert (Hnd : NoDup (Job._id <$> jobs Sample.world))
    by apply sample_ids_unique.
  assert (Hin : Sample.acme ∈ jobs Sample.world) by apply list_elem_of_here.
  assert (Hu : Job.user Sample.acme <> User._id Sample.bob) by discriminate.
  split; [exact Hnd|]. split; [exact Hin|]. split; [exact Hu|].
  destruct (C8_ownership_isolation (H := Sample.platform) Sample.bob 10 99
              Sample.dated Sample.world Sample.acme Hnd Hin eq_refl Hu
              sample_no_job_99) as (Hshow & _ & _ & _ & Hupd & _).
  split; [exact Hshow | exact Hupd].
Defined.

(** Bob sends [PUT /api/jobs/10] with an empty body; job 10 is Alice's.  The
    answer is [400 Validation failed], not [404]. *)
Lemma C8_put_invalid_body_counterexample :
  Job.user Sample.acme <> User._id Sample.bob
  /\ code (JobsRouter.update (H := Sample.platform) Sample.bob 10
             Sample.no_body Sample.world).2 = 400%nat
  /\ message (JobsRouter.update (H := Sample.platform) Sample.bob 10
                Sample.no_body Sample.world).2 = Some "Validation failed".
Proof. split; [discriminate|]. split; reflexivity. Qed.

(** ** Updating a job *)

Section JobUpdate.
Context `{Platform}.

(** [findByIdAndUpdate] on a stored job: it throws and writes nothing, or it
    stores and returns the patched job. *)
Lemma Job_findByIdAndUpdate_found (id : ObjectId) (b : Job.body) (w : World)
    (j : Job.t) :
  List.find (by_id Job._id id) (jobs w) = Some j ->
  (exists e, Job_findByIdAndUpdate id b w = (w, inl e))
  \/ (exists applied,
        let j' := Job_apply (now w) applied b j in
        Job_findByIdAndUpdate id b w
        = (set_jobs (update_first (by_id Job._id id) (fun _ => j') (jobs w)) w,
           inr (Some j'))).
Proof.
  intros Hf. unfold Job_findByIdAndUpdate, Job_cast_appliedDate. run.
  destruct (Job.b_appliedDate b) as [s|]; [destruct (castDate s) as [d|]|];
    simpl; (destruct (Job_update_ok b); simpl; [|by left; eexists]);
    try (by left; eexists); rewrite Hf; right; eexists; reflexivity.
Qed.

(** The outcomes of the handler of [PUT /jobs/:id] on a job of the caller. *)
Lemma update_handler_found (me : User.t) (id : ObjectId) (b : Job.body)
    (w : World) (old : Job.t) :
  List.find (owned id (User._id me)) (jobs w) = Some old ->
  List.find (by_id Job._id id) (jobs w) = Some old ->
  (exists w', JobsRouter.update_handler me id b w
              = (w', fail 500 "Server error while updating job"))
  \/ (exists applied,
        let new := Job_apply (now w) applied b old in
        let w1 := set_jobs
                    (update_first (by_id Job._id id) (fun _ => new) (jobs w))
                    w in
        JobsRouter.update_handler me id b w
        = (set_emitted (emitted w ++ status_notifications me old new) w1,
           ok 200 (Some "Job application updated successfully")
             (JobData new))).
Proof.
  intros Hone Hid.
  destruct (Job_findByIdAndUpdate_found id b w old Hid)
    as [[e He]|[applied Hupd]].
  - left. exists w. unfold JobsRouter.update_handler, Job_findOne. run.
    rewrite Hone. simpl. fold (Job_findByIdAndUpdate id b w).
    by rewrite He.
  - simpl in Hupd.
    unfold JobsRouter.update_handler, Job_findOne. run.
    rewrite Hone. simpl. fold (Job_findByIdAndUpdate id b w).
    rewrite Hupd. simpl.
    unfold status_notifications, status_updated_message.
    destruct (String.eqb (Job.status old)
                (default (Job.status old) (Job.b_status b))) eqn:Heq; simpl.
    + right. exists applied. simpl. rewrite Heq.
      rewrite app_nil_r. by destruct w.
    + destruct (ioUp w) eqn:Hio.
      * right. exists applied. simpl. by rewrite Heq.
      * left. by eexists.
Qed.

(** C6.  A [PUT /jobs/:id] that succeeds has found a job [old] of the
    caller and stored and sent its update [new]; the new status is the one in
    the body, or the old one if the body has none.  If the two statuses
    differ, exactly one event was published by the call, a
    [job-status-updated] carrying [oldStatus] and [newStatus]; if they are
    equal, none was. *)
Theorem C6_status_notification (me : User.t) (id : ObjectId) (b : Job.body)
    (w w' : World) (r : Response) :
  NoDup (Job._id <$> jobs w) ->
  JobsRouter.update me id b w = (w', r) ->
  code r = 200%nat ->
  exists old new,
    List.find (by_id Job._id id) (jobs w) = Some old
    /\ Job.user old = User._id me
    /\ sent_job r = Some new
    /\ List.find (by_id Job._id id) (jobs w') = Some new
    /\ Job.status new = default (Job.status old) (Job.b_status b)
    /\ emitted w'
       = emitted w
         ++ (if String.eqb (Job.status old) (Job.status new) then []
             else [mkEmission None
                     (job_status_updated (status_updated_message new) new
                        (User.name me) (Job.status old) (Job.status new))]).
Proof.
  intros Hnd Hrun Hcode.
  unfold JobsRouter.update, Validation.validateRequest in Hrun.
  destruct (Validation.jobValidation b) as [b' errors] eqn:Hv.
  assert (Hst : Job.b_status b' = Job.b_status b).
  { unfold Validation.jobValidation in Hv. by injection Hv as <- _. }
  destruct errors as [|e errors];
    [|injection Hrun as <- <-; discriminate].
  destruct (List.find (owned id (User._id me)) (jobs w)) as [old|] eqn:Hone.
  - destruct (findOne_findById _ _ _ _ Hnd Hone) as [Hid Hu].
    destruct (update_handler_found me id b' w old Hone Hid)
      as [[w1 E]|[applied E]]; rewrite E in Hrun; injection Hrun as <- <-.
    + discriminate.
    + exists old, (Job_apply (now w) applied b' old).
      split; [done|]. split; [done|]. split; [done|]. split; [|split].
      * simpl. erewrite find_update_first; [reflexivity | exact Hid |].
        pose proof (find_by_id _ _ _ _ Hid) as Hold.
        unfold by_id. simpl. by apply Nat.eqb_eq.
      * simpl. by rewrite Hst.
      * reflexivity.
  - rewrite (update_handler_not_found me id b' w Hone) in Hrun.
    injection Hrun as <- <-. discriminate.
Qed.
End JobUpdate.

Lemma C6_status_notification_witness :
  NoDup (Job._id <$> jobs Sample.world)
  /\ code (JobsRouter.update (H := Sample.platform) Sample.alice 10
             Sample.promoted Sample.world).2 = 200%nat
  /\ exists new,
       emitted (JobsRouter.update (H := Sample.platform) Sample.alice 10
                  Sample.promoted Sample.world).1
       = [mkEmission None
            (job_status_updated (status_updated_message new) new
               "Alice" "applied" "interview")].
Proof.
  assert (Hnd : NoDup (Job._id <$> jobs Sample.world))
    by apply sample_ids_unique.
  split; [exact Hnd|]. split; [reflexivity|].
  destruct (C6_status_notification (H := Sample.platform) Sample.alice 10
              Sample.promoted Sample.world _ _ Hnd
              (surjective_pairing _) eq_refl)
    as (old & new & Hold & _ & _ & _ & Hst & Hem).
  injection Hold as <-. exists new.
  rewrite Hem. simpl in Hst. rewrite Hst. reflexivity.
Defined.

(** ** Writes and the publish primitive *)

Section Publishing.
Context `{Platform}.

(** A successful [Job.create] appends the job; the document has the schema
    defaults for what the input leaves out. *)
Lemma Job_create_run (uid : ObjectId) (b : Job.body) (w w1 : World)
    (job : Job.t) :
  Job_create uid b w = (w1, inr job) ->
  exists applied,
    (match Job.b_appliedDate b with
     | Some s => castDate s = Some applied
     | None => applied = now w
     end)
    /\ job = Job_document (nextId w) uid (now w) (Some applied) b
    /\ w1 = set_nextId (S (nextId w)) (set_jobs (jobs w ++ [job]) w).
Proof.
  unfold Job_create, Job_cast_appliedDate. run.
  destruct (Job.b_appliedDate b) as [s|].
  - destruct (castDate s) as [d|]; simpl; [|done].
    destruct (Job_validate _); simpl; [|done].
    intros [= <- <-]. by exists d.
  - simpl. destruct (Job_validate _); simpl; [|done].
    intros [= <- <-]. by exists (now w).
Qed.

Lemma Job_findByIdAndUpdate_socket (id : ObjectId) (b : Job.body)
    (w w1 : World) (res : Exn + option Job.t) :
  Job_findByIdAndUpdate id b w = (w1, res) ->
  ioUp w1 = ioUp w /\ emitted w1 = emitted w.
Proof.
  unfold Job_findByIdAndUpdate, Job_cast_appliedDate. run.
  destruct (Job.b_appliedDate b) as [s|]; [destruct (castDate s)|]; simpl;
    try (by intros [= <- _]);
    (destruct (Job_update_ok b); simpl; [|by intros [= <- _]]);
    (destruct (List.find _ _); by intros [= <- _]).
Qed.

Lemma Feedback_create_run (b : Feedback.body) (w w1 : World)
    (f : Feedback.t) :
  Feedback_create b w = (w1, inr f) ->
  w1 = set_nextId (S (nextId w)) (set_feedbacks (feedbacks w ++ [f]) w).
Proof.
  unfold Feedback_create. run.
  destruct (Feedback.b_rating b) as [r|]; [|done].
  destruct (Feedback_validate _); simpl; [|done].
  by intros [= <- <-].
Qed.

(** C3 (as the routes have it).  The call of [emit] stands inside the
    handler's [try] block.  When the write of a job creation, of a job update
    that changes the status, of a job deletion or of a feedback creation has
    gone through and the publish primitive throws, the handler answers [500]
    with its generic message; the write stays in the database and nothing is
    published. *)
Theorem C3_publish_failure (me : User.t) (id : ObjectId) (b : Job.body)
    (fb : Feedback.body) (w : World) :
  ioUp w = false ->
  (forall b' w1 job,
     Validation.jobValidation b = (b', []) ->
     Job_create (User._id me) b' w = (w1, inr job) ->
     JobsRouter.create me b w
     = (w1, fail 500 "Server error while creating job")
     /\ jobs w1 = jobs w ++ [job] /\ emitted w1 = emitted w)
  /\ (forall b' w1 old new,
        Validation.jobValidation b = (b', []) ->
        List.find (owned id (User._id me)) (jobs w) = Some old ->
        Job_findByIdAndUpdate id b' w = (w1, inr (Some new)) ->
        Job.status old <> Job.status new ->
        JobsRouter.update me id b w
        = (w1, fail 500 "Server error while updating job")
        /\ emitted w1 = emitted w)
  /\ (forall job,
        List.find (owned id (User._id me)) (jobs w) = Some job ->
        JobsRouter.destroy me id w
        = (set_jobs (delete_first (by_id Job._id id) (jobs w)) w,
           fail 500 "Server error while deleting job"))
  /\ (forall fb' w1 f,
        Validation.feedbackValidation fb = (fb', []) ->
        Feedback_create fb' w = (w1, inr f) ->
        FeedbackRouter.create fb w
        = (w1, fail 500 "Server error while submitting feedback")
        /\ feedbacks w1 = feedbacks w ++ [f] /\ emitted w1 = emitted w).
Proof.
  intros Hio. split; [|split; [|split]].
  - intros b' w1 job Hv Hcreate.
    destruct (Job_create_run _ _ _ _ _ Hcreate) as (applied & _ & _ & Hw1).
    split; [|by rewrite Hw1].
    unfold JobsRouter.create, Validation.validateRequest. rewrite Hv.
    unfold JobsRouter.create_handler, try_catch, bind.
    rewrite Hcreate. unfold emit.
    replace (ioUp w1) with false by (by rewrite Hw1). done.
  - intros b' w1 old new Hv Hone Hupd Hne.
    destruct (Job_findByIdAndUpdate_socket _ _ _ _ _ Hupd) as [Hio1 Hem1].
    split; [|done].
    unfold JobsRouter.update, Validation.validateRequest. rewrite Hv.
    unfold JobsRouter.update_handler, Job_findOne, try_catch, bind, get, ret.
    cbv beta iota. rewrite Hone. cbv beta iota. rewrite Hupd.
    apply String.eqb_neq in Hne. rewrite Hne. simpl.
    unfold emit. by rewrite Hio1, Hio.
  - intros job Hone.
    unfold JobsRouter.destroy, Job_findOne, Job_findByIdAndDelete. run.
    by rewrite Hone, Hio.
  - intros fb' w1 f Hv Hcreate.
    pose proof (Feedback_create_run _ _ _ _ Hcreate) as Hw1.
    split; [|by rewrite Hw1].
    unfold FeedbackRouter.create, Validation.validateRequest. rewrite Hv.
    unfold FeedbackRouter.create_handler, try_catch, bind, get.
    rewrite Hcreate. unfold emit.
    replace (ioUp w1) with false by (by rewrite Hw1). done.
Qed.
End Publishing.

Lemma C3_publish_failure_witness :
  ioUp Sample.offline = false
  /\ exists w1 job,
       JobsRouter.create (H := Sample.platform) Sample.alice Sample.dated
         Sample.offline
       = (w1, fail 500 "Server error while creating job")
       /\ jobs w1 = jobs Sample.offline ++ [job]
       /\ Job.company job = "Acme".
Proof.
  split; [reflexivity|].
  destruct (C3_publish_failure (H := Sample.platform) Sample.alice 10
              Sample.dated Sample.five_stars Sample.offline eq_refl)
    as [Hcreate _].
  destruct (Hcreate _ _ _ eq_refl (surjective_pairing _)) as (E & Hjobs & _).
  eexists _, _. split; [exact E|]. split; [exact Hjobs|]. reflexivity.
Defined.

(** The socket server is down when Alice posts a job: the job is stored, and
    the answer is [500], not the [201] of a successful creation. *)
Lemma C3_publish_failure_counterexample :
  code (JobsRouter.create (H := Sample.platform) Sample.alice Sample.dated
          Sample.offline).2 = 500%nat
  /\ success (JobsRouter.create (H := Sample.platform) Sample.alice
                Sample.dated Sample.offline).2 = false
  /\ Job.company
       <$> jobs (JobsRouter.create (H := Sample.platform) Sample.alice
                   Sample.dated Sample.offline).1
     = ["Acme"; "Globex"; "Hooli"; "Initech"; "Acme"]
  /\ length (jobs Sample.offline) = 4%nat.
Proof. repeat split; reflexivity. Qed.

(** ** Creating a job *)

Section JobCreation.
Context `{Platform}.

(** [jobValidation] turns a body without [appliedDate] down. *)
Lemma jobValidation_undated (b : Job.body) :
  Job.b_appliedDate b = None ->
  ("appliedDate", "Please provide a valid date")
    ∈ (Validation.jobValidation b).2.
Proof.
  intros Hnone. unfold Validation.jobValidation. simpl.
  rewrite Hnone. simpl. rewrite isISO8601_empty. simpl.
  repeat (apply elem_of_app; right). apply list_elem_of_here.
Qed.

Lemma rule_passed (param msg : string) (passed : bool) :
  Validation.rule param msg passed = [] -> passed = true.
Proof. by destruct passed. Qed.

(** A body that passes [jobValidation] carries an ISO 8601 date. *)
Lemma jobValidation_dated (b b' : Job.body) :
  Validation.jobValidation b = (b', []) ->
  Job.b_status b' = Job.b_status b
  /\ Job.b_appliedDate b' = Job.b_appliedDate b
  /\ exists s, Job.b_appliedDate b = Some s /\ isISO8601 s = true.
Proof.
  unfold Validation.jobValidation. intros [= <- Herr].
  split; [done|]. split; [done|].
  cbn [concat] in Herr.
  do 3 apply app_eq_nil in Herr as [_ Herr].
  apply app_eq_nil in Herr as [Hiso%rule_passed _].
  destruct (Job.b_appliedDate b) as [s|]; simpl in Hiso.
  - by exists s.
  - by rewrite isISO8601_empty in Hiso.
Qed.

(** C1 (as the routes have it).  [POST /jobs] does not accept a body
    without [appliedDate]: [jobValidation] answers [400 Validation failed]
    and nothing is created.  For a body it accepts and a creation that
    succeeds, the job stored and sent has the status of the body, [applied]
    if the body has none, and the date of the body as its [appliedDate].
    The creation instant is the default of [Job.create] itself, for an input
    without [appliedDate]. *)
Theorem C1_creation_defaults (me : User.t) (b : Job.body) (w : World) :
  (Job.b_appliedDate b = None ->
   exists errors,
     JobsRouter.create me b w
     = (w, mkResponse 400 false (Some "Validation failed") (Errors errors))
     /\ ("appliedDate", "Please provide a valid date") ∈ errors)
  /\ (forall w' r,
        JobsRouter.create me b w = (w', r) -> code r = 201%nat ->
        exists job s,
          sent_job r = Some job
          /\ jobs w' = jobs w ++ [job]
          /\ Job.status job = default "applied" (Job.b_status b)
          /\ Job.b_appliedDate b = Some s
          /\ isISO8601 s = true
          /\ castDate s = Some (Job.appliedDate job)
          /\ Job.createdAt job = now w)
  /\ (forall uid w' job,
        Job.b_appliedDate b = None ->
        Job_create uid b w = (w', inr job) ->
        Job.appliedDate job = now w
        /\ Job.status job = default "applied" (Job.b_status b)).
Proof.
  split; [|split].
  - intros Hnone. pose proof (jobValidation_undated b Hnone) as Hin.
    unfold JobsRouter.create, Validation.validateRequest.
    destruct (Validation.jobValidation b) as [b' [|e errors]]; simpl in *.
    + by apply elem_of_nil in Hin.
    + by eexists.
  - intros w' r Hrun Hcode.
    unfold JobsRouter.create, Validation.validateRequest in Hrun.
    destruct (Validation.jobValidation b) as [b' errors] eqn:Hv.
    destruct errors as [|e errors];
      [|injection Hrun as <- <-; discriminate].
    destruct (jobValidation_dated b b' Hv) as (Hst & Hdate & s & Hs & Hiso).
    unfold JobsRouter.create_handler, try_catch, bind in Hrun.
    destruct (Job_create (User._id me) b' w) as [w1 [e|job]] eqn:Hcreate;
      [injection Hrun as <- <-; discriminate|].
    destruct (Job_create_run _ _ _ _ _ Hcreate)
      as (applied & Happlied & Hjob & Hw1).
    rewrite Hdate, Hs in Happlied.
    assert (Hjobs : jobs w1 = jobs w ++ [job]) by (by rewrite Hw1).
    unfold emit, ret in Hrun.
    destruct (ioUp w1); injection Hrun as <- <-; [|discriminate].
    exists job, s. repeat split; try done.
    + rewrite Hjob. simpl. by rewrite Hst.
    + rewrite Hjob. simpl. done.
    + by rewrite Hjob.
  - intros uid w' job Hnone Hcreate.
    destruct (Job_create_run _ _ _ _ _ Hcreate)
      as (applied & Happlied & -> & _).
    rewrite Hnone in Happlied. subst applied. done.
Qed.
End JobCreation.

Lemma C1_creation_defaults_witness :
  code (JobsRouter.create (H := Sample.platform) Sample.alice Sample.dated
          Sample.world).2 = 201%nat
  /\ exists job,
       sent_job (JobsRouter.create (H := Sample.platform) Sample.alice
                   Sample.dated Sample.world).2 = Some job
       /\ Job.status job = "applied"
       /\ @castDate Sample.platform "2024-01-01"
          = Some (Job.appliedDate job).
Proof.
  split; [reflexivity|].
  destruct (C1_creation_defaults (H := Sample.platform) Sample.alice
              Sample.dated Sample.world) as (_ & Hcreated & _).
  destruct (Hcreated _ _ (surjective_pairing _) eq_refl)
    as (job & s & Hsent & _ & Hst & Hs & _ & Hcast & _).
  injection Hs as <-. exists job. done.
Defined.

(** Alice posts [{ company: 'Acme', position: 'Engineer' }], without
    [appliedDate]: the answer is [400 Validation failed] and no job is
    created. *)
Lemma C1_undated_counterexample :
  Job.b_appliedDate Sample.undated = None
  /\ JobsRouter.create (H := Sample.platform) Sample.alice Sample.undated
       Sample.world
     = (Sample.world,
        mkResponse 400 false (Some "Validation failed")
          (Errors [("appliedDate", "Please provide a valid date")])).
Proof. split; reflexivity. Qed.

(** ** The invariant of the database *)

Lemma fmap_update_first {A B} (g : A -> B) (p : A -> bool) (f : A -> A)
    (l : list A) :
  (forall x, p x = true -> g (f x) = g x) ->
  g <$> update_first p f l = g <$> l.
Proof.
  intros Hg. induction l as [|x l IH]; simpl; [done|].
  destruct (p x) eqn:Hx; rewrite !fmap_cons.
  - by rewrite (Hg x Hx).
  - by rewrite IH.
Qed.

Lemma Forall_update_first {A} (P : A -> Prop) (p : A -> bool) (f : A -> A)
    (l : list A) :
  (forall x, p x = true -> P x -> P (f x)) ->
  Forall P l -> Forall P (update_first p f l).
Proof.
  intros HP. induction 1 as [|x l Hx Hl IH]; simpl; [constructor|].
  destruct (p x) eqn:Hpx; constructor; auto.
Qed.

Lemma elem_of_delete_first {A} (p : A -> bool) (l : list A) (x : A) :
  x ∈ delete_first p l -> x ∈ l.
Proof.
  induction l as [|y l IH]; simpl; [done|].
  destruct (p y); rewrite ?elem_of_cons; [by right|].
  intros [->|Hin]; [by left | right; auto].
Qed.

Lemma NoDup_fmap_delete_first {A B} (g : A -> B) (p : A -> bool)
    (l : list A) :
  NoDup (g <$> l) -> NoDup (g <$> delete_first p l).
Proof.
  induction l as [|y l IH]; [done|].
  rewrite fmap_cons. intros [Hnotin Hnd]%NoDup_cons.
  cbn [delete_first]. destruct (p y); [done|].
  rewrite fmap_cons. apply NoDup_cons.
  split; [|auto]. intros (x & Hx & Hin)%list_elem_of_fmap.
  apply Hnotin. rewrite Hx. apply list_elem_of_fmap_2.
  by apply (elem_of_delete_first p).
Qed.

Lemma Forall_delete_first {A} (P : A -> Prop) (p : A -> bool) (l : list A) :
  Forall P l -> Forall P (delete_first p l).
Proof.
  rewrite !Forall_forall. intros HP x Hin.
  by apply HP, (elem_of_delete_first p).
Qed.

Lemma NoDup_snoc_fresh {A} (_id : A -> ObjectId) (l : list A) (x : A)
    (n : ObjectId) :
  Forall (fun y => (_id y < n)%nat) l -> _id x = n ->
  NoDup (_id <$> l) -> NoDup (_id <$> (l ++ [x])).
Proof.
  intros Hbelow Hx Hnd. rewrite fmap_app. apply NoDup_app.
  split; [done|]. split; [|apply NoDup_singleton].
  intros i Hi ->%list_elem_of_singleton.
  apply list_elem_of_fmap in Hi as (y & Hy & Hin).
  rewrite Forall_forall in Hbelow. specialize (Hbelow y Hin). lia.
Qed.

(** Case analysis on everything a handler branches on. *)
Ltac branches :=
  repeat match goal with
         | |- context [match ?x with _ => _ end] =>
             lazymatch x with
             | context [match _ with _ => _ end] => fail
             | _ => destruct x eqn:?; simpl
             end
         end.

Section Invariant.
Context `{Platform}.

Lemma Job_validate_invariant (j : Job.t) :
  Job_validate j = true -> Job_invariant j.
Proof.
  unfold Job_validate, Job_invariant, Job_company_ok, Job_status_ok.
  rewrite !andb_true_iff, !negb_true_iff.
  intros [[[[[[Hc _] [Hp _]] Hs] _] _] _].
  apply String.eqb_neq in Hc, Hp. by apply includes_elem_of in Hs.
Qed.

Lemma Job_apply_invariant (t : Date) (applied : option Date) (b : Job.body)
    (j : Job.t) :
  Job_update_ok b = true -> Job_invariant j ->
  Job_invariant (Job_apply t applied b j).
Proof.
  unfold Job_update_ok, Job_invariant, Job_company_ok, Job_status_ok.
  rewrite !andb_true_iff.
  intros [[[[[Hc Hp] Hs] _] _] _] (Hjs & Hjc & Hjp). simpl.
  repeat split.
  - destruct (Job.b_status b) as [s|]; simpl in *; [|done].
    by apply includes_elem_of.
  - destruct (Job.b_company b) as [s|]; simpl in *; [|done].
    apply andb_true_iff in Hc as [Hc _]. apply negb_true_iff in Hc.
    by apply String.eqb_neq.
  - destruct (Job.b_position b) as [s|]; simpl in *; [|done].
    apply andb_true_iff in Hp as [Hp _]. apply negb_true_iff in Hp.
    by apply String.eqb_neq.
Qed.

Lemma Feedback_validate_invariant (f : Feedback.t) :
  Feedback_validate f = true -> Feedback_invariant f.
Proof.
  unfold Feedback_validate, Feedback_invariant, Feedback_rating_ok,
    Feedback_status_ok.
  rewrite !andb_true_iff.
  intros [[[_ [Hlo%Z.leb_le Hhi%Z.leb_le]] _] Hs].
  split; [lia|]. by apply includes_elem_of.
Qed.

End Invariant.

Section Steps.
Context `{Platform}.

Ltac same := by apply db_same.

(** Every request is one of the steps of [db_step]. *)
Lemma serve_db_step (rq : Request) (w : World) : db_step w (serve rq w).1.
Proof.
  destruct rq; simpl.
  - unfold JobsRouter.index. run. branches; same.
  - unfold JobsRouter.show, Job_findOne. run. branches; same.
  - unfold JobsRouter.create, Validation.validateRequest.
    destruct (Validation.jobValidation body) as [b' [|e errors]]; [|same].
    unfold JobsRouter.create_handler, Job_create, Job_cast_appliedDate. run.
    branches; try same;
      by eapply db_job_created; simpl; eauto.
  - unfold JobsRouter.update, Validation.validateRequest.
    destruct (Validation.jobValidation body) as [b' [|e errors]]; [|same].
    unfold JobsRouter.update_handler, Job_findOne, Job_findByIdAndUpdate,
      Job_cast_appliedDate. run.
    branches; try same;
      by eapply db_job_updated; simpl; eauto.
  - unfold JobsRouter.destroy, Job_findOne, Job_findByIdAndDelete. run.
    branches; try same; by eapply db_job_deleted; simpl; eauto.
  - unfold JobsRouter.stats_overview. run. same.
  - unfold FeedbackRouter.create, Validation.validateRequest.
    destruct (Validation.feedbackValidation body) as [b' [|e errors]];
      [|same].
    unfold FeedbackRouter.create_handler, Feedback_create. run.
    branches; try same;
      by eapply db_feedback_created; simpl; eauto.
  - unfold FeedbackRouter.public. run. branches; same.
  - same.
  - same.
  - unfold AdminRouter.users. run. branches; same.
  - unfold AdminRouter.jobs. run. branches; same.
  - unfold AdminRouter.feedback. run. branches; same.
  - unfold AdminRouter.feedback_status, AdminRouter.status_allowed,
      Feedback_findByIdAndUpdate_status, Feedback_status_ok,
      Feedback.statuses.
    destruct status as [s|]; [|same].
    destruct (JS.includes ["pending"; "reviewed"; "resolved"] s) eqn:Hs;
      [|run; same].
    pose proof (proj1 (includes_elem_of _ _) Hs) as Hin.
    run. rewrite ?Hs. simpl.
    branches; try same; by eapply db_feedback_status; simpl; eauto.
  - unfold AdminRouter.feedback_delete, Feedback_findById,
      Feedback_findByIdAndDelete. run.
    branches; try same; by eapply db_feedback_deleted; simpl; eauto.
  - unfold AdminRouter.toggle_status, User_findById, User_save. run.
    branches; try same; by eapply db_user_toggled; simpl; eauto.
Qed.
End Steps.

Section Preservation.
Context `{Platform}.

Lemma by_id_true {A} (_id : A -> ObjectId) (id : ObjectId) (x : A) :
  by_id _id id x = true -> _id x = id.
Proof. unfold by_id. apply Nat.eqb_eq. Qed.

Lemma Forall_below_S {A} (_id : A -> ObjectId) (n : ObjectId) (l : list A) :
  Forall (fun x => (_id x < n)%nat) l ->
  Forall (fun x => (_id x < S n)%nat) l.
Proof.
  intros Hl. eapply Forall_impl; [exact Hl|]. intros x Hx. simpl in *. lia.
Qed.

Lemma db_step_consistent (w w' : World) :
  db_step w w' -> consistent w -> consistent w'.
Proof.
  intros Hstep ((Huniq & Hbelow) & Hjobs & Hfeedbacks).
  destruct Huniq as (Hj & Hf & Hu). destruct Hbelow as (Hbj & Hbf).
  unfold consistent, well_formed, unique_ids, ids_below.
  destruct Hstep as
    [Eu Ej Ef En
    |job Eu Ej Ef En Hid Hvalid
    |id old applied b Eu Ej Ef En Hfind Hok
    |id Eu Ej Ef En
    |f Eu Ej Ef En Hid Hvalid
    |id old s Eu Ej Ef En Hfind Hs
    |id Eu Ej Ef En
    |old Eu Ej Ef En];
    rewrite Eu, Ej, Ef, En.
  - done.
  - repeat split; try done.
    + by apply (NoDup_snoc_fresh Job._id _ _ (nextId w)).
    + apply Forall_app. split; [by apply Forall_below_S|].
      apply Forall_singleton. lia.
    + by apply Forall_below_S.
    + apply Forall_app. split; [done|].
      apply Forall_singleton. by apply Job_validate_invariant.
  - pose proof (find_by_id _ _ _ _ Hfind) as Hold.
    apply find_Some_elem in Hfind as [Hin _].
    repeat split; try done.
    + rewrite fmap_update_first; [done|].
      intros x Hx%by_id_true. simpl. congruence.
    + apply Forall_update_first; [|done].
      intros x Hx%by_id_true Hlt. simpl. congruence.
    + apply Forall_update_first; [|done].
      intros x _ _. apply Job_apply_invariant; [done|].
      rewrite Forall_forall in Hjobs. by apply Hjobs.
  - repeat split; try done.
    + by apply NoDup_fmap_delete_first.
    + by apply Forall_delete_first.
    + by apply Forall_delete_first.
  - repeat split; try done.
    + by apply (NoDup_snoc_fresh Feedback._id _ _ (nextId w)).
    + by apply Forall_below_S.
    + apply Forall_app. split; [by apply Forall_below_S|].
      apply Forall_singleton. lia.
    + apply Forall_app. split; [done|].
      apply Forall_singleton. by apply Feedback_validate_invariant.
  - pose proof (find_by_id _ _ _ _ Hfind) as Hold.
    apply find_Some_elem in Hfind as [Hin _].
    repeat split; try done.
    + rewrite fmap_update_first; [done|].
      intros x Hx%by_id_true. simpl. congruence.
    + apply Forall_update_first; [|done].
      intros x Hx%by_id_true Hlt. simpl. congruence.
    + apply Forall_update_first; [|done].
      intros x _ _. rewrite Forall_forall in Hfeedbacks.
      destruct (Hfeedbacks old Hin) as [Hr _]. by split.
  - repeat split; try done.
    + by apply NoDup_fmap_delete_first.
    + by apply Forall_delete_first.
    + by apply Forall_delete_first.
  - repeat split; try done.
    rewrite fmap_update_first; [done|].
    intros x Hx%by_id_true. simpl. congruence.
Qed.

(** Serving a request keeps the database consistent: ids stay unique and
    below [nextId], every job keeps a status of the enumeration, every
    feedback a rating between 1 and 5. *)
Lemma serve_consistent (rq : Request) (w : World) :
  consistent w -> consistent (serve rq w).1.
Proof. apply db_step_consistent, serve_db_step. Qed.

Lemma serve_all_consistent (rqs : list Request) (w : World) :
  consistent w -> consistent (serve_all rqs w).1.
Proof.
  revert w. induction rqs as [|rq rqs IH]; intros w Hw; simpl; [done|].
  pose proof (serve_consistent rq w Hw) as Hw1.
  destruct (serve rq w) as [w1 r]. simpl in Hw1.
  specialize (IH w1 Hw1). by destruct (serve_all rqs w1).
Qed.
End Preservation.

Lemma empty_consistent : consistent Sample.empty.
Proof.
  repeat split; simpl; constructor.
Qed.

(** Whatever requests a freshly installed system has served, its ids are
    unique: the assumption the properties of [PUT], [GET] and
    [DELETE /jobs/:id] above rest on. *)
Lemma reachable_unique_ids `{Platform} (rqs : list Request) :
  unique_ids (serve_all rqs Sample.empty).1.
Proof. apply serve_all_consistent, empty_consistent. Qed.

(** ** Two sessions *)

(** A job is created, moved to [interview], deleted, and asked for again. *)
Example job_lifecycle :
  let session :=
    serve_all (H := Sample.platform)
      [POST_job Sample.alice Sample.dated;
       PUT_job Sample.alice 1 Sample.promoted;
       DELETE_job Sample.alice 1;
       GET_job Sample.alice 1] Sample.empty in
  code <$> session.2 = [201; 200; 200; 404]%nat
  /\ (fun e => (room e, event_name (event e))) <$> emitted session.1
     = [(None, "job-created"); (None, "job-status-updated");
        (None, "job-deleted")]
  /\ jobs session.1 = [].
Proof. repeat split; reflexivity. Qed.

(** Anonymous feedback is published to the admin room and listed without
    its e-mail address. *)
Example feedback_session :
  let session :=
    serve_all (H := Sample.platform)
      [POST_feedback
         (Feedback.mkBody None (Some "Ann@Example.com") (Some " Great tool ")
            (Some 5) None None None);
       GET_feedback_public (FeedbackRouter.mkPublicQuery None None None)]
      Sample.empty in
  code <$> session.2 = [201; 200]%nat
  /\ (fun e => (room e, event_name (event e))) <$> emitted session.1
     = [(Some "admin-room", "new-feedback")]
  /\ Feedback.email <$> feedbacks session.1 = [Some "ann@example.com"]
  /\ (exists data,
        session.2 !! 1%nat
        = Some (ok 200 None (FeedbackPage 1 1 1 (Some 1) data))
        /\ Feedback.email <$> data = [None]
        /\ Feedback.feedback <$> data = ["Great tool"]).
Proof.
  repeat split; try reflexivity.
  eexists. split; [reflexivity|]. split; reflexivity.
Qed.

(** * Further properties of the routes *)

(** ** What every request does and does not do *)

Section Traffic.
Context `{Platform}.

(** X1.  The [GET] routes never write: the database, the counter of ids and
    the log of published events are as before. *)
Theorem X1_reads_do_not_write (rq : Request) (w : World) :
  is_read rq = true -> (serve rq w).1 = w.
Proof.
  destruct rq; try discriminate; intros _; simpl.
  - unfold JobsRouter.index. run. by branches.
  - unfold JobsRouter.show, Job_findOne. run. by branches.
  - unfold JobsRouter.stats_overview. by run.
  - unfold FeedbackRouter.public. run. by branches.
  - reflexivity.
  - reflexivity.
  - unfold AdminRouter.users. run. by branches.
  - unfold AdminRouter.jobs. run. by branches.
  - unfold AdminRouter.feedback. run. by branches.
Qed.

Ltac enveloped :=
  first
    [ by apply envelope_ok; auto
    | by apply envelope_not_found
    | by apply envelope_server_error
    | by apply envelope_bad_status
    | by apply envelope_invalid ].

(** Every answer of a handler has one of the shapes. *)
Lemma serve_envelope (rq : Request) (w : World) : envelope (serve rq w).2.

Proof.
  destruct rq; simpl.
  - unfold JobsRouter.index. run. branches; enveloped.
  - unfold JobsRouter.show, Job_findOne. run. branches; enveloped.
  - unfold JobsRouter.create, Validation.validateRequest.
    destruct (Validation.jobValidation body) as [b' [|e errors]];
      [|enveloped].
    unfold JobsRouter.create_handler, Job_create, Job_cast_appliedDate. run.
    branches; enveloped.
  - unfold JobsRouter.update, Validation.validateRequest.
    destruct (Validation.jobValidation body) as [b' [|e errors]];
      [|enveloped].
    unfold JobsRouter.update_handler, Job_findOne, Job_findByIdAndUpdate,
      Job_cast_appliedDate. run.
    branches; enveloped.
  - unfold JobsRouter.destroy, Job_findOne, Job_findByIdAndDelete. run.
    branches; enveloped.
  - unfold JobsRouter.stats_overview. run. enveloped.
  - unfold FeedbackRouter.create, Validation.validateRequest.
    destruct (Validation.feedbackValidation body) as [b' [|e errors]];
      [|enveloped].
    unfold FeedbackRouter.create_handler, Feedback_create. run.
    branches; enveloped.
  - unfold FeedbackRouter.public. run. branches; enveloped.
  - enveloped.
  - enveloped.
  - unfold AdminRouter.users. run. branches; enveloped.
  - unfold AdminRouter.jobs. run. branches; enveloped.
  - unfold AdminRouter.feedback. run. branches; enveloped.
  - unfold AdminRouter.feedback_status, AdminRouter.status_allowed,
      Feedback_findByIdAndUpdate_status, Feedback_status_ok,
      Feedback.statuses.
    destruct status as [s|]; [|enveloped].
    destruct (JS.includes ["pending"; "reviewed"; "resolved"] s) eqn:Hs;
      [|run; enveloped].
    run. rewrite ?Hs. simpl. branches; enveloped.
  - unfold AdminRouter.feedback_delete, Feedback_findById,
      Feedback_findByIdAndDelete. run.
    branches; enveloped.
  - unfold AdminRouter.toggle_status, User_findById, User_save. run.
    branches; enveloped.
Qed.

(** X2.  Every answer to a request, whether it comes from a guard or from
    a handler, is a [401] or a [403] with a message and no data, a success
    with status 200 or 201, a [400 Validation failed] with a non-empty list
    of errors, the [400 Invalid status] of the feedback moderation route, a
    [404] or a [500]; a [404] and a [500] carry one of the fixed messages
    of the routes and no data. *)
Theorem X2_envelope `{Guards} (a : Arrival) (w : World) :
  envelope (arrive a w).2.
Proof.
  destruct a as [c route|route|c route]; unfold arrive.
  - destruct (protect c w) as [message|me]; [apply envelope_unauthorized|].
    apply serve_envelope.
  - apply serve_envelope.
  - destruct (protect c w) as [message|me]; [apply envelope_unauthorized|].
    destruct (String.eqb (User.role me) "admin");
      [apply serve_envelope | apply envelope_forbidden].
Qed.
End Traffic.

(** Without a token [GET /jobs/stats/overview] answers [401]; Alice, an
    applicant, gets [403] from the admin dashboard and Root gets it; Alice
    is told that Bob's job does not exist. *)
Example guarded_session :
  let to_jobs := to_jobs (H := Sample.guards) in
  let to_admin := to_admin (H := Sample.guards) in
  let answer (a : Arrival) :=
    (arrive (H := Sample.platform) a Sample.world).2 in
  answer (to_jobs None jobs_stats) = fail 401 "Not authorized, no token"
  /\ code (answer (to_admin (Some 1%nat) admin_stats)) = 403%nat
  /\ code (answer (to_admin (Some 3%nat) admin_stats)) = 200%nat
  /\ answer (to_jobs (Some 1%nat) (jobs_show 13)) = fail 404 "Job not found".
Proof. repeat split; reflexivity. Qed.

Lemma X1_reads_do_not_write_witness :
  is_read (GET_jobs_stats Sample.alice) = true
  /\ (serve (H := Sample.platform) (GET_jobs_stats Sample.alice)
        Sample.world).1 = Sample.world.
Proof.
  split; [reflexivity|].
  apply (X1_reads_do_not_write (H := Sample.platform)). reflexivity.
Defined.

Section Events.
Context `{Platform}.

Ltac quiet :=
  exists []; simpl; rewrite app_nil_r;
  split; [reflexivity|]; split; [by left | by intros].

Ltac loud :=
  eexists [_]; simpl;
  split; [reflexivity|];
  split; [right; eexists; by repeat split | by intros].

(** X3.  A request publishes at most one event, after what was published
    before, and only when it succeeds: [job-created], [job-status-updated]
    and [job-deleted] to everybody, [new-feedback] to the admin room.  A
    successful [POST /jobs], [DELETE /jobs/:id] or [POST /feedback] has
    published its event. *)
Theorem X3_at_most_one_event (rq : Request) (w : World) :
  exists es,
    emitted (serve rq w).1 = emitted w ++ es
    /\ (es = []
        \/ exists e, es = [e]
             /\ event_of rq = Some (addressed e)
             /\ success (serve rq w).2 = true)
    /\ (announces rq = true -> success (serve rq w).2 = true -> es <> []).
Proof.
  destruct rq; simpl.
  - unfold JobsRouter.index. run. branches; quiet.
  - unfold JobsRouter.show, Job_findOne. run. branches; quiet.
  - unfold JobsRouter.create, Validation.validateRequest.
    destruct (Validation.jobValidation body) as [b' [|e errors]]; [|quiet].
    unfold JobsRouter.create_handler, Job_create, Job_cast_appliedDate. run.
    branches; first [quiet | loud].
  - unfold JobsRouter.update, Validation.validateRequest.
    destruct (Validation.jobValidation body) as [b' [|e errors]]; [|quiet].
    unfold JobsRouter.update_handler, Job_findOne, Job_findByIdAndUpdate,
      Job_cast_appliedDate. run.
    branches; first [quiet | loud].
  - unfold JobsRouter.destroy, Job_findOne, Job_findByIdAndDelete. run.
    branches; first [quiet | loud].
  - unfold JobsRouter.stats_overview. run. quiet.
  - unfold FeedbackRouter.create, Validation.validateRequest.
    destruct (Validation.feedbackValidation body) as [b' [|e errors]];
      [|quiet].
    unfold FeedbackRouter.create_handler, Feedback_create. run.
    branches; first [quiet | loud].
  - unfold FeedbackRouter.public. run. branches; quiet.
  - quiet.
  - quiet.
  - unfold AdminRouter.users. run. branches; quiet.
  - unfold AdminRouter.jobs. run. branches; quiet.
  - unfold AdminRouter.feedback. run. branches; quiet.
  - unfold AdminRouter.feedback_status, AdminRouter.status_allowed,
      Feedback_findByIdAndUpdate_status, Feedback_status_ok,
      Feedback.statuses.
    destruct status as [s|]; [|quiet].
    destruct (JS.includes ["pending"; "reviewed"; "resolved"] s) eqn:Hs;
      [|run; quiet].
    run. rewrite ?Hs. simpl. branches; quiet.
  - unfold AdminRouter.feedback_delete, Feedback_findById,
      Feedback_findByIdAndDelete. run.
    branches; quiet.
  - unfold AdminRouter.toggle_status, User_findById, User_save. run.
    branches; quiet.
Qed.
End Events.

(** ** What the validation chains accept *)

Lemma rule_nil (param msg : string) (passed : bool) :
  Validation.rule param msg passed = [] <-> passed = true.
Proof. destruct passed; simpl; split; done. Qed.

Lemma isLength_spec (lo hi : nat) (s : string) :
  Validation.isLength lo hi s = true
  <-> (lo <= String.length s <= hi)%nat.
Proof.
  unfold Validation.isLength.
  rewrite andb_true_iff, !Nat.leb_le. done.
Qed.

Lemma opt_ok_spec {A} (p : A -> bool) (o : option A) :
  opt_ok p o = true <-> forall a, o = Some a -> p a = true.
Proof.
  destruct o as [a|]; simpl; split; auto.
  - by intros Hp a' [= <-].
  - done.
Qed.

Section Acceptance.
Context `{Platform}.

Lemma jobValidation_accepts (b : Job.body) :
  (Validation.jobValidation b).2 = [] <-> Job_acceptable b.
Proof.
  unfold Validation.jobValidation, Job_acceptable. cbn [snd concat].
  rewrite !app_nil, !rule_nil, !isLength_spec, !opt_ok_spec.
  unfold Validation.toString.
  split.
  - intros (Hc & Hp & Hs & Hd & Hn & Hz & _).
    split; [done|]. split; [done|]. split; [|split; [|split]].
    + intros s Hst. by apply includes_elem_of, Hs.
    + destruct (Job.b_appliedDate b) as [d|]; simpl in Hd; [by exists d|].
      by rewrite isISO8601_empty in Hd.
    + intros n Hnotes. by apply (isLength_spec 0 500 n), Hn.
    + intros z Hsalary. apply Z.ltb_lt. by apply Hz.
  - intros (Hc & Hp & Hs & (d & Hd & Hiso) & Hn & Hz).
    split; [done|]. split; [done|].
    split; [|split; [|split; [|split; [|done]]]].
    + intros s Hst. by apply includes_elem_of, Hs.
    + by rewrite Hd.
    + intros n Hnotes. apply isLength_spec. split; [lia|]. by apply Hn.
    + intros z Hsalary. apply Z.ltb_lt. by apply Hz.
Qed.

Lemma feedbackValidation_accepts (b : Feedback.body) :
  (Validation.feedbackValidation b).2 = [] <-> Feedback_acceptable b.
Proof.
  unfold Validation.feedbackValidation, Feedback_acceptable.
  cbn [snd concat].
  rewrite !app_nil, !rule_nil, !isLength_spec, !opt_ok_spec.
  unfold Validation.toString, Validation.isInt, Validation.isNumeric.
  split.
  - intros (Hf & Hr & Hn & He & _).
    split; [done|]. split; [|split; [|done]].
    + destruct (Feedback.b_rating b) as [r|]; [|done]. exists r.
      split; [done|]. rewrite !andb_true_iff in Hr. lia.
    + intros n Hname.
      apply (isLength_spec 0 50 (JS.trim n)), Hn. by rewrite Hname.
  - intros (Hf & (r & Hr & Hlo & Hhi) & Hn & He).
    split; [done|]. split; [|split; [|done]].
    + rewrite Hr, !andb_true_iff, Z.ltb_lt, !Z.leb_le. lia.
    + intros n' Hname.
      destruct (Feedback.b_name b) as [n|]; [|done].
      injection Hname as <-. apply isLength_spec. split; [lia|].
      by apply Hn.
Qed.

(** X4.  [jobValidation] lets a body through exactly when, after trimming,
    [company] and [position] have 1 to 100 characters, [status] is absent or
    one of the five statuses, [appliedDate] is present and an ISO 8601 date,
    [notes] is absent or has at most 500 characters, and [salary] is absent
    or below [10 ^ 21] in absolute value, where JavaScript still prints it
    in digits.  Any other body gets [400 Validation failed] with all the
    errors from both [POST /jobs] and [PUT /jobs/:id], and nothing is read,
    written or published. *)
Theorem X4_job_body_accepted (me : User.t) (id : ObjectId) (b : Job.body)
    (w : World) :
  ((Validation.jobValidation b).2 = [] <-> Job_acceptable b)
  /\ (~ Job_acceptable b ->
      (Validation.jobValidation b).2 <> []
      /\ JobsRouter.create me b w
         = (w, mkResponse 400 false (Some "Validation failed")
                 (Errors (Validation.jobValidation b).2))
      /\ JobsRouter.update me id b w
         = (w, mkResponse 400 false (Some "Validation failed")
                 (Errors (Validation.jobValidation b).2))).
Proof.
  split; [apply jobValidation_accepts|].
  intros Hbad.
  assert (Herr : (Validation.jobValidation b).2 <> [])
    by (by rewrite jobValidation_accepts).
  split; [done|].
  unfold JobsRouter.create, JobsRouter.update, Validation.validateRequest.
  by destruct (Validation.jobValidation b) as [b' [|e errors]].
Qed.

(** X5.  [feedbackValidation] lets a body through exactly when the trimmed
    [feedback] has 1 to 1000 characters, [rating] is present and between 1
    and 5, the trimmed [name], if any, has at most 50 characters, and
    [email], if any, is an e-mail address.  With any other body, a rating of
    0 or 6 for one, [POST /feedback] answers [400 Validation failed] and
    nothing is stored or published. *)
Theorem X5_feedback_body_accepted (b : Feedback.body) (w : World) :
  ((Validation.feedbackValidation b).2 = [] <-> Feedback_acceptable b)
  /\ (~ Feedback_acceptable b ->
      (Validation.feedbackValidation b).2 <> []
      /\ FeedbackRouter.create b w
         = (w, mkResponse 400 false (Some "Validation failed")
                 (Errors (Validation.feedbackValidation b).2))).
Proof.
  split; [apply feedbackValidation_accepts|].
  intros Hbad.
  assert (Herr : (Validation.feedbackValidation b).2 <> [])
    by (by rewrite feedbackValidation_accepts).
  split; [done|].
  unfold FeedbackRouter.create, Validation.validateRequest.
  by destruct (Validation.feedbackValidation b) as [b' [|e errors]].
Qed.
End Acceptance.

(** ** Creating, reading and deleting a job *)

Section Lookups.
Context {A : Type}.
Implicit Types (p q : A -> bool) (l : list A).

Lemma find_snoc_fresh p l (x : A) :
  (forall y, y ∈ l -> p y = false) -> p x = true ->
  List.find p (l ++ [x]) = Some x.
Proof.
  intros Hl Hx. induction l as [|y l IH]; simpl.
  - by rewrite Hx.
  - rewrite (Hl y) by apply list_elem_of_here.
    apply IH. intros z Hz. apply Hl. by apply list_elem_of_further.
Qed.

Lemma find_snoc_other p l (x : A) :
  p x = false -> List.find p (l ++ [x]) = List.find p l.
Proof.
  intros Hx. induction l as [|y l IH]; simpl.
  - by rewrite Hx.
  - by destruct (p y).
Qed.

(** The first match of [p] is the first match of any stronger [q] it
    satisfies. *)
Lemma find_stronger p q l (x : A) :
  List.find p l = Some x -> (forall y, q y = true -> p y = true) ->
  q x = true -> List.find q l = Some x.
Proof.
  intros Hf Hqp Hx. induction l as [|y l IH]; simpl in *; [done|].
  destruct (p y) eqn:Hy.
  - injection Hf as ->. by rewrite Hx.
  - destruct (q y) eqn:Hqy; [|auto].
    apply Hqp in Hqy. congruence.
Qed.

Lemma update_first_same p l (x : A) :
  List.find p l = Some x -> update_first p (fun _ => x) l = l.
Proof.
  induction l as [|y l IH]; simpl; [done|].
  destruct (p y); [by intros [= ->]|]. intros Hf. by rewrite IH.
Qed.

Lemma find_delete_first_other p q l :
  (forall x, p x = true -> q x = false) ->
  List.find q (delete_first p l) = List.find q l.
Proof.
  intros Hpq. induction l as [|y l IH]; simpl; [done|].
  destruct (p y) eqn:Hy; simpl.
  - by rewrite (Hpq y Hy).
  - by rewrite IH.
Qed.

Lemma length_delete_first p l (x : A) :
  List.find p l = Some x -> S (length (delete_first p l)) = length l.
Proof.
  induction l as [|y l IH]; simpl; [done|].
  destruct (p y); simpl; [done|]. intros Hf. by rewrite IH.
Qed.
End Lookups.

(** With unique ids, the deleted document is no longer found. *)
Lemma find_delete_first_gone {A} (_id : A -> ObjectId) (id : ObjectId)
    (l : list A) :
  NoDup (_id <$> l) ->
  List.find (by_id _id id) (delete_first (by_id _id id) l) = None.
Proof.
  induction l as [|y l IH]; [done|].
  rewrite fmap_cons. intros [Hnotin Hnd]%NoDup_cons. cbn [delete_first].
  destruct (by_id _id id y) eqn:Hy.
  - apply by_id_true in Hy. apply find_None_all. intros x Hx.
    unfold by_id. apply Nat.eqb_neq. intros Hid. apply Hnotin.
    rewrite Hy, <- Hid. by apply list_elem_of_fmap_2.
  - simpl. rewrite Hy. auto.
Qed.

Section JobLifecycle.
Context `{Platform}.

(** The outcome of a successful [POST /jobs]. *)
Lemma create_success (me : User.t) (b : Job.body) (w w' : World)
    (r : Response) :
  JobsRouter.create me b w = (w', r) -> code r = 201%nat ->
  exists job,
    r = ok 201 (Some "Job application created successfully") (JobData job)
    /\ Job._id job = nextId w
    /\ Job.user job = User._id me
    /\ w' = set_emitted
              (emitted w
                 ++ [mkEmission None
                       (job_created (created_message job) job (User.name me))])
              (set_nextId (S (nextId w)) (set_jobs (jobs w ++ [job]) w)).
Proof.
  intros Hrun Hcode.
  unfold JobsRouter.create, Validation.validateRequest in Hrun.
  destruct (Validation.jobValidation b) as [b' [|e errors]];
    [|injection Hrun as <- <-; discriminate].
  unfold JobsRouter.create_handler, try_catch, bind in Hrun.
  destruct (Job_create (User._id me) b' w) as [w1 [e|job]] eqn:Hcreate;
    [injection Hrun as <- <-; discriminate|].
  destruct (Job_create_run _ _ _ _ _ Hcreate) as (applied & _ & Hjob & ->).
  unfold emit, ret in Hrun. simpl in Hrun.
  destruct (ioUp w); injection Hrun as <- <-; [|discriminate].
  exists job. split; [done|]. rewrite Hjob. done.
Qed.

(** X6.  When [POST /jobs] answers [201], the job it sends is stored as the
    last job, under a fresh id and with the caller as its owner; one
    [job-created] event carrying it was broadcast, and nothing else changed.
    A [GET /jobs/:id] by the caller for this id then answers [200] with the
    same job. *)
Theorem X6_created_job_is_stored (me : User.t) (b : Job.body) (w w' : World)
    (r : Response) :
  Forall (fun j => (Job._id j < nextId w)%nat) (jobs w) ->
  JobsRouter.create me b w = (w', r) ->
  code r = 201%nat ->
  exists job,
    sent_job r = Some job
    /\ Job._id job = nextId w
    /\ Job.user job = User._id me
    /\ jobs w' = jobs w ++ [job]
    /\ nextId w' = S (nextId w)
    /\ users w' = users w /\ feedbacks w' = feedbacks w
    /\ emitted w'
       = emitted w
         ++ [mkEmission None
               (job_created (created_message job) job (User.name me))]
    /\ JobsRouter.show me (Job._id job) w' = (w', ok 200 None (JobData job)).
Proof.
  intros Hbelow Hrun Hcode.
  destruct (create_success me b w w' r Hrun Hcode)
    as (job & -> & Hid & Hu & ->).
  exists job. repeat (split; [done|]).
  unfold JobsRouter.show, Job_findOne. run.
  rewrite find_snoc_fresh; [done| |].
  - intros y Hy. rewrite Forall_forall in Hbelow. specialize (Hbelow y Hy).
    unfold owned, by_id. rewrite Hid.
    replace (Job._id y =? nextId w)%nat with false; [done|].
    symmetry. apply Nat.eqb_neq. lia.
  - unfold owned, by_id. rewrite Hu, !Nat.eqb_refl. done.
Qed.

(** The outcome of a successful [DELETE /jobs/:id]. *)
Lemma destroy_success (me : User.t) (id : ObjectId) (w w' : World)
    (r : Response) :
  JobsRouter.destroy me id w = (w', r) -> code r = 200%nat ->
  exists job,
    List.find (owned id (User._id me)) (jobs w) = Some job
    /\ r = ok 200 (Some "Job application deleted successfully") NoData
    /\ w' = set_emitted
              (emitted w
                 ++ [mkEmission None
                       (job_deleted (deleted_message job) job (User.name me))])
              (set_jobs (delete_first (by_id Job._id id) (jobs w)) w).
Proof.
  unfold JobsRouter.destroy, Job_findOne, Job_findByIdAndDelete. run.
  destruct (List.find (owned id (User._id me)) (jobs w)) as [job|];
    [|by intros [= <- <-]].
  simpl. destruct (ioUp w); intros [= <- <-]; [|done].
  intros _. by exists job.
Qed.

(** X7.  When [DELETE /jobs/:id] answers [200], the job was the caller's;
    it is the one job removed, every other job is found as before, one
    [job-deleted] event carrying the removed job was broadcast, and a
    [GET /jobs/:id] for the id now answers [404], whoever asks. *)
Theorem X7_deleted_job_is_gone (me other : User.t) (id : ObjectId)
    (w w' : World) (r : Response) :
  NoDup (Job._id <$> jobs w) ->
  JobsRouter.destroy me id w = (w', r) ->
  code r = 200%nat ->
  exists job,
    List.find (by_id Job._id id) (jobs w) = Some job
    /\ Job.user job = User._id me
    /\ List.find (by_id Job._id id) (jobs w') = None
    /\ S (length (jobs w')) = length (jobs w)
    /\ (forall id', id' <> id ->
          List.find (by_id Job._id id') (jobs w')
          = List.find (by_id Job._id id') (jobs w))
    /\ users w' = users w /\ feedbacks w' = feedbacks w
    /\ emitted w'
       = emitted w
         ++ [mkEmission None
               (job_deleted (deleted_message job) job (User.name me))]
    /\ JobsRouter.show other id w' = (w', fail 404 "Job not found").
Proof.
  intros Hnd Hrun Hcode.
  destruct (destroy_success me id w w' r Hrun Hcode) as (job & Hone & -> & ->).
  destruct (findOne_findById _ _ _ _ Hnd Hone) as [Hid Hu].
  pose proof (find_delete_first_gone Job._id id (jobs w) Hnd) as Hgone.
  exists job. split; [done|]. split; [done|]. split; [done|].
  split; [by apply (length_delete_first _ _ job)|].
  split.
  { intros id' Hne. simpl. apply find_delete_first_other.
    intros x. by apply by_id_other. }
  do 3 (split; [done|]).
  apply show_not_found. simpl.
  apply find_None_all. intros x Hx.
  apply List.find_none with (x := x) in Hgone; [|by apply list_elem_of_In].
  unfold owned. by rewrite Hgone.
Qed.
End JobLifecycle.

Lemma X6_created_job_is_stored_witness :
  Forall (fun j => (Job._id j < nextId Sample.world)%nat) (jobs Sample.world)
  /\ code (JobsRouter.create (H := Sample.platform) Sample.alice Sample.dated
             Sample.world).2 = 201%nat
  /\ exists job,
       Job._id job = 100%nat
       /\ JobsRouter.show Sample.alice (Job._id job)
            (JobsRouter.create (H := Sample.platform) Sample.alice
               Sample.dated Sample.world).1
          = ((JobsRouter.create (H := Sample.platform) Sample.alice
                Sample.dated Sample.world).1,
             ok 200 None (JobData job)).
Proof.
  assert (Hbelow : Forall (fun j => (Job._id j < nextId Sample.world)%nat)
                     (jobs Sample.world))
    by (repeat constructor; simpl; lia).
  split; [exact Hbelow|]. split; [reflexivity|].
  destruct (X6_created_job_is_stored (H := Sample.platform) Sample.alice
              Sample.dated Sample.world _ _ Hbelow (surjective_pairing _)
              eq_refl)
    as (job & _ & Hid & _ & _ & _ & _ & _ & _ & Hshow).
  exists job. split; [exact Hid | exact Hshow].
Defined.

Lemma X7_deleted_job_is_gone_witness :
  NoDup (Job._id <$> jobs Sample.world)
  /\ code (JobsRouter.destroy Sample.alice 11 Sample.world).2 = 200%nat
  /\ List.find (by_id Job._id 11)
       (jobs (JobsRouter.destroy Sample.alice 11 Sample.world).1) = None
  /\ S (length (jobs (JobsRouter.destroy Sample.alice 11 Sample.world).1))
     = 4%nat.
Proof.
  assert (Hnd : NoDup (Job._id <$> jobs Sample.world))
    by apply sample_ids_unique.
  split; [exact Hnd|]. split; [reflexivity|].
  destruct (X7_deleted_job_is_gone Sample.alice Sample.bob 11 Sample.world
              _ _ Hnd (surjective_pairing _) eq_refl)
    as (job & _ & _ & Hgone & Hlen & _).
  split; [exact Hgone | exact Hlen].
Defined.

(** ** Updating a job, again *)

Section JobUpdateAgain.
Context `{Platform}.

Lemma Job_cast_appliedDate_run (v : option string) (w : World) :
  Job_cast_appliedDate v w
  = (w, match cast_applied v with
        | Some applied => inr applied
        | None => inl CastError
        end).
Proof.
  unfold Job_cast_appliedDate, cast_applied.
  destruct v as [s|]; [|done]. by destruct (castDate s).
Qed.

(** The handler of [PUT /jobs/:id] on a job of the caller, step by step. *)
Lemma update_handler_run (me : User.t) (id : ObjectId) (b : Job.body)
    (w : World) (old : Job.t) :
  List.find (owned id (User._id me)) (jobs w) = Some old ->
  List.find (by_id Job._id id) (jobs w) = Some old ->
  JobsRouter.update_handler me id b w
  = match cast_applied (Job.b_appliedDate b) with
    | None => (w, fail 500 "Server error while updating job")
    | Some applied =>
        if Job_update_ok b then
          let new := Job_apply (now w) applied b old in
          let w1 := set_jobs
                      (update_first (by_id Job._id id) (fun _ => new) (jobs w))
                      w in
          if String.eqb (Job.status old) (Job.status new)
          then (w1, ok 200 (Some "Job application updated successfully")
                      (JobData new))
          else if ioUp w
               then (set_emitted
                       (emitted w
                          ++ [mkEmission None
                                (job_status_updated
                                   (status_updated_message new) new
                                   (User.name me) (Job.status old)
                                   (Job.status new))]) w1,
                     ok 200 (Some "Job application updated successfully")
                       (JobData new))
               else (w1, fail 500 "Server error while updating job")
        else (w, fail 500 "Server error while updating job")
    end.
Proof.
  intros Hone Hid.
  unfold JobsRouter.update_handler, Job_findOne, Job_findByIdAndUpdate.
  unfold try_catch, bind, get, ret. cbv beta iota. rewrite Hone.
  cbv beta iota. rewrite Job_cast_appliedDate_run.
  destruct (cast_applied (Job.b_appliedDate b)) as [applied|]; [|done].
  cbv beta iota. unfold check.
  destruct (Job_update_ok b); [|done].
  unfold ret, modify. cbv beta iota. rewrite Hid. cbv beta iota zeta.
  simpl.
  destruct (String.eqb (Job.status old)
              (default (Job.status old) (Job.b_status b))); simpl; [done|].
  unfold emit. simpl. by destruct (ioUp w).
Qed.

(** Applying an update to its own result only moves the time stamp. *)
Lemma Job_apply_again (t t' : Date) (applied : option Date) (b : Job.body)
    (j : Job.t) :
  Job_apply t' applied b (Job_apply t applied b j)
  = Job_touch t' (Job_apply t applied b j).
Proof.
  unfold Job_apply, Job_touch. simpl.
  destruct (Job.b_company b), (Job.b_position b), (Job.b_status b), applied,
    (Job.b_notes b), (Job.b_salary b), (Job.b_location b), (Job.b_jobUrl b);
    reflexivity.
Qed.

(** A successful [PUT /jobs/:id], and the same request once more, at any
    later time and whatever the state of the socket. *)
Lemma update_twice (me : User.t) (id : ObjectId) (b : Job.body)
    (w w1 w2 : World) (r1 : Response) (old : Job.t) :
  List.find (owned id (User._id me)) (jobs w) = Some old ->
  List.find (by_id Job._id id) (jobs w) = Some old ->
  JobsRouter.update_handler me id b w = (w1, r1) ->
  code r1 = 200%nat ->
  jobs w2 = jobs w1 ->
  exists new,
    sent_job r1 = Some new
    /\ JobsRouter.update_handler me id b w2
       = (set_jobs
            (update_first (by_id Job._id id)
               (fun _ => Job_touch (now w2) new) (jobs w2)) w2,
          ok 200 (Some "Job application updated successfully")
            (JobData (Job_touch (now w2) new))).
Proof.
  intros Hone Hid Hrun Hcode Hjobs.
  pose proof (find_by_id _ _ _ _ Hid) as Hold.
  apply find_Some_elem in Hone as Hu. destruct Hu as [_ Hu].
  rewrite (update_handler_run me id b w old Hone Hid) in Hrun.
  destruct (cast_applied (Job.b_appliedDate b)) as [applied|] eqn:Hcast;
    [|injection Hrun as <- <-; discriminate].
  destruct (Job_update_ok b) eqn:Hok;
    [|injection Hrun as <- <-; discriminate].
  set (new := Job_apply (now w) applied b old) in *.
  assert (Hnew : List.find (by_id Job._id id)
                   (update_first (by_id Job._id id) (fun _ => new) (jobs w))
                 = Some new).
  { apply (find_update_first _ (fun _ => new) _ old); [done|].
    unfold by_id. simpl. by apply Nat.eqb_eq. }
  assert (Howned : List.find (owned id (User._id me))
                     (update_first (by_id Job._id id) (fun _ => new) (jobs w))
                   = Some new).
  { apply (find_stronger (by_id Job._id id)); [done| |].
    - unfold owned. by intros y [? _]%andb_prop.
    - exact Hu. }
  assert (Hagain :
            jobs w2 = update_first (by_id Job._id id) (fun _ => new) (jobs w) ->
            JobsRouter.update_handler me id b w2
            = (set_jobs
                 (update_first (by_id Job._id id)
                    (fun _ => Job_touch (now w2) new) (jobs w2)) w2,
               ok 200 (Some "Job application updated successfully")
                 (JobData (Job_touch (now w2) new)))).
  { intros Hw2.
    rewrite (update_handler_run me id b w2 new) by (by rewrite Hw2).
    rewrite Hcast, Hok. cbv zeta.
    assert (Hidem : Job_apply (now w2) applied b new
                    = Job_touch (now w2) new)
      by (unfold new; apply Job_apply_again).
    rewrite !Hidem. simpl. by rewrite String.eqb_refl. }
  cbv zeta in Hrun.
  destruct (String.eqb (Job.status old) (Job.status new)).
  - injection Hrun as <- <-. exists new. split; [done|].
    apply Hagain. by rewrite Hjobs.
  - destruct (ioUp w); injection Hrun as <- <-; [|discriminate].
    exists new. split; [done|]. apply Hagain. by rewrite Hjobs.
Qed.

(** X8.  When a [PUT /jobs/:id] has answered [200], the same request sent
    again, at any later time and even with the socket down, answers [200]
    with the same job, its [updatedAt] moved to the time of the second
    request; nothing else is written and no second [job-status-updated]
    event is published. *)
Theorem X8_update_twice (me : User.t) (id : ObjectId) (b : Job.body)
    (w w1 w2 : World) (r1 : Response) :
  NoDup (Job._id <$> jobs w) ->
  JobsRouter.update me id b w = (w1, r1) ->
  code r1 = 200%nat ->
  jobs w2 = jobs w1 ->
  exists new,
    sent_job r1 = Some new
    /\ JobsRouter.update me id b w2
       = (set_jobs
            (update_first (by_id Job._id id)
               (fun _ => Job_touch (now w2) new) (jobs w2)) w2,
          ok 200 (Some "Job application updated successfully")
            (JobData (Job_touch (now w2) new))).
Proof.
  intros Hnd Hrun Hcode Hjobs.
  unfold JobsRouter.update, Validation.validateRequest in *.
  destruct (Validation.jobValidation b) as [b' [|e errors]];
    [|injection Hrun as <- <-; discriminate].
  destruct (List.find (owned id (User._id me)) (jobs w)) as [old|] eqn:Hone.
  - destruct (findOne_findById _ _ _ _ Hnd Hone) as [Hid _].
    by apply (update_twice me id b' w w1 w2 r1 old).
  - rewrite (update_handler_not_found me id b' w Hone) in Hrun.
    injection Hrun as <- <-. discriminate.
Qed.
End JobUpdateAgain.

(** Alice moves job 10 to [interview]; the request is repeated later, with
    the socket down. *)
Lemma X8_update_twice_witness :
  NoDup (Job._id <$> jobs Sample.world)
  /\ code (JobsRouter.update (H := Sample.platform) Sample.alice 10
             Sample.promoted Sample.world).2 = 200%nat
  /\ exists new w2,
       JobsRouter.update (H := Sample.platform) Sample.alice 10
         Sample.promoted
         (mkWorld (users Sample.world)
            (jobs (JobsRouter.update (H := Sample.platform) Sample.alice 10
                     Sample.promoted Sample.world).1)
            (feedbacks Sample.world) 100 6000 false [])
       = (w2, ok 200 (Some "Job application updated successfully")
                (JobData (Job_touch 6000 new)))
       /\ emitted w2 = [].
Proof.
  assert (Hnd : NoDup (Job._id <$> jobs Sample.world))
    by apply sample_ids_unique.
  split; [exact Hnd|]. split; [reflexivity|].
  destruct (X8_update_twice (H := Sample.platform) Sample.alice 10
              Sample.promoted Sample.world _
              (mkWorld (users Sample.world)
                 (jobs (JobsRouter.update (H := Sample.platform) Sample.alice
                          10 Sample.promoted Sample.world).1)
                 (feedbacks Sample.world) 100 6000 false [])
              _ Hnd (surjective_pairing _) eq_refl eq_refl)
    as (new & _ & E).
  exists new. eexists. split; [exact E|]. reflexivity.
Defined.

(** ** Trimming *)

Lemma trimStart_idempotent (s : string) :
  JS.trimStart (JS.trimStart s) = JS.trimStart s.
Proof.
  induction s as [|c s IH]; simpl; [done|].
  destruct (JS.is_ws c) eqn:Hc; [done|]. simpl. by rewrite Hc.
Qed.

Lemma trimEnd_idempotent (s : string) :
  JS.trimEnd (JS.trimEnd s) = JS.trimEnd s.
Proof.
  induction s as [|c s IH]; simpl; [done|].
  destruct (JS.trimEnd s) as [|d t] eqn:Ht.
  - destruct (JS.is_ws c) eqn:Hc; simpl; [done|]. by rewrite Hc.
  - simpl in *. by rewrite IH.
Qed.

Lemma trimStart_clean (s : string) : starts_clean (JS.trimStart s).
Proof.
  induction s as [|c s IH]; simpl; [done|].
  destruct (JS.is_ws c) eqn:Hc; [done|]. simpl. done.
Qed.

Lemma trimStart_of_clean (s : string) :
  starts_clean s -> JS.trimStart s = s.
Proof. destruct s as [|c s]; simpl; [done|]. by intros ->. Qed.

Lemma trimEnd_clean (s : string) :
  starts_clean s -> starts_clean (JS.trimEnd s).
Proof.
  destruct s as [|c s]; simpl; [done|]. intros Hc.
  destruct (JS.trimEnd s); [by rewrite Hc|done].
Qed.

(** [trim] is idempotent: a trimmed string is trimmed to itself. *)
Lemma trim_idempotent (s : string) : JS.trim (JS.trim s) = JS.trim s.
Proof.
  unfold JS.trim.
  rewrite (trimStart_of_clean (JS.trimEnd (JS.trimStart s)))
    by apply trimEnd_clean, trimStart_clean.
  apply trimEnd_idempotent.
Qed.

(** ** [PUT /jobs/:id] replaces, it does not patch *)

Section JobReplace.
Context `{Platform}.

Lemma jobValidation_sanitized (b : Job.body) :
  (Validation.jobValidation b).1
  = Job.mkBody (Some (JS.trim (default "" (Job.b_company b))))
      (Some (JS.trim (default "" (Job.b_position b)))) (Job.b_status b)
      (Job.b_appliedDate b) (Job.b_notes b) (Job.b_salary b)
      (Job.b_location b) (Job.b_jobUrl b).
Proof. reflexivity. Qed.

Lemma acceptable_complete (b : Job.body) :
  Job_acceptable b ->
  exists c p d,
    Job.b_company b = Some c /\ Job.b_position b = Some p
    /\ Job.b_appliedDate b = Some d.
Proof.
  intros (Hc & Hp & _ & (d & Hd & _) & _).
  destruct (Job.b_company b) as [c|]; [|simpl in Hc; lia].
  destruct (Job.b_position b) as [p|]; [|simpl in Hp; lia].
  by exists c, p, d.
Qed.

(** X9.  [PUT /jobs/:id] shares the validation of [POST /jobs]: a body
    without [company], [position] or [appliedDate], such as a lone
    [{ status }], gets [400 Validation failed].  When the answer is [200],
    the stored job has the trimmed [company] and [position] and the date of
    the body, keeps its [_id] and [createdAt], and has [updatedAt] set to
    the time of the request; the number of jobs, every other job, the
    feedback and the users are as before. *)
Theorem X9_update_replaces (me : User.t) (id : ObjectId) (b : Job.body)
    (w : World) :
  (Job.b_company b = None \/ Job.b_position b = None
   \/ Job.b_appliedDate b = None ->
   (Validation.jobValidation b).2 <> []
   /\ JobsRouter.update me id b w
      = (w, mkResponse 400 false (Some "Validation failed")
              (Errors (Validation.jobValidation b).2)))
  /\ (forall w' r,
        NoDup (Job._id <$> jobs w) ->
        JobsRouter.update me id b w = (w', r) -> code r = 200%nat ->
        exists old new c p d,
          List.find (by_id Job._id id) (jobs w) = Some old
          /\ sent_job r = Some new
          /\ List.find (by_id Job._id id) (jobs w') = Some new
          /\ Job.b_company b = Some c /\ Job.company new = JS.trim c
          /\ Job.b_position b = Some p /\ Job.position new = JS.trim p
          /\ Job.b_appliedDate b = Some d
          /\ castDate d = Some (Job.appliedDate new)
          /\ Job._id new = id
          /\ Job.createdAt new = Job.createdAt old
          /\ Job.updatedAt new = now w
          /\ length (jobs w') = length (jobs w)
          /\ (forall id', id' <> id ->
                List.find (by_id Job._id id') (jobs w')
                = List.find (by_id Job._id id') (jobs w))
          /\ users w' = users w /\ feedbacks w' = feedbacks w
          /\ nextId w' = nextId w).
Proof.
  split.
  - intros Hmissing.
    assert (Hbad : ~ Job_acceptable b).
    { intros (c & p & d & Hc & Hp & Hd)%acceptable_complete.
      destruct Hmissing as [?|[?|?]]; congruence. }
    assert (Herr : (Validation.jobValidation b).2 <> [])
      by (by rewrite jobValidation_accepts).
    split; [done|].
    unfold JobsRouter.update, Validation.validateRequest.
    by destruct (Validation.jobValidation b) as [b' [|e errors]].
  - intros w' r Hnd Hrun Hcode.
    unfold JobsRouter.update, Validation.validateRequest in Hrun.
    pose proof (jobValidation_sanitized b) as Hsan.
    pose proof (jobValidation_accepts b) as Hacc.
    destruct (Validation.jobValidation b) as [b' errors].
    simpl in Hsan, Hacc.
    destruct errors as [|e errors];
      [|injection Hrun as <- <-; discriminate].
    destruct (acceptable_complete b (proj1 Hacc eq_refl))
      as (c & p & d & Hc & Hp & Hd).
    destruct (List.find (owned id (User._id me)) (jobs w)) as [old|] eqn:Hone.
    2: { rewrite (update_handler_not_found me id b' w Hone) in Hrun.
         injection Hrun as <- <-. discriminate. }
    destruct (findOne_findById _ _ _ _ Hnd Hone) as [Hid _].
    pose proof (find_by_id _ _ _ _ Hid) as Hold.
    rewrite (update_handler_run me id b' w old Hone Hid) in Hrun.
    assert (Hdate : Job.b_appliedDate b' = Some d) by (by rewrite Hsan).
    rewrite Hdate in Hrun. unfold cast_applied in Hrun.
    destruct (castDate d) as [a|] eqn:Hcast; cbn [fmap option_fmap option_map]
      in Hrun; [|injection Hrun as <- <-; discriminate].
    destruct (Job_update_ok b');
      [|injection Hrun as <- <-; discriminate].
    set (new := Job_apply (now w) (Some a) b' old) in *.
    assert (Hw' : jobs w'
                  = update_first (by_id Job._id id) (fun _ => new) (jobs w)
                  /\ users w' = users w /\ feedbacks w' = feedbacks w
                  /\ nextId w' = nextId w /\ sent_job r = Some new).
    { cbv zeta in Hrun.
      destruct (String.eqb (Job.status old) (Job.status new)).
      - by injection Hrun as <- <-.
      - destruct (ioUp w); injection Hrun as <- <-; [done|discriminate]. }
    destruct Hw' as (Hjobs & Hus & Hfs & Hn & Hsent).
    exists old, new, c, p, d.
    split; [done|]. split; [done|]. split.
    { rewrite Hjobs.
      apply (find_update_first _ (fun _ => new) _ old); [done|].
      unfold by_id. simpl. by apply Nat.eqb_eq. }
    split; [done|]. split.
    { unfold new. rewrite Hsan, Hc. simpl. apply trim_idempotent. }
    split; [done|]. split.
    { unfold new. rewrite Hsan, Hp. simpl. apply trim_idempotent. }
    split; [done|]. split; [done|]. split; [done|].
    split; [done|]. split; [done|]. split.
    { rewrite Hjobs. apply length_update_first. }
    split; [|done].
    intros id' Hne. rewrite Hjobs. apply find_update_first_other.
    + intros x. by apply by_id_other.
    + intros x _. apply (by_id_other _ id); [done|].
      unfold by_id. simpl. by apply Nat.eqb_eq.
Qed.
End JobReplace.

(** [PUT /api/jobs/10] with [{ status: 'interview' }] alone. *)
Lemma X9_update_replaces_witness :
  Job.b_company
    (Job.mkBody None None (Some "interview") None None None None None) = None
  /\ code (JobsRouter.update (H := Sample.platform) Sample.alice 10
             (Job.mkBody None None (Some "interview") None None None None
                None) Sample.world).2 = 400%nat.
Proof.
  split; [reflexivity|].
  destruct (X9_update_replaces (H := Sample.platform) Sample.alice 10
              (Job.mkBody None None (Some "interview") None None None None
                 None) Sample.world) as [Hmissing _].
  destruct (Hmissing (or_introl eq_refl)) as [_ E].
  rewrite E. reflexivity.
Defined.

(** ** What a list holds, and in which order *)

Section SortFacts.
Context {A : Type} (le : A -> A -> bool) (R : relation A).
Hypothesis le_R : forall x y, le x y = true <-> R x y.
Hypothesis R_total : forall x y, R x y \/ R y x.
Hypothesis R_trans : forall x y z, R x y -> R y z -> R x z.

Lemma insert_by_sorted (x : A) (l : list A) :
  StronglySorted R l -> StronglySorted R (insert_by le x l).
Proof.
  induction 1 as [|y l Hl IH Hy]; simpl.
  - repeat constructor.
  - destruct (le x y) eqn:Hxy.
    + apply le_R in Hxy. constructor; [by constructor|].
      constructor; [done|].
      eapply Forall_impl; [exact Hy|]. intros z Hz. by apply (R_trans x y z).
    + constructor; [done|].
      rewrite insert_by_perm. constructor; [|done].
      destruct (R_total x y) as [Hxy'|Hyx]; [|done].
      apply le_R in Hxy'. congruence.
Qed.

Lemma sort_by_sorted (l : list A) : StronglySorted R (sort_by le l).
Proof.
  unfold sort_by. induction l as [|x l IH]; simpl; [constructor|].
  by apply insert_by_sorted.
Qed.
End SortFacts.

Lemma limit_skip_subseteq {A} (L S : Z) (l page : list A) :
  limit_skip L S l = inr page -> page ⊆ l.
Proof.
  unfold limit_skip. destruct (S <? 0); [done|]. intros [= <-].
  destruct (L =? 0).
  - apply subseteq_drop.
  - etrans; [apply subseteq_take | apply subseteq_drop].
Qed.

Lemma limit_skip_sorted {A} (R : relation A) (L S : Z) (l page : list A) :
  limit_skip L S l = inr page -> StronglySorted R l -> StronglySorted R page.
Proof.
  unfold limit_skip. destruct (S <? 0); [done|]. intros [= <-] Hl.
  assert (Hd : StronglySorted R (drop (Z.to_nat S) l)).
  { rewrite <- (take_drop (Z.to_nat S) l) in Hl.
    by apply StronglySorted_app_1_r in Hl. }
  destruct (L =? 0); [done|].
  rewrite <- (take_drop (Z.to_nat (Z.abs L)) (drop (Z.to_nat S) l)) in Hd.
  by apply StronglySorted_app_1_l in Hd.
Qed.

Lemma newest_job_first_sorted (l : list Job.t) :
  StronglySorted job_newer
    (sort_by (sort_leb (Job_field "createdAt") (-1)) l).
Proof.
  apply sort_by_sorted; unfold job_newer.
  - intros x y. unfold sort_leb, Job_field. simpl. apply Z.leb_le.
  - intros x y. lia.
  - intros x y z. lia.
Qed.

Lemma oldest_job_first_sorted (l : list Job.t) :
  StronglySorted job_older
    (sort_by (sort_leb (Job_field "createdAt") 1) l).
Proof.
  apply sort_by_sorted; unfold job_older.
  - intros x y. unfold sort_leb, Job_field. simpl. apply Z.leb_le.
  - intros x y. lia.
  - intros x y z. lia.
Qed.

Lemma newest_feedback_first_sorted (l : list Feedback.t) :
  StronglySorted feedback_newer (sort_by FeedbackRouter.newest_first l).
Proof.
  apply sort_by_sorted; unfold feedback_newer.
  - intros x y. unfold FeedbackRouter.newest_first, sort_leb. simpl.
    apply Z.leb_le.
  - intros x y. lia.
  - intros x y z. lia.
Qed.

Section Lists.
Context `{Platform}.

Lemma index_data (me : User.t) (rq : JobsRouter.ListQuery) (w : World)
    (data : list Job.t) :
  sent_jobs (JobsRouter.index me rq w).2 = Some data ->
  exists L S,
    limit_skip L S
      (sort_by
         (sort_leb (Job_field (default "createdAt" (JobsRouter.sortBy rq)))
            (if String.eqb (default "desc" (JobsRouter.order rq)) "desc"
             then -1 else 1))
         (Job_find (JobsRouter.list_filter me (JobsRouter.status rq)) w))
    = inr data.
Proof.
  unfold JobsRouter.index. run.
  destruct (sortKey _); simpl; [|done].
  destruct (limit_skip _ _ _) as [e|page] eqn:Hpage; simpl; [done|].
  unfold sent_jobs. simpl. intros [= ->]. by do 2 eexists.
Qed.

(** X10.  The jobs [GET /jobs] sends are jobs of the caller, taken from the
    database; under a [status] filter other than [''] and ['all'] they all
    have that status. *)
Theorem X10_index_is_scoped (me : User.t) (rq : JobsRouter.ListQuery)
    (w : World) (data : list Job.t) (j : Job.t) :
  sent_jobs (JobsRouter.index me rq w).2 = Some data ->
  j ∈ data ->
  j ∈ jobs w
  /\ Job.user j = User._id me
  /\ (no_status_filter (JobsRouter.status rq) = false ->
      JobsRouter.status rq = Some (Job.status j)).
Proof.
  intros (L & S & Hdata)%index_data Hj.
  apply limit_skip_subseteq in Hdata. apply Hdata in Hj.
  rewrite sort_by_perm in Hj. unfold Job_find in Hj.
  apply list_elem_of_In, List.filter_In in Hj as [Hin Hm].
  apply list_elem_of_In in Hin. split; [done|].
  unfold Job_matches, JobsRouter.list_filter in Hm. simpl in Hm.
  apply andb_prop in Hm as [[Hu Hs]%andb_prop _].
  split; [by apply Nat.eqb_eq|].
  intros Hon. destruct (status_filter_on _ Hon) as (s & Hst & Hq).
  rewrite Hq in Hs. simpl in Hs. apply String.eqb_eq in Hs. congruence.
Qed.

(** X11.  [GET /jobs] sorted on [createdAt], which is the default, sends the
    newest job first when [order] is absent or ['desc'], and the oldest
    first for any other value of [order]. *)
Theorem X11_index_order (me : User.t) (rq : JobsRouter.ListQuery)
    (w : World) (data : list Job.t) :
  sent_jobs (JobsRouter.index me rq w).2 = Some data ->
  default "createdAt" (JobsRouter.sortBy rq) = "createdAt" ->
  (default "desc" (JobsRouter.order rq) = "desc" ->
   StronglySorted job_newer data)
  /\ (default "desc" (JobsRouter.order rq) <> "desc" ->
      StronglySorted job_older data).
Proof.
  intros (L & S & Hdata)%index_data Hsort. rewrite Hsort in Hdata. split.
  - intros Hdesc. rewrite Hdesc in Hdata. simpl in Hdata.
    eapply limit_skip_sorted; [exact Hdata|].
    apply newest_job_first_sorted.
  - intros Hasc%String.eqb_neq. rewrite Hasc in Hdata.
    eapply limit_skip_sorted; [exact Hdata|].
    apply oldest_job_first_sorted.
Qed.

Lemma public_data (rq : FeedbackRouter.PublicQuery) (w : World)
    (data : list Feedback.t) :
  sent_feedbacks (FeedbackRouter.public rq w).2 = Some data ->
  exists page L S,
    data = FeedbackRouter.without_email <$> page
    /\ limit_skip L S
         (sort_by FeedbackRouter.newest_first
            (Feedback_find
               (mkFeedbackQuery (Some true) (FeedbackRouter.rating rq) None)
               w))
       = inr page.
Proof.
  unfold FeedbackRouter.public. run.
  destruct (limit_skip _ _ _) as [e|page] eqn:Hpage; simpl; [done|].
  unfold sent_feedbacks. simpl. intros [= <-]. by exists page; do 2 eexists.
Qed.

(** X12.  What [GET /feedback/public] sends is public feedback from the
    database with the e-mail address taken out, newest first; under a
    [rating] filter every one has that rating. *)
Theorem X12_public_feedback (rq : FeedbackRouter.PublicQuery) (w : World)
    (data : list Feedback.t) :
  sent_feedbacks (FeedbackRouter.public rq w).2 = Some data ->
  StronglySorted feedback_newer data
  /\ forall f, f ∈ data ->
       Feedback.email f = None
       /\ Feedback.isPublic f = true
       /\ (forall r, FeedbackRouter.rating rq = Some r -> Feedback.rating f = r)
       /\ exists stored,
            stored ∈ feedbacks w
            /\ f = FeedbackRouter.without_email stored.
Proof.
  intros (page & L & S & -> & Hpage)%public_data. split.
  - apply (StronglySorted_fmap _ feedback_newer feedback_newer).
    + by intros x y.
    + eapply limit_skip_sorted; [exact Hpage|].
      apply newest_feedback_first_sorted.
  - intros f (stored & -> & Hin)%list_elem_of_fmap.
    apply limit_skip_subseteq in Hpage. apply Hpage in Hin.
    rewrite sort_by_perm in Hin. unfold Feedback_find in Hin.
    apply list_elem_of_In, List.filter_In in Hin as [Hin Hm].
    apply list_elem_of_In in Hin.
    unfold Feedback_matches in Hm. simpl in Hm.
    apply andb_prop in Hm as [[Hp Hr]%andb_prop _].
    split; [done|]. split; [by apply Bool.eqb_prop in Hp|].
    split; [|by exists stored].
    intros r Hrq. rewrite Hrq in Hr. simpl in *. by apply Z.eqb_eq.
Qed.
End Lists.

(** ** Counts add up *)

Section CountFacts.
Context {K : Type} `{EqDecision K}.
Implicit Types (k : K) (keys : list K) (rows : list (Row K)).

Lemma counted_bump k rows : counted (bump k rows) = S (counted rows).
Proof.
  unfold counted. induction rows as [|[k0 n0] rows IH]; [done|].
  cbn [bump]. destruct (decide (k = k0)); csimpl; [done|].
  rewrite IH. lia.
Qed.

(** The counts of the groups add up to the number of documents. *)
Lemma counted_group_count keys : counted (group_count keys) = length keys.
Proof.
  induction keys as [|k keys IH] using rev_ind; [done|].
  rewrite group_count_snoc, counted_bump, IH, length_app. simpl. lia.
Qed.

Lemma occurrences_cons k k' keys :
  occurrences k' (k :: keys)
  = ((if decide (k = k') then 1 else 0) + occurrences k' keys)%nat.
Proof.
  unfold occurrences. simpl.
  case_bool_decide; case_decide; simpl; congruence.
Qed.

Lemma indicator_total k (enum : list K) :
  NoDup enum -> k ∈ enum ->
  sum_list ((fun s => if decide (k = s) then 1%nat else 0%nat) <$> enum)
  = 1%nat.
Proof.
  induction enum as [|s enum IH]; [by intros _ ?%elem_of_nil|].
  intros [Hnotin Hnd]%NoDup_cons Hin. csimpl.
  destruct (decide (k = s)) as [->|Hne].
  - f_equal. clear IH Hin.
    induction enum as [|s' enum IH]; [done|]. csimpl.
    apply not_elem_of_cons in Hnotin as [Hne Hnotin].
    rewrite decide_False by done. apply NoDup_cons in Hnd as [_ Hnd]. auto.
  - apply elem_of_cons in Hin as [?|Hin]; [done|]. auto.
Qed.

(** Over an enumeration that holds every key, the occurrences add up to the
    number of keys. *)
Lemma occurrences_total (enum keys : list K) :
  NoDup enum -> (forall k, k ∈ keys -> k ∈ enum) ->
  sum_list ((fun s => occurrences s keys) <$> enum) = length keys.
Proof.
  intros Hnd. induction keys as [|k keys IH]; intros Hin.
  - clear. induction enum as [|s enum IHe]; [done|]. csimpl.
    rewrite IHe. reflexivity.
  - assert (Hone := indicator_total k enum Hnd
                      (Hin k (proj2 (elem_of_cons _ _ _) (or_introl eq_refl)))).
    assert (Hrest := IH (fun k' Hk' =>
                           Hin k' (proj2 (elem_of_cons _ _ _)
                                     (or_intror Hk')))).
    cbn [length]. rewrite <- Hrest.
    enough (sum_list ((fun s => occurrences s (k :: keys)) <$> enum)
            = (sum_list ((fun s => if decide (k = s) then 1 else 0) <$> enum)
               + sum_list ((fun s => occurrences s keys) <$> enum))%nat) by lia.
    clear. induction enum as [|s enum IHe]; [done|]. csimpl.
    rewrite occurrences_cons, IHe. lia.
Qed.
End CountFacts.

Lemma sorted_rows_descending (rows : list (Row Z)) :
  StronglySorted row_above
    (sort_by (fun x y => sort_leb (fun r : Row Z => BNum r.1) (-1) x y) rows).
Proof.
  apply sort_by_sorted; unfold row_above.
  - intros x y. unfold sort_leb. simpl. apply Z.leb_le.
  - intros x y. lia.
  - intros x y z. lia.
Qed.

Lemma limit_skip_5 {A} (l : list A) : limit_skip 5 0 l = inr (take 5 l).
Proof. reflexivity. Qed.

Lemma length_take_5 {A} (l : list A) :
  length (take 5 l) = Nat.min 5 (length l).
Proof. apply length_take. Qed.

(** The head of a sorted list is above its tail. *)
Lemma take_sorted_top {A} (R : relation A) (n : nat) (l : list A) :
  StronglySorted R l ->
  forall x y, x ∈ take n l -> y ∈ drop n l -> R x y.
Proof.
  intros Hl. revert n.
  induction Hl as [|z l Hl IH Hz]; intros n x y Hx Hy.
  - rewrite take_nil in Hx. by apply elem_of_nil in Hx.
  - destruct n as [|n]; [by apply elem_of_nil in Hx|]. simpl in Hx, Hy.
    apply elem_of_cons in Hx as [->|Hx].
    + rewrite Forall_forall in Hz. apply Hz.
      eapply subseteq_drop, Hy.
    + by apply (IH n).
Qed.

Lemma freshest_job_first_sorted (l : list Job.t) :
  StronglySorted job_fresher
    (sort_by (sort_leb (Job_field "updatedAt") (-1)) l).
Proof.
  apply sort_by_sorted; unfold job_fresher.
  - intros x y. unfold sort_leb, Job_field. simpl. apply Z.leb_le.
  - intros x y. lia.
  - intros x y z. lia.
Qed.

Lemma newest_user_first_sorted (l : list User.t) :
  StronglySorted user_newer (sort_by AdminRouter.newest_user_first l).
Proof.
  apply sort_by_sorted; unfold user_newer.
  - intros x y. unfold AdminRouter.newest_user_first, sort_leb. simpl.
    apply Z.leb_le.
  - intros x y. lia.
  - intros x y z. lia.
Qed.

Lemma length_filter_stronger {A} (p q : A -> bool) (l : list A) :
  (forall x, p x = true -> q x = true) ->
  (length (List.filter p l) <= length (List.filter q l))%nat.
Proof.
  intros Hpq. induction l as [|x l IH]; simpl; [lia|].
  destruct (p x) eqn:Hp.
  - rewrite (Hpq x Hp). simpl. lia.
  - destruct (q x); simpl; lia.
Qed.

Section Statistics.
Context `{Platform}.

Lemma mine_spec (me : User.t) (w : World) (j : Job.t) :
  j ∈ Job_find (mkJobQuery (Some (User._id me)) None None) w
  <-> j ∈ jobs w /\ Job.user j = User._id me.
Proof.
  unfold Job_find. rewrite list_elem_of_In, List.filter_In.
  rewrite <- list_elem_of_In. unfold Job_matches. simpl.
  rewrite !andb_true_r, Nat.eqb_eq. reflexivity.
Qed.

(** X13.  [GET /jobs/stats/overview], once every stored job has a status of
    the schema's enum: the five counts of [statusStats] add up to
    [totalJobs], the number of the caller's jobs; [recentJobs] holds
    [min 5 totalJobs] of the caller's jobs, most recently updated first,
    and no job of the caller's left out was updated later than one in
    it. *)
Theorem X13_job_stats_add_up (me : User.t) (w : World) :
  Forall (fun j => Job.status j ∈ Job.statuses) (jobs w) ->
  exists totalJobs statusStats recentJobs,
    JobsRouter.stats_overview me w
    = (w, ok 200 None (JobStats totalJobs statusStats recentJobs))
    /\ histogram_total Job.statuses statusStats = totalJobs
    /\ totalJobs
       = length (List.filter (fun j => (Job.user j =? User._id me)%nat)
                   (jobs w))
    /\ length recentJobs = Nat.min 5 totalJobs
    /\ StronglySorted job_fresher recentJobs
    /\ (forall j, j ∈ recentJobs -> j ∈ jobs w /\ Job.user j = User._id me)
    /\ (forall j r,
          j ∈ jobs w -> Job.user j = User._id me -> j ∉ recentJobs ->
          r ∈ recentJobs -> job_fresher r j).
Proof.
  intros Hw.
  set (mine := Job_find (mkJobQuery (Some (User._id me)) None None) w).
  set (sorted := sort_by (sort_leb (Job_field "updatedAt") (-1)) mine).
  assert (Hperm : sorted ≡ₚ mine) by apply sort_by_perm.
  assert (Hsorted : StronglySorted job_fresher sorted)
    by apply freshest_job_first_sorted.
  exists (length mine), (JobsRouter.statusStats_of
                           (group_count (Job.status <$> mine))),
    (take 5 sorted).
  split; [reflexivity|]. split; [|split; [|split; [|split; [|split]]]].
  - unfold histogram_total.
    rewrite <- (length_fmap Job.status mine).
    rewrite <- (occurrences_total Job.statuses (Job.status <$> mine)).
    + f_equal. apply Forall_fmap_ext, Forall_forall. intros s Hs.
      by rewrite statusStats_lookup.
    + unfold Job.statuses. apply (bool_decide_unpack _). by vm_compute.
    + intros s (j & -> & Hj)%list_elem_of_fmap.
      apply mine_spec in Hj as [Hj _].
      rewrite Forall_forall in Hw. by apply Hw.
  - unfold mine, Job_find. f_equal. apply List.filter_ext. intros j.
    unfold Job_matches. simpl. by rewrite !andb_true_r.
  - rewrite length_take_5. f_equal. unfold sorted. apply sort_by_length.
  - rewrite <- (take_drop 5 sorted) in Hsorted.
    by apply StronglySorted_app_1_l in Hsorted.
  - intros j Hj. apply mine_spec. change (j ∈ mine). rewrite <- Hperm.
    eapply subseteq_take, Hj.
  - intros j r Hj Hme Hout Hr.
    apply (take_sorted_top job_fresher 5 sorted Hsorted); [done|].
    assert (Hin : j ∈ sorted) by (rewrite Hperm; by apply mine_spec).
    rewrite <- (take_drop 5 sorted) in Hin.
    apply elem_of_app in Hin as [Hin|Hin]; [done|done].
Qed.

Lemma rating_in_range (r : Z) : 1 <= r <= 5 <-> r ∈ ratings.
Proof.
  unfold ratings. split.
  - intros Hr.
    assert (Hcases : r = 1 \/ r = 2 \/ r = 3 \/ r = 4 \/ r = 5) by lia.
    destruct Hcases as [-> | [-> | [-> | [-> | ->]]]];
      apply (bool_decide_unpack _); by vm_compute.
  - intros Hr. repeat (apply elem_of_cons in Hr as [->|Hr]; [lia|]).
    by apply elem_of_nil in Hr.
Qed.

Lemma foldr_add_bounds (rs : list Z) :
  Forall (fun r => 1 <= r <= 5) rs ->
  Z.of_nat (length rs) <= foldr Z.add 0 rs <= 5 * Z.of_nat (length rs).
Proof.
  induction 1 as [|r rs Hr _ IH]; simpl length; simpl foldr; lia.
Qed.

(** The mean of ratings between 1 and 5 lies between 1 and 5. *)
Lemma mean_bounds (rs : list Z) :
  rs <> [] -> Forall (fun r => 1 <= r <= 5) rs ->
  (1 <= mean rs /\ mean rs <= 5)%Q.
Proof.
  intros Hne Hrs. apply foldr_add_bounds in Hrs.
  assert (Hlen : (0 < inject_Z (Z.of_nat (length rs)))%Q).
  { change 0%Q with (inject_Z 0). rewrite <- Zlt_Qlt.
    destruct rs; [done|]. simpl length. lia. }
  unfold mean. split.
  - apply Qle_shift_div_l; [done|]. rewrite Qmult_1_l.
    rewrite <- Zle_Qle. lia.
  - apply Qle_shift_div_r; [done|].
    change 5%Q with (inject_Z 5). rewrite <- inject_Z_mult, <- Zle_Qle. lia.
Qed.

(** X14.  [GET /feedback/stats], once every stored rating lies between 1
    and 5: the five counts of [ratingDistribution] add up to
    [totalFeedbacks], the size of the collection, and the average of a
    collection that is not empty lies between 1 and 5. *)
Theorem X14_feedback_stats_add_up (w : World) :
  Forall (fun f => 1 <= Feedback.rating f <= 5) (feedbacks w) ->
  exists totalFeedbacks averageRating ratingDistribution,
    FeedbackRouter.stats w
    = (w, ok 200 None
            (FeedbackStats totalFeedbacks averageRating ratingDistribution))
    /\ totalFeedbacks = length (feedbacks w)
    /\ histogram_total ratings ratingDistribution = totalFeedbacks
    /\ (feedbacks w <> [] -> (1 <= averageRating /\ averageRating <= 5)%Q).
Proof.
  intros Hw. do 3 eexists. split; [reflexivity|].
  split; [reflexivity|]. split.
  - unfold histogram_total.
    rewrite <- (length_fmap Feedback.rating (feedbacks w)).
    rewrite <- (occurrences_total ratings (Feedback.rating <$> feedbacks w)).
    + f_equal. apply Forall_fmap_ext, Forall_forall. intros r Hr.
      apply rating_in_range in Hr. by rewrite ratingDistribution_lookup.
    + unfold ratings. apply (bool_decide_unpack _). by vm_compute.
    + intros r (f & -> & Hf)%list_elem_of_fmap. apply rating_in_range.
      rewrite Forall_forall in Hw. by apply Hw.
  - intros Hne.
    assert (Hrs : Feedback.rating <$> feedbacks w <> [])
      by (destruct (feedbacks w); [done|discriminate]).
    rewrite (average_or_zero_mean _ Hrs). apply mean_bounds; [done|].
    by apply Forall_fmap.
Qed.

(** [Math.round(x * 10) / 10] is within a twentieth of [x]. *)
Lemma round_one_decimal (x : Q) :
  (x - (1 # 20) < inject_Z (JS.Math_round (x * 10)) / 10
   /\ inject_Z (JS.Math_round (x * 10)) / 10 <= x + (1 # 20))%Q.
Proof.
  unfold JS.Math_round.
  assert (Hle := Qfloor_le (x * 10 + (1 # 2))).
  assert (Hlt := Qlt_floor (x * 10 + (1 # 2))).
  rewrite inject_Z_plus in Hlt.
  set (r := inject_Z (Qfloor (x * 10 + (1 # 2)))) in *.
  change (inject_Z 1) with 1%Q in Hlt.
  split.
  - apply Qlt_shift_div_l; [reflexivity|]. lra.
  - apply Qle_shift_div_r; [reflexivity|]. lra.
Qed.

(** X15.  [GET /admin/stats] never writes and always answers 200.  The
    counts of the status rows add up to [totalJobs] and those of the rating
    rows to [totalFeedbacks]; the rating rows come highest rating first;
    each count of the last thirty days is at most its total; each recent
    list holds [min 5 total] documents, newest first; and the average sent
    is within a twentieth of the average of [GET /feedback/stats]. *)
Theorem X15_admin_stats_add_up (w : World) :
  exists totalUsers totalJobs totalFeedbacks averageRating
         jobStatusStats feedbackRatingStats
         recentUsers recentJobs recentFeedbacks
         newUsers newJobs newFeedbacks,
    AdminRouter.stats w
    = (w, ok 200 None
            (AdminStats totalUsers totalJobs totalFeedbacks averageRating
               jobStatusStats feedbackRatingStats
               recentUsers recentJobs recentFeedbacks
               newUsers newJobs newFeedbacks))
    /\ totalJobs = length (jobs w)
    /\ totalFeedbacks = length (feedbacks w)
    /\ counted jobStatusStats = totalJobs
    /\ counted feedbackRatingStats = totalFeedbacks
    /\ StronglySorted row_above feedbackRatingStats
    /\ (newUsers <= totalUsers)%nat
    /\ (newJobs <= totalJobs)%nat
    /\ (newFeedbacks <= totalFeedbacks)%nat
    /\ length recentUsers = Nat.min 5 totalUsers
    /\ length recentJobs = Nat.min 5 totalJobs
    /\ length recentFeedbacks = Nat.min 5 totalFeedbacks
    /\ StronglySorted user_newer recentUsers
    /\ StronglySorted job_newer recentJobs
    /\ StronglySorted feedback_newer recentFeedbacks
    /\ (forall avg,
          sent_averageRating (FeedbackRouter.stats w).2 = Some avg ->
          (avg - (1 # 20) < averageRating
           /\ averageRating <= avg + (1 # 20))%Q).
Proof.
  do 12 eexists. split; [reflexivity|].
  split; [reflexivity|]. split; [reflexivity|].
  split; [|split; [|split; [|split; [|split; [|split]]]]].
  - rewrite counted_group_count. apply length_fmap.
  - unfold FeedbackRouter.rating_stats, counted.
    rewrite sort_by_perm. fold (counted (group_count
                                          (Feedback.rating <$> feedbacks w))).
    rewrite counted_group_count. apply length_fmap.
  - apply sorted_rows_descending.
  - apply length_filter_stronger. by intros u [_ Hu]%andb_true_iff.
  - apply List.filter_length_le.
  - apply List.filter_length_le.
  - split; [|split; [|split; [|split; [|split; [|split]]]]].
    + etrans; [exact (length_take_5 (sort_by _ _))|].
      f_equal. apply sort_by_length.
    + etrans; [exact (length_take_5 (sort_by _ _))|].
      f_equal. apply sort_by_length.
    + etrans; [exact (length_take_5 (sort_by _ _))|].
      f_equal. apply sort_by_length.
    + eapply (limit_skip_sorted _ 5 0); [reflexivity|].
      apply newest_user_first_sorted.
    + eapply (limit_skip_sorted _ 5 0); [reflexivity|].
      apply newest_job_first_sorted.
    + eapply (limit_skip_sorted _ 5 0); [reflexivity|].
      apply newest_feedback_first_sorted.
    + intros avg [= <-]. apply round_one_decimal.
Qed.
End Statistics.

Lemma X13_job_stats_add_up_witness :
  Forall (fun j => Job.status j ∈ Job.statuses) (jobs Sample.world)
  /\ exists statusStats recentJobs,
       JobsRouter.stats_overview (H := Sample.platform) Sample.alice
         Sample.world
       = (Sample.world, ok 200 None (JobStats 3 statusStats recentJobs))
       /\ histogram_total Job.statuses statusStats = 3%nat.
Proof.
  assert (Hw : Forall (fun j => Job.status j ∈ Job.statuses)
                 (jobs Sample.world)).
  { repeat constructor; apply (bool_decide_unpack _); by vm_compute. }
  split; [exact Hw|].
  destruct (X13_job_stats_add_up (H := Sample.platform) Sample.alice
              Sample.world Hw)
    as (n & m & recent & Heq & Hsum & Hn & _).
  exists m, recent. rewrite Hsum, Heq, Hn. split; reflexivity.
Defined.

Lemma X14_feedback_stats_add_up_witness :
  Forall (fun f => 1 <= Feedback.rating f <= 5) (feedbacks Sample.world)
  /\ exists averageRating ratingDistribution,
       FeedbackRouter.stats Sample.world
       = (Sample.world,
          ok 200 None (FeedbackStats 3 averageRating ratingDistribution))
       /\ histogram_total ratings ratingDistribution = 3%nat
       /\ (1 <= averageRating /\ averageRating <= 5)%Q.
Proof.
  assert (Hw : Forall (fun f => 1 <= Feedback.rating f <= 5)
                 (feedbacks Sample.world)).
  { repeat constructor; simpl; lia. }
  split; [exact Hw|].
  destruct (X14_feedback_stats_add_up Sample.world Hw)
    as (n & avg & m & Heq & Hn & Hsum & Havg).
  exists avg, m. rewrite Hsum, Heq, Hn.
  split; [reflexivity|]. split; [reflexivity|].
  apply Havg. discriminate.
Defined.

(** ** What the schema refuses *)

Section SchemaRefusal.
Context `{Platform}.

Lemma Job_validate_refuses (id uid : ObjectId) (t : Date)
    (applied : option Date) (b : Job.body) :
  Job_out_of_schema b ->
  Job_validate (Job_document id uid t applied b) = false.
Proof.
  unfold Job_validate, Job_document. simpl.
  intros [(s & -> & Hs)|(l & -> & Hl)]; simpl.
  - unfold Job_salary_ok. rewrite (proj2 (Z.leb_gt 0 s) Hs).
    by rewrite andb_false_r.
  - apply andb_false_iff. right. unfold maxlength. by apply Nat.leb_gt.
Qed.

Lemma Job_update_refuses (b : Job.body) :
  Job_out_of_schema b -> Job_update_ok b = false.
Proof.
  unfold Job_update_ok.
  intros [(s & -> & Hs)|(l & -> & Hl)]; simpl.
  - unfold Job_salary_ok. rewrite (proj2 (Z.leb_gt 0 s) Hs).
    by rewrite andb_false_r.
  - apply andb_false_iff. right. unfold maxlength. by apply Nat.leb_gt.
Qed.

Lemma jobValidation_out_of_schema (b b' : Job.body)
    (errors : list (string * string)) :
  Validation.jobValidation b = (b', errors) ->
  Job_out_of_schema b -> Job_out_of_schema b'.
Proof.
  unfold Validation.jobValidation. intros [= <- _]. done.
Qed.

(** X16.  A body for which [jobValidation] reports no error but which
    holds a negative salary (one above [- 10 ^ 21], then, as the salary
    chain has let it through) or a location of more than 100 characters is
    refused by the schema: both [POST /jobs] and, on a job of the caller's,
    [PUT /jobs/:id] answer [500] rather than [400], store nothing and
    publish nothing. *)
Theorem X16_schema_refusal (me : User.t) (id : ObjectId) (b : Job.body)
    (w : World) :
  (Validation.jobValidation b).2 = [] -> Job_out_of_schema b ->
  JobsRouter.create me b w = (w, fail 500 "Server error while creating job")
  /\ (forall old,
        List.find (owned id (User._id me)) (jobs w) = Some old ->
        JobsRouter.update me id b w
        = (w, fail 500 "Server error while updating job")).
Proof.
  intros Hacc Hbad.
  unfold JobsRouter.create, JobsRouter.update, Validation.validateRequest.
  destruct (Validation.jobValidation b) as [b' errors] eqn:Hv.
  simpl in Hacc. subst errors.
  apply (jobValidation_out_of_schema _ _ _ Hv) in Hbad.
  split.
  - unfold JobsRouter.create_handler, Job_create, Job_cast_appliedDate.
    unfold try_catch, bind, get, check, ret, throw.
    destruct (Job.b_appliedDate b') as [d|]; [destruct (castDate d)|];
      rewrite ?Job_validate_refuses by done; reflexivity.
  - intros old Hold.
    unfold JobsRouter.update_handler, Job_findOne, Job_findByIdAndUpdate,
      Job_cast_appliedDate.
    unfold try_catch, bind, get, check, ret, throw. rewrite Hold.
    destruct (Job.b_appliedDate b') as [d|]; [destruct (castDate d)|];
      rewrite ?Job_update_refuses by done; reflexivity.
Qed.
End SchemaRefusal.

(** A salary of [-1] passes the chain and is refused by the schema; a
    salary of [- 10 ^ 21] does not pass the chain. *)
Lemma X16_schema_refusal_witness :
  JobsRouter.create (H := Sample.platform) Sample.alice
    (Job.mkBody (Some "Acme") (Some "Engineer") None (Some "2024-03-01")
       None (Some (-1)) None None)
    Sample.world
  = (Sample.world, fail 500 "Server error while creating job")
  /\ (JobsRouter.create (H := Sample.platform) Sample.alice
        (Job.mkBody (Some "Acme") (Some "Engineer") None (Some "2024-03-01")
           None (Some (- 10 ^ 21)) None None)
        Sample.world).2
     = mkResponse 400 false (Some "Validation failed")
         (Errors [("salary", "Salary must be a number")]).
Proof.
  split; [|reflexivity].
  apply (X16_schema_refusal (H := Sample.platform) Sample.alice 10).
  - reflexivity.
  - left. exists (-1). split; [reflexivity|lia].
Defined.

(** ** Moderation *)

Section Moderation.
Context `{Platform}.

(** X17.  [DELETE /admin/feedback/:id], ids being unique: an unknown id
    answers [404] and changes nothing; a stored feedback is removed, no
    other feedback, job or user is touched and no event is published,
    whether the socket is up or not; a second [DELETE] of the same id
    answers [404]. *)
Theorem X17_feedback_delete (id : ObjectId) (w : World) :
  NoDup (Feedback._id <$> feedbacks w) ->
  (List.find (by_id Feedback._id id) (feedbacks w) = None ->
   AdminRouter.feedback_delete id w = (w, fail 404 "Feedback not found"))
  /\ (forall f,
        List.find (by_id Feedback._id id) (feedbacks w) = Some f ->
        exists w',
          AdminRouter.feedback_delete id w
          = (w', ok 200 (Some "Feedback deleted successfully") NoData)
          /\ List.find (by_id Feedback._id id) (feedbacks w') = None
          /\ (forall id', id' <> id ->
                List.find (by_id Feedback._id id') (feedbacks w')
                = List.find (by_id Feedback._id id') (feedbacks w))
          /\ S (length (feedbacks w')) = length (feedbacks w)
          /\ jobs w' = jobs w /\ users w' = users w
          /\ emitted w' = emitted w
          /\ AdminRouter.feedback_delete id w'
             = (w', fail 404 "Feedback not found")).
Proof.
  intros Hnd.
  unfold AdminRouter.feedback_delete, Feedback_findById,
    Feedback_findByIdAndDelete.
  unfold try_catch, bind, get, modify, ret.
  split.
  - intros ->. reflexivity.
  - intros f Hf. rewrite Hf. eexists. split; [reflexivity|].
    cbn [feedbacks set_feedbacks jobs users emitted].
    assert (Hgone := find_delete_first_gone Feedback._id id (feedbacks w) Hnd).
    split; [done|]. split; [|split; [|split; [|split; [|split]]]]; try done.
    + intros id' Hne. apply find_delete_first_other.
      intros x Hx. by apply (by_id_other _ id).
    + by apply (length_delete_first _ _ f).
    + by rewrite Hgone.
Qed.

(** X18.  [PUT /admin/users/:id/toggle-status]: an unknown id answers
    [404] and changes nothing; otherwise the answer is [200], its message
    tells the new state, and the user sent is the stored one with
    [isActive] negated and [updatedAt] set to the time of the request, its
    other fields, every other user, the jobs and the feedback being as
    before, and no event published. *)
Theorem X18_toggle_status_frame (id : ObjectId) (w : World) :
  (List.find (by_id User._id id) (users w) = None ->
   AdminRouter.toggle_status id w = (w, fail 404 "User not found"))
  /\ (forall u,
        List.find (by_id User._id id) (users w) = Some u ->
        exists w' u',
          AdminRouter.toggle_status id w
          = (w', ok 200 (Some (toggled_message (negb (User.isActive u))))
                   (UserData u'))
          /\ List.find (by_id User._id id) (users w') = Some u'
          /\ User.isActive u' = negb (User.isActive u)
          /\ User.updatedAt u' = now w
          /\ User._id u' = User._id u /\ User.name u' = User.name u
          /\ User.email u' = User.email u /\ User.role u' = User.role u
          /\ User.createdAt u' = User.createdAt u
          /\ (forall id', id' <> id ->
                List.find (by_id User._id id') (users w')
                = List.find (by_id User._id id') (users w))
          /\ length (users w') = length (users w)
          /\ jobs w' = jobs w /\ feedbacks w' = feedbacks w
          /\ emitted w' = emitted w).
Proof.
  unfold AdminRouter.toggle_status, User_findById, User_save.
  unfold try_catch, bind, get, modify, ret.
  split.
  - intros ->. reflexivity.
  - intros u Hf. rewrite Hf. pose proof (find_by_id _ _ _ _ Hf) as Hid.
    do 2 eexists. split.
    { assert (Hmsg : forall a : bool,
                ("User " ++ (if a then "activated" else "deactivated")
                   ++ " successfully")%string = toggled_message a)
        by (by intros []).
      cbn [User.isActive User.set_updatedAt User.set_isActive].
      rewrite Hmsg. reflexivity. }
    cbn [users set_users jobs feedbacks emitted User._id User.set_isActive
         User.set_updatedAt User.isActive User.updatedAt User.name
         User.email User.role User.createdAt].
    rewrite Hid.
    split; [|repeat (split; [done|])].
    + rewrite (find_update_first _ _ _ u Hf); [done|].
      unfold by_id. simpl. by apply Nat.eqb_eq.
    + split; [|by rewrite length_update_first].
      intros id' Hne. apply find_update_first_other.
      * intros x Hx. by apply (by_id_other _ id).
      * intros x Hx. unfold by_id. simpl. apply Nat.eqb_neq. congruence.
Qed.
End Moderation.

Lemma X17_feedback_delete_witness :
  NoDup (Feedback._id <$> feedbacks Sample.world)
  /\ List.find (by_id Feedback._id 21) (feedbacks Sample.world)
     = Some Sample.gripe
  /\ exists w',
       AdminRouter.feedback_delete 21 Sample.world
       = (w', ok 200 (Some "Feedback deleted successfully") NoData)
       /\ List.find (by_id Feedback._id 21) (feedbacks w') = None
       /\ code (AdminRouter.feedback_delete 21 w').2 = 404%nat.
Proof.
  assert (Hnd : NoDup (Feedback._id <$> feedbacks Sample.world))
    by apply sample_ids_unique.
  split; [exact Hnd|]. split; [reflexivity|].
  destruct (X17_feedback_delete 21 Sample.world Hnd) as [_ Hdel].
  destruct (Hdel Sample.gripe eq_refl)
    as (w' & Hrun & Hgone & _ & _ & _ & _ & _ & Hagain).
  exists w'. split; [exact Hrun|]. split; [exact Hgone|].
  by rewrite Hagain.
Defined.

Lemma X18_toggle_status_frame_witness :
  exists w' u',
    AdminRouter.toggle_status 2 Sample.world
    = (w', ok 200 (Some "User deactivated successfully") (UserData u'))
    /\ User.isActive u' = false
    /\ List.find (by_id User._id 1) (users w') = Some Sample.alice.
Proof.
  destruct (X18_toggle_status_frame 2 Sample.world) as [_ Htoggle].
  destruct (Htoggle Sample.bob eq_refl)
    as (w' & u' & Hrun & _ & Hflag & _ & _ & _ & _ & _ & _ & Hothers & _).
  exists w', u'. split; [exact Hrun|]. split; [exact Hflag|].
  by rewrite (Hothers 1%nat).
Defined.

(** ** Registration and login *)

Section Credentials.
Context `{Platform}.

(** X19.  A registration that [registerValidation] accepts has a trimmed
    name of 2 to 50 characters, an address [isEmail] accepts, a password of
    at least 6 characters and, when it names one, the role [applicant] or
    [admin]; its address and password then pass [loginValidation], which
    normalises the address to the same value. *)
Theorem X19_registered_can_log_in (b : Validation.registration) :
  (Validation.registerValidation b).2 = [] ->
  (2 <= String.length (JS.trim (default "" (Validation.r_name b))) <= 50)%nat
  /\ isEmail (default "" (Validation.r_email b)) = true
  /\ (6 <= String.length (default "" (Validation.r_password b)))%nat
  /\ (forall role, Validation.r_role b = Some role ->
        role = "applicant" \/ role = "admin")
  /\ (Validation.loginValidation
        (Validation.mkCredentials (Validation.r_email b)
           (Validation.r_password b))).2 = []
  /\ Validation.l_email
       (Validation.loginValidation
          (Validation.mkCredentials (Validation.r_email b)
             (Validation.r_password b))).1
     = Validation.r_email (Validation.registerValidation b).1.
Proof.
  unfold Validation.registerValidation, Validation.loginValidation.
  cbn [snd fst concat Validation.l_email Validation.l_password
       Validation.r_email].
  rewrite !app_nil, !rule_nil, isLength_spec, opt_ok_spec.
  unfold Validation.toString, Validation.isLength_min, Validation.notEmpty.
  intros (Hname & Hemail & Hpw & Hrole & _).
  apply Nat.leb_le in Hpw.
  split; [done|]. split; [done|]. split; [done|]. split; [|split; [|done]].
  - intros role Hr. apply Hrole, includes_elem_of in Hr.
    apply elem_of_cons in Hr as [->|Hr]; [by left|].
    apply elem_of_cons in Hr as [->|Hr]; [by right|].
    by apply elem_of_nil in Hr.
  - split; [done|]. split; [|done].
    destruct (default "" (Validation.r_password b)) as [|c pw] eqn:Hp.
    + simpl in Hpw. lia.
    + reflexivity.
Qed.
End Credentials.

Lemma X19_registered_can_log_in_witness :
  (Validation.loginValidation (H := Sample.platform)
     (Validation.mkCredentials (Some "Ann@Example.com") (Some "secret1"))).2
  = [].
Proof.
  apply (X19_registered_can_log_in (H := Sample.platform)
           (Validation.mkRegistration (Some " Ann ") (Some "Ann@Example.com")
              (Some "secret1") None)).
  reflexivity.
Defined.

(** ** The database along a session *)

Section Sessions.
Context `{Platform}.

Lemma length_serve_all (rqs : list Request) (w : World) :
  length (serve_all rqs w).2 = length rqs.
Proof.
  revert w. induction rqs as [|rq rqs IH]; intros w; simpl; [done|].
  destruct (serve rq w) as [w1 r]. specialize (IH w1).
  destruct (serve_all rqs w1) as [w2 rs]. simpl in *. by rewrite IH.
Qed.

(** X20.  Whatever requests are served, one after the other, on a database
    that has unique ids below the next id, jobs with a status of the enum
    and a company and a position that are not empty, and feedback with a
    rating from 1 to 5 and a status of the enum: the database they leave
    has all of this again, and each request was answered. *)
Theorem X20_sessions_keep_the_schema (rqs : list Request) (w : World) :
  consistent w ->
  unique_ids (serve_all rqs w).1
  /\ Forall Job_invariant (jobs (serve_all rqs w).1)
  /\ Forall Feedback_invariant (feedbacks (serve_all rqs w).1)
  /\ consistent (serve_all rqs w).1
  /\ length (serve_all rqs w).2 = length rqs.
Proof.
  intros Hw. pose proof (serve_all_consistent rqs w Hw) as Hw'.
  split; [apply Hw'|]. split; [apply Hw'|]. split; [apply Hw'|].
  split; [done|]. apply length_serve_all.
Qed.
End Sessions.

Lemma X20_sessions_keep_the_schema_witness :
  consistent Sample.empty
  /\ unique_ids
       (serve_all (H := Sample.platform)
          [POST_job Sample.alice Sample.dated;
           POST_feedback Sample.five_stars;
           PUT_job Sample.alice 1 Sample.promoted;
           DELETE_admin_feedback 2] Sample.empty).1.
Proof.
  split; [exact empty_consistent|].
  apply (X20_sessions_keep_the_schema (H := Sample.platform)).
  exact empty_consistent.
Defined.

(** ** The properties above, on the sample world *)

Lemma X3_at_most_one_event_witness :
  emitted (serve (H := Sample.platform)
             (POST_job Sample.alice Sample.dated) Sample.world).1 <> [].
Proof.
  destruct (X3_at_most_one_event (H := Sample.platform)
              (POST_job Sample.alice Sample.dated) Sample.world)
    as (es & Hes & _ & Hannounced).
  rewrite Hes. simpl. by apply Hannounced.
Defined.

(** A salary of [10 ^ 21] is printed [1e+21]: the one error is that of the
    salary chain. *)
Lemma X4_job_body_accepted_witness :
  JobsRouter.create (H := Sample.platform) Sample.alice
    (Job.mkBody (Some "Acme") (Some "Engineer") None (Some "2024-03-01")
       None (Some (10 ^ 21)) None None)
    Sample.world
  = (Sample.world,
     mkResponse 400 false (Some "Validation failed")
       (Errors [("salary", "Salary must be a number")])).
Proof.
  apply (X4_job_body_accepted (H := Sample.platform) Sample.alice 10
           (Job.mkBody (Some "Acme") (Some "Engineer") None
              (Some "2024-03-01") None (Some (10 ^ 21)) None None)
           Sample.world).
  intros (_ & _ & _ & _ & _ & Hsalary).
  specialize (Hsalary (10 ^ 21) eq_refl). lia.
Defined.

Lemma X5_feedback_body_accepted_witness :
  FeedbackRouter.create (H := Sample.platform)
    (Feedback.mkBody None None (Some "Great tool") (Some 6) None None None)
    Sample.world
  = (Sample.world,
     mkResponse 400 false (Some "Validation failed")
       (Errors [("rating", "Rating must be between 1 and 5")])).
Proof.
  apply (X5_feedback_body_accepted (H := Sample.platform)
           (Feedback.mkBody None None (Some "Great tool") (Some 6) None None
              None)
           Sample.world).
  intros (_ & (r & Hr & Hrange) & _). simpl in Hr.
  injection Hr as <-. lia.
Defined.

Lemma X10_index_is_scoped_witness :
  sent_jobs
    (JobsRouter.index (H := Sample.platform) Sample.alice
       (JobsRouter.mkListQuery (Some "applied") None None None None)
       Sample.world).2
  = Some [Sample.hooli; Sample.acme]
  /\ Sample.hooli ∈ [Sample.hooli; Sample.acme]
  /\ Sample.hooli ∈ jobs Sample.world
  /\ Job.user Sample.hooli = User._id Sample.alice.
Proof.
  assert (Hin : Sample.hooli ∈ [Sample.hooli; Sample.acme])
    by apply list_elem_of_here.
  split; [reflexivity|]. split; [exact Hin|].
  destruct (X10_index_is_scoped (H := Sample.platform) Sample.alice
              (JobsRouter.mkListQuery (Some "applied") None None None None)
              Sample.world [Sample.hooli; Sample.acme] Sample.hooli
              eq_refl Hin)
    as (Hstored & Hmine & _).
  split; [exact Hstored | exact Hmine].
Defined.

Lemma X11_index_order_witness :
  sent_jobs
    (JobsRouter.index (H := Sample.platform) Sample.alice
       (JobsRouter.mkListQuery None None None None None) Sample.world).2
  = Some [Sample.hooli; Sample.globex; Sample.acme]
  /\ StronglySorted job_newer [Sample.hooli; Sample.globex; Sample.acme].
Proof.
  split; [reflexivity|].
  apply (X11_index_order (H := Sample.platform) Sample.alice
           (JobsRouter.mkListQuery None None None None None) Sample.world);
    reflexivity.
Defined.

Lemma X12_public_feedback_witness :
  sent_feedbacks
    (FeedbackRouter.public (H := Sample.platform)
       (FeedbackRouter.mkPublicQuery None None None) Sample.world).2
  = Some [Sample.gripe; FeedbackRouter.without_email Sample.praise]
  /\ StronglySorted feedback_newer
       [Sample.gripe; FeedbackRouter.without_email Sample.praise].
Proof.
  split; [reflexivity|].
  apply (X12_public_feedback (H := Sample.platform)
           (FeedbackRouter.mkPublicQuery None None None) Sample.world).
  reflexivity.
Defined.

Lemma X15_admin_stats_add_up_witness :
  exists avg sent,
    sent_averageRating (FeedbackRouter.stats Sample.world).2 = Some avg
    /\ sent_averageRating
         (AdminRouter.stats (H := Sample.platform) Sample.world).2
       = Some sent
    /\ (avg - (1 # 20) < sent /\ sent <= avg + (1 # 20))%Q.
Proof.
  destruct (X15_admin_stats_add_up (H := Sample.platform) Sample.world)
    as (tu & tj & tf & sent & js & fs & ru & rj & rf & nu & nj & nf
        & Heq & Hrest).
  do 14 apply proj2 in Hrest.
  eexists _, sent. split; [reflexivity|]. split; [by rewrite Heq|].
  by apply Hrest.
Defined.

(** ** The admin lists *)

Section AdminLists.
Context `{Platform}.

Lemma admin_feedback_data (rq : AdminRouter.FeedbackListQuery) (w : World)
    (data : list Feedback.t) :
  sent_feedbacks (AdminRouter.feedback rq w).2 = Some data ->
  exists L S,
    limit_skip L S
      (sort_by FeedbackRouter.newest_first
         (Feedback_find
            (mkFeedbackQuery None (AdminRouter.f_rating rq)
               (if JS.truthy (AdminRouter.f_status rq)
                then AdminRouter.f_status rq else None))
            w))
    = inr data.
Proof.
  unfold AdminRouter.feedback. run.
  destruct (limit_skip _ _ _) as [e|page] eqn:Hpage; simpl; [done|].
  unfold sent_feedbacks. simpl. intros [= <-]. by do 2 eexists.
Qed.

(** X21.  What [GET /admin/feedback] sends is feedback from the database,
    address included, newest first; under a [rating] filter every one has
    that rating, and under a [status] that is not empty every one has that
    status.  ['all'] is no wild card here: once every stored status is of
    the enum, a [status] outside it selects nothing. *)
Theorem X21_admin_feedback_list (rq : AdminRouter.FeedbackListQuery)
    (w : World) (data : list Feedback.t) :
  sent_feedbacks (AdminRouter.feedback rq w).2 = Some data ->
  StronglySorted feedback_newer data
  /\ (forall f, f ∈ data ->
        f ∈ feedbacks w
        /\ (forall r, AdminRouter.f_rating rq = Some r ->
              Feedback.rating f = r)
        /\ (forall s, AdminRouter.f_status rq = Some s -> s <> "" ->
              Feedback.status f = s))
  /\ (forall s,
        AdminRouter.f_status rq = Some s -> s <> "" ->
        s ∉ Feedback.statuses ->
        Forall (fun f => Feedback.status f ∈ Feedback.statuses)
          (feedbacks w) ->
        data = []).
Proof.
  intros (L & S & Hpage)%admin_feedback_data.
  assert (Hdata : forall f, f ∈ data ->
            f ∈ feedbacks w
            /\ (forall r, AdminRouter.f_rating rq = Some r ->
                  Feedback.rating f = r)
            /\ (forall s, AdminRouter.f_status rq = Some s -> s <> "" ->
                  Feedback.status f = s)).
  { intros f Hin.
    apply limit_skip_subseteq in Hpage. apply Hpage in Hin.
    rewrite sort_by_perm in Hin. unfold Feedback_find in Hin.
    apply list_elem_of_In, List.filter_In in Hin as [Hin Hm].
    apply list_elem_of_In in Hin.
    unfold Feedback_matches in Hm. simpl in Hm.
    apply andb_prop in Hm as [Hr Hs].
    split; [done|]. split.
    - intros r Hrq. rewrite Hrq in Hr. simpl in Hr. by apply Z.eqb_eq.
    - intros s Hrq Hne. rewrite Hrq in Hs. simpl in Hs.
      apply String.eqb_neq in Hne. rewrite Hne in Hs. simpl in Hs.
      by apply String.eqb_eq. }
  split; [|split; [exact Hdata|]].
  - eapply limit_skip_sorted; [exact Hpage|].
    apply newest_feedback_first_sorted.
  - intros s Hrq Hne Hout Hw.
    destruct data as [|f data]; [done|]. exfalso.
    destruct (Hdata f) as (Hin & _ & Hs); [by left|].
    apply Hout. rewrite <- (Hs s Hrq Hne).
    rewrite Forall_forall in Hw. by apply Hw.
Qed.

Lemma admin_users_data (rq : AdminRouter.UsersQuery) (w : World)
    (data : list (User.t * nat)) :
  sent_users (AdminRouter.users rq w).2 = Some data ->
  exists found L S,
    data = (fun user =>
              (user,
               Job_countDocuments
                 (mkJobQuery (Some (User._id user)) None None) w))
             <$> found
    /\ limit_skip L S
         (sort_by AdminRouter.newest_user_first
            (List.filter
               (AdminRouter.users_filter (AdminRouter.u_search rq)
                  (AdminRouter.u_role rq))
               (users w)))
       = inr found.
Proof.
  unfold AdminRouter.users. run.
  destruct (pattern_ok _); simpl; [|done].
  destruct (limit_skip _ _ _) as [e|found] eqn:Hfound; simpl; [done|].
  unfold sent_users. simpl. intros [= <-]. by exists found; do 2 eexists.
Qed.

(** X22.  What [GET /admin/users] sends is users from the database, newest
    first, each with the number of jobs stored under its id; under a
    [role] that is not empty every one has that role. *)
Theorem X22_admin_users_list (rq : AdminRouter.UsersQuery) (w : World)
    (data : list (User.t * nat)) :
  sent_users (AdminRouter.users rq w).2 = Some data ->
  StronglySorted user_newer data.*1
  /\ forall u n, (u, n) ∈ data ->
       u ∈ users w
       /\ n = length (List.filter
                       (fun j => (Job.user j =? User._id u)%nat) (jobs w))
       /\ (forall r, AdminRouter.u_role rq = Some r -> r <> "" ->
             User.role u = r).
Proof.
  intros (found & L & S & -> & Hpage)%admin_users_data. split.
  - rewrite <- list_fmap_compose.
    assert (Hfst : forall (f : User.t -> nat) (l : list User.t),
              (fst ∘ (fun user => (user, f user))) <$> l = l).
    { intros f l. induction l as [|u l IH]; [done|]. csimpl. by rewrite IH. }
    rewrite Hfst.
    eapply limit_skip_sorted; [exact Hpage|].
    apply newest_user_first_sorted.
  - intros u n (user & [= -> ->] & Hin)%list_elem_of_fmap.
    apply limit_skip_subseteq in Hpage. apply Hpage in Hin.
    rewrite sort_by_perm in Hin.
    apply list_elem_of_In, List.filter_In in Hin as [Hin Hm].
    apply list_elem_of_In in Hin.
    split; [done|]. split.
    + unfold Job_countDocuments, Job_find. f_equal.
      apply List.filter_ext. intros j. unfold Job_matches. simpl.
      by rewrite !andb_true_r.
    + intros r Hrq Hne. unfold AdminRouter.users_filter in Hm.
      apply andb_prop in Hm as [_ Hrole]. rewrite Hrq in Hrole.
      simpl in Hrole. apply String.eqb_neq in Hne. rewrite Hne in Hrole.
      simpl in Hrole. by apply String.eqb_eq.
Qed.
End AdminLists.

Lemma X21_admin_feedback_list_witness :
  sent_feedbacks
    (AdminRouter.feedback (H := Sample.platform)
       (AdminRouter.mkFeedbackListQuery None None None (Some "all"))
       Sample.world).2
  = Some []
  /\ sent_feedbacks
       (AdminRouter.feedback (H := Sample.platform)
          (AdminRouter.mkFeedbackListQuery None None None (Some "pending"))
          Sample.world).2
     = Some [Sample.gripe; Sample.praise]
  /\ StronglySorted feedback_newer [Sample.gripe; Sample.praise].
Proof.
  split; [reflexivity|]. split; [reflexivity|].
  apply (X21_admin_feedback_list (H := Sample.platform)
           (AdminRouter.mkFeedbackListQuery None None None (Some "pending"))
           Sample.world).
  reflexivity.
Defined.

Lemma X22_admin_users_list_witness :
  sent_users
    (AdminRouter.users (H := Sample.platform)
       (AdminRouter.mkUsersQuery None None None (Some "applicant"))
       Sample.world).2
  = Some [(Sample.bob, 1%nat); (Sample.alice, 3%nat)]
  /\ StronglySorted user_newer [Sample.bob; Sample.alice].
Proof.
  split; [reflexivity|].
  apply (X22_admin_users_list (H := Sample.platform)
           (AdminRouter.mkUsersQuery None None None (Some "applicant"))
           Sample.world [(Sample.bob, 1%nat); (Sample.alice, 3%nat)]).
  reflexivity.
Defined.

(** ** Submitting feedback *)

Section FeedbackCreation.
Context `{Platform}.

Lemma Feedback_create_document (b : Feedback.body) (w w1 : World)
    (f : Feedback.t) :
  Feedback_create b w = (w1, inr f) ->
  exists r,
    Feedback.b_rating b = Some r
    /\ f = Feedback_document (nextId w) (now w) r b
    /\ Feedback_validate f = true.
Proof.
  unfold Feedback_create. run.
  destruct (Feedback.b_rating b) as [r|]; [|done].
  destruct (Feedback_validate _) eqn:Hok; simpl; [|done].
  intros [= <- <-]. by exists r.
Qed.

(** X23.  When [POST /feedback] answers [201], the feedback it sends is
    stored as the last one, under a fresh id: with the rating of the body,
    which lies between 1 and 5, the trimmed text and name, the category
    [general], the status [pending] and [isPublic] unless the body sets
    them, and both time stamps at the time of the request.  One
    [new-feedback] event carrying it went to the admin room, and no job or
    user changed. *)
Theorem X23_submitted_feedback_is_stored (b : Feedback.body) (w w' : World)
    (r : Response) :
  Forall (fun f => (Feedback._id f < nextId w)%nat) (feedbacks w) ->
  FeedbackRouter.create b w = (w', r) ->
  code r = 201%nat ->
  exists f rating,
    sent_feedback r = Some f
    /\ Feedback.b_rating b = Some rating /\ 1 <= rating <= 5
    /\ Feedback.rating f = rating
    /\ Feedback._id f = nextId w
    /\ Feedback.feedback f = JS.trim (default "" (Feedback.b_feedback b))
    /\ Feedback.name f = JS.trim <$> Feedback.b_name b
    /\ Feedback.category f = default "general" (Feedback.b_category b)
    /\ Feedback.isPublic f = default true (Feedback.b_isPublic b)
    /\ Feedback.status f = default "pending" (Feedback.b_status b)
    /\ Feedback.createdAt f = now w /\ Feedback.updatedAt f = now w
    /\ feedbacks w' = feedbacks w ++ [f]
    /\ List.find (by_id Feedback._id (nextId w)) (feedbacks w') = Some f
    /\ jobs w' = jobs w /\ users w' = users w
    /\ emitted w'
       = emitted w
         ++ [mkEmission (Some "admin-room")
               (new_feedback "New feedback received" f (now w))].
Proof.
  intros Hbelow Hrun Hcode.
  unfold FeedbackRouter.create, Validation.validateRequest in Hrun.
  destruct (Validation.feedbackValidation b) as [b' errors] eqn:Hv.
  destruct errors as [|e errors];
    [|injection Hrun as <- <-; discriminate].
  unfold FeedbackRouter.create_handler, try_catch, bind in Hrun.
  destruct (Feedback_create b' w) as [w1 [e|f]] eqn:Hcreate;
    [injection Hrun as <- <-; discriminate|].
  pose proof (Feedback_create_run _ _ _ _ Hcreate) as ->.
  destruct (Feedback_create_document _ _ _ _ Hcreate)
    as (rating & Hrating & Hdoc & Hok).
  unfold get, emit, ret in Hrun. simpl in Hrun.
  destruct (ioUp w); injection Hrun as <- <-; [|discriminate].
  unfold Validation.feedbackValidation in Hv. injection Hv as <-.
  simpl in Hrating.
  pose proof (Feedback_validate_invariant f Hok) as [Hrange _].
  assert (Hid : Feedback._id f = nextId w) by by rewrite Hdoc.
  exists f, rating. split; [done|]. split; [done|].
  assert (Hr : Feedback.rating f = rating) by by rewrite Hdoc.
  split; [by rewrite <- Hr|]. split; [done|]. split; [done|].
  split.
  { rewrite Hdoc. simpl. unfold Validation.toString.
    apply trim_idempotent. }
  split.
  { rewrite Hdoc. simpl. destruct (Feedback.b_name b); simpl; [|done].
    by rewrite trim_idempotent. }
  do 5 (split; [by rewrite Hdoc|]).
  split; [done|]. split; [|done]. simpl.
  apply find_snoc_fresh.
  - intros y Hy. rewrite Forall_forall in Hbelow. specialize (Hbelow y Hy).
    unfold by_id. apply Nat.eqb_neq. lia.
  - unfold by_id. rewrite Hid. apply Nat.eqb_refl.
Qed.
End FeedbackCreation.

Lemma X23_submitted_feedback_is_stored_witness :
  Forall (fun f => (Feedback._id f < nextId Sample.world)%nat)
    (feedbacks Sample.world)
  /\ code (FeedbackRouter.create (H := Sample.platform) Sample.five_stars
             Sample.world).2 = 201%nat
  /\ exists f,
       sent_feedback
         (FeedbackRouter.create (H := Sample.platform) Sample.five_stars
            Sample.world).2 = Some f
       /\ Feedback.rating f = 5
       /\ Feedback.status f = "pending".
Proof.
  assert (Hbelow : Forall (fun f => (Feedback._id f < nextId Sample.world)%nat)
                     (feedbacks Sample.world))
    by (repeat constructor; simpl; lia).
  split; [exact Hbelow|]. split; [reflexivity|].
  destruct (X23_submitted_feedback_is_stored (H := Sample.platform)
              Sample.five_stars Sample.world _ _ Hbelow
              (surjective_pairing _) eq_refl)
    as (f & rating & Hsent & Hrating & _ & Hr & _ & _ & _ & _ & _ & Hs & _).
  exists f. split; [exact Hsent|].
  injection Hrating as <-. split; [exact Hr | exact Hs].
Defined.
